(** * QualiAgua: compliance evaluation and aggregation of water-quality samples

    A shallow embedding of [app.py]: the reference table
    [VALORES_REFERENCIA], the per-row evaluator [verificar_conformidade],
    the loader [carregar_dados], the four aggregators
    [calcular_estatisticas], [obter_dados_bairros],
    [obter_distribuicao_mes] and [obter_distribuicao_ponto_coleta], the
    three routes that serve the grouping aggregators, and the list of
    neighbourhoods that [index] builds.

    Conventions of the embedding.
    - Python [float] is IEEE-754 binary64, modelled by [spec_float] with
      precision 53 and maximal exponent 1024; every operation rounds to
      nearest, ties to even.
    - Python [str] is modelled by [string], holding the bytes of the
      UTF-8 form of the text.  What [strip], [upper], [lower], [float]
      and [int] do is defined for a text in ASCII; for a text with a
      character outside ASCII it is a parameter of the development (the
      class [PyStr.Unicode]), so that every theorem holds for whatever
      the running Python does there.
    - A data frame is a list of column names and a list of typed rows.
      Text columns hold a string or are missing, numeric columns hold a
      binary64 number or are missing, as [pd.read_csv] infers them for the
      cleaned file; [NaN] in a numeric column counts as missing, as
      [pd.isna] has it.  Cells of columns that no modelled function reads
      (identifier, date, unit, coordinates) are not represented; their
      names still live in the column list.
    - Data frames are mutable objects: they live in a heap and are
      manipulated through references, so that copying and in-place updates
      are visible.
    - Exceptions are explicit: a computation returns a value or raises.
      Messages printed by the handlers are not modelled, except those of
      the evaluator in [verificar_conformidade_ev]. *)

From Stdlib Require Import ZArith String Ascii List Bool Lia.
From Stdlib Require Import SpecFloat.
From stdpp Require Import base gmap strings list sorting.

Local Open Scope Z_scope.

(* ===================================================================== *)
(** * Part I. Definitions *)
(* ===================================================================== *)

(** ** Python exceptions and outcomes *)

Inductive exn : Type :=
  | ValueError
  | TypeError
  | KeyError
  | FileNotFoundError
  | OtherError.

Inductive result (A : Type) : Type :=
  | Ok (a : A)
  | Raise (e : exn).
Arguments Ok {A} a.
Arguments Raise {A} e.

Definition exn_eqb (a b : exn) : bool :=
  match a, b with
  | ValueError, ValueError | TypeError, TypeError | KeyError, KeyError
  | FileNotFoundError, FileNotFoundError | OtherError, OtherError => true
  | _, _ => false
  end.

(** [except (E1, E2, ...)]: does the clause catch [e]? *)
Definition catches (classes : list exn) (e : exn) : bool :=
  existsb (exn_eqb e) classes.

(** [try: body  except classes: handler] *)
Definition try_except {A} (body : result A) (classes : list exn)
    (handler : result A) : result A :=
  match body with
  | Ok a => Ok a
  | Raise e => if catches classes e then handler else Raise e
  end.

(** [try: body  except Exception: handler] *)
Definition try_except_Exception {A} (body : result A) (handler : result A)
    : result A :=
  match body with
  | Ok a => Ok a
  | Raise _ => handler
  end.

(** ** binary64 numbers *)

Module F64.

Definition float : Type := spec_float.

Definition prec : Z := 53.
Definition emax : Z := 1024.

Definition leb : float -> float -> bool := SFleb.
Definition eqb : float -> float -> bool := SFeqb.
Definition mul : float -> float -> float := SFmul prec emax.
Definition div : float -> float -> float := SFdiv prec emax.
Definition sub : float -> float -> float := SFsub prec emax.

Definition is_nan (x : float) : bool :=
  match x with S754_nan => true | _ => false end.

(** Conversion of an integer, as [float(n)] does it. *)
Definition of_Z (n : Z) : float := binary_normalize prec emax n 0 false.

(** The correctly rounded quotient of two positive integers. *)
Definition round_quotient (s : bool) (n d : positive) : float :=
  let '(q, e, l) := SFdiv_core_binary prec emax (Zpos n) 0 (Zpos d) 0 in
  binary_round_aux prec emax s q e l.

(** The binary64 number nearest to [(-1)^s * m * 10^e], as Python's
    correctly rounded string conversion yields it.  The two guards only
    cut the computation short where the result is already decided:
    [m * 10^e >= 10^400] overflows, and a value below [2^-1075] rounds
    to zero ([25 * log2 10 > 83]). *)
Definition of_decimal (s : bool) (m : Z) (e : Z) : float :=
  match m with
  | Zpos p =>
      if 0 <=? e then
        if 400 <? e then S754_infinity s
        else binary_normalize prec emax
               (if s then - (m * 10 ^ e) else m * 10 ^ e) 0 false
      else if 25 * (Z.log2 m + 1) + 83 * e <=? -1075 * 25 then S754_zero s
      else round_quotient s p (Z.to_pos (10 ^ (- e)))
  | _ => S754_zero s
  end.

End F64.

(** ** Python strings *)

Module PyStr.

Definition code (c : ascii) : nat := nat_of_ascii c.

Definition between (lo hi : nat) (c : ascii) : bool :=
  (lo <=? code c)%nat && (code c <=? hi)%nat.

Definition is_digit : ascii -> bool := between 48 57.

(** [str.isspace] on the ASCII range: TAB, LF, VT, FF, CR, the four
    separators FS, GS, RS, US, and the space. *)
Definition is_space (c : ascii) : bool :=
  between 9 13 c || between 28 31 c || (code c =? 32)%nat.

(** C's [isspace], which [float()] uses to trim its argument. *)
Definition is_c_space (c : ascii) : bool :=
  between 9 13 c || (code c =? 32)%nat.

Definition upper_char (c : ascii) : ascii :=
  if between 97 122 c then ascii_of_nat (code c - 32) else c.

Definition lower_char (c : ascii) : ascii :=
  if between 65 90 c then ascii_of_nat (code c + 32) else c.

Fixpoint map_chars (f : ascii -> ascii) (s : string) : string :=
  match s with
  | EmptyString => EmptyString
  | String c s' => String (f c) (map_chars f s')
  end.

(** [s.upper()] and [s.lower()] of a text in ASCII *)
Definition upper_ascii : string -> string := map_chars upper_char.
Definition lower_ascii : string -> string := map_chars lower_char.

Fixpoint lstrip_with (sp : ascii -> bool) (s : string) : string :=
  match s with
  | EmptyString => EmptyString
  | String c s' => if sp c then lstrip_with sp s' else s
  end.

Fixpoint rstrip_with (sp : ascii -> bool) (s : string) : string :=
  match s with
  | EmptyString => EmptyString
  | String c s' =>
      match rstrip_with sp s' with
      | EmptyString => if sp c then EmptyString else String c EmptyString
      | t => String c t
      end
  end.

(** [s.strip()] of a text in ASCII *)
Definition strip_ascii (s : string) : string :=
  rstrip_with is_space (lstrip_with is_space s).

(** [s.replace(old, new)] for a one-character [old]. *)
Fixpoint replace (old : ascii) (new : string) (s : string) : string :=
  match s with
  | EmptyString => EmptyString
  | String c s' =>
      if Ascii.eqb c old then (new ++ replace old new s')%string
      else String c (replace old new s')
  end.

(** *** [float(s)] for a text [s] in ASCII

    The grammar is that of CPython: underscores are allowed between two
    digits only and are dropped, C whitespace is trimmed at both ends,
    then the whole rest must be a decimal numeral (optional sign, digits
    with an optional point, optional exponent) or one of [inf],
    [infinity], [nan] with an optional sign, in any case.  Anything else
    raises [ValueError]. *)

Fixpoint strip_underscores (prev : ascii) (s : string) : option string :=
  match s with
  | EmptyString => if Ascii.eqb prev "_" then None else Some EmptyString
  | String c s' =>
      if Ascii.eqb c "_" then
        if is_digit prev then strip_underscores c s' else None
      else if Ascii.eqb prev "_" && negb (is_digit c) then None
      else option_map (String c) (strip_underscores c s')
  end.

(** Reads a run of digits: the number read so far, how many digits were
    read, and what follows them. *)
Fixpoint scan_digits (s : string) (acc : Z) (n : Z) : Z * Z * string :=
  match s with
  | String c s' =>
      if is_digit c
      then scan_digits s' (10 * acc + Z.of_nat (code c - 48)) (n + 1)
      else (acc, n, s)
  | EmptyString => (acc, n, s)
  end.

Definition take_sign (s : string) : bool * string :=
  match s with
  | String "-" s' => (true, s')
  | String "+" s' => (false, s')
  | _ => (false, s)
  end.

(** An exponent part is read only when at least one digit follows the
    letter and the optional sign. *)
Definition parse_exponent (s : string) : option (Z * string) :=
  match s with
  | String c s' =>
      if Ascii.eqb c "e" || Ascii.eqb c "E" then
        let '(neg, s1) := take_sign s' in
        let '(e, n, s2) := scan_digits s1 0 0 in
        if n =? 0 then None else Some (if neg then - e else e, s2)
      else None
  | EmptyString => None
  end.

Definition parse_decimal (s : string) : option F64.float :=
  let '(neg, s1) := take_sign s in
  let '(m1, n1, s2) := scan_digits s1 0 0 in
  let '(m2, n2, s3) :=
    match s2 with
    | String "." t => scan_digits t m1 0
    | _ => (m1, 0, s2)
    end in
  if n1 + n2 =? 0 then None
  else
    let '(e, s4) :=
      match parse_exponent s3 with
      | Some (e, r) => (e, r)
      | None => (0, s3)
      end in
    match s4 with
    | EmptyString => Some (F64.of_decimal neg m2 (e - n2))
    | _ => None
    end.

Definition parse_inf_or_nan (s : string) : option F64.float :=
  let '(neg, t) := take_sign s in
  let t' := lower_ascii t in
  if String.eqb t' "inf" || String.eqb t' "infinity"
  then Some (S754_infinity neg)
  else if String.eqb t' "nan" then Some S754_nan
  else None.

Definition float_of_ascii (s : string) : result F64.float :=
  match strip_underscores zero s with
  | None => Raise ValueError
  | Some t =>
      let u := rstrip_with is_c_space (lstrip_with is_c_space t) in
      match parse_decimal u with
      | Some x => Ok x
      | None =>
          match parse_inf_or_nan u with
          | Some x => Ok x
          | None => Raise ValueError
          end
      end
  end.

(** [int(s)] for a text in ASCII: the grammar of [float] without point,
    exponent and names. *)
Definition int_of_ascii (s : string) : result Z :=
  match strip_underscores zero s with
  | None => Raise ValueError
  | Some t =>
      let u := rstrip_with is_c_space (lstrip_with is_c_space t) in
      let '(neg, v) := take_sign u in
      let '(n, k, rest) := scan_digits v 0 0 in
      match rest with
      | EmptyString =>
          if 0 <? k then Ok (if neg then - n else n) else Raise ValueError
      | _ => Raise ValueError
      end
  end.

(** *** Text outside ASCII

    A [str] is held as the bytes of its UTF-8 form, so a character
    outside ASCII shows as bytes from 128 on.  The functions above are
    what Python computes on a text in ASCII.  On any other text
    [strip], [upper], [lower], [float] and [int] follow the Unicode
    character database (more characters are white space, letters of
    many scripts change case, digits of other scripts are read); the
    database is not part of this development, so what they return
    there is left open: it is a parameter of everything below. *)

(** [s.isascii()] *)
Definition is_ascii_char (c : ascii) : bool := (code c <? 128)%nat.

Fixpoint is_ascii (s : string) : bool :=
  match s with
  | EmptyString => true
  | String c s' => is_ascii_char c && is_ascii s'
  end.

Class Unicode : Type := {
  unicode_strip : string -> string;
  unicode_upper : string -> string;
  unicode_lower : string -> string;
  unicode_float : string -> result F64.float;
  unicode_int : string -> result Z
}.

Section Builtins.

Context {py : Unicode}.

(** [s.strip()], [s.upper()] and [s.lower()] *)
Definition strip (s : string) : string :=
  if is_ascii s then strip_ascii s else unicode_strip s.

Definition upper (s : string) : string :=
  if is_ascii s then upper_ascii s else unicode_upper s.

Definition lower (s : string) : string :=
  if is_ascii s then lower_ascii s else unicode_lower s.

(** [float(s)] and [int(s)] for a string [s] *)
Definition float_of_str (s : string) : result F64.float :=
  if is_ascii s then float_of_ascii s else unicode_float s.

Definition int_of_str (s : string) : result Z :=
  if is_ascii s then int_of_ascii s else unicode_int s.

End Builtins.

(** The functions of ASCII applied to every text.  The examples at the
    end of the file are stated with it; their texts are in ASCII, where
    the parameter is never consulted. *)
Definition ascii_everywhere : Unicode :=
  {| unicode_strip := strip_ascii;
     unicode_upper := upper_ascii;
     unicode_lower := lower_ascii;
     unicode_float := float_of_ascii;
     unicode_int := int_of_ascii |}.

End PyStr.

(** ** Rows and data frames *)

(** One row, as [verificar_conformidade] and the aggregators read it.
    [row.get(c)] of a column that the frame does not have is [None]. *)
Record Row : Type := {
  ano : option F64.float;
  mes : option F64.float;
  bairro : option string;
  ponto_de_coleta : option string;
  parametro : option string;
  resultado : option string;
  resultado_numerico : option F64.float;
  conforme : option bool
}.

(** [pd.isna] on a text cell and on a numeric cell. *)
Definition isna_str (x : option string) : bool :=
  match x with None => true | Some _ => false end.

Definition isna_num (x : option F64.float) : bool :=
  match x with None => true | Some v => F64.is_nan v end.

(** ** The reference table *)

(** The three shapes of an entry, tagged by its ['tipo']. *)
Inductive Rule : Type :=
  | Ausencia (valor : string)
  | Maximo (valor : F64.float)
  | Intervalo (min max : F64.float).

(** The literals [5.0], [0.2] and [1.5]. *)
Definition lit_5_0 : F64.float := Eval vm_compute in F64.of_decimal false 50 (-1).
Definition lit_0_2 : F64.float := Eval vm_compute in F64.of_decimal false 2 (-1).
Definition lit_1_5 : F64.float := Eval vm_compute in F64.of_decimal false 15 (-1).

Definition VALORES_REFERENCIA_items : list (string * Rule) :=
  [ ("Escherichia coli", Ausencia "AUSENTE");
    ("Coliformes totais", Ausencia "AUSENTE");
    ("Turbidez (uT)", Maximo lit_5_0);
    ("Cloro residual livre (mg/L)", Intervalo lit_0_2 lit_5_0);
    ("Fluoreto (mg/L)", Maximo lit_1_5) ].

Definition VALORES_REFERENCIA : gmap string Rule :=
  list_to_map VALORES_REFERENCIA_items.

(** ** The text functions of the running Python

    From here on what Python does with text outside ASCII is fixed but
    unknown; every definition and theorem below holds for each way of
    fixing it. *)

Section QualiAgua.

Context {py : PyStr.Unicode}.

(** ** The compliance evaluator *)

(** Lines 107-114: the numeric test on the value obtained.  [float(v)] of
    a binary64 number is the number itself. *)
Definition teste_numerico (ref : Rule) (resultado_num_val : F64.float)
    : result bool :=
  try_except
    (let valor := resultado_num_val in
     match ref with
     | Maximo v => Ok (F64.leb valor v)
     | Intervalo mn mx => Ok (F64.leb mn valor && F64.leb valor mx)
     | Ausencia _ => Ok false
     end)
    [ValueError; TypeError] (Ok false).

(** Lines 87-115: the body of the outer [try].  The conversion [float] of
    line 101 is a parameter, so that the handlers can be checked against
    whatever it may raise. *)
Definition verificar_conformidade_body_with
    (to_float : string -> result F64.float) (row : Row) : result bool :=
  match parametro row with
  | None => Ok false
  | Some p =>
      match VALORES_REFERENCIA !! p with
      | None => Ok false
      | Some (Ausencia valor) =>
          let resultado_str :=
            match resultado row with
            | Some r => PyStr.upper (PyStr.strip r)
            | None => ""
            end in
          Ok (String.eqb resultado_str valor)
      | Some ref =>
          if isna_num (resultado_numerico row) then
            match resultado row with
            | Some r =>
                match to_float (PyStr.replace "," "." r) with
                | Ok v => teste_numerico ref v
                | Raise e =>
                    if catches [ValueError; TypeError] e then Ok false
                    else Raise e
                end
            | None => Ok false
            end
          else
            match resultado_numerico row with
            | Some v => teste_numerico ref v
            | None => Ok false
            end
      end
  end.

(** The whole function: the body under [except Exception: return False]. *)
Definition verificar_conformidade_with
    (to_float : string -> result F64.float) (row : Row) : result bool :=
  try_except_Exception (verificar_conformidade_body_with to_float row)
    (Ok false).

(** [verificar_conformidade(row)], with Python's [float]. *)
Definition verificar_conformidade_body : Row -> result bool :=
  verificar_conformidade_body_with PyStr.float_of_str.

Definition verificar_conformidade : Row -> result bool :=
  verificar_conformidade_with PyStr.float_of_str.

(** The evaluator as a boolean; [verificar_conformidade_returns] below
    shows that this is what the call returns, for every row. *)
Definition is_conforme (row : Row) : bool :=
  match verificar_conformidade row with
  | Ok b => b
  | Raise _ => false
  end.

(** ** Data frames *)

Record DataFrame : Type := {
  columns : list string;
  rows : list Row
}.

Definition has_column (c : string) (d : DataFrame) : bool :=
  bool_decide (c ∈ columns d).

(** [len(df)] and [df.empty]: a frame without rows or without columns. *)
Definition df_len (d : DataFrame) : Z := Z.of_nat (length (rows d)).

Definition df_empty (d : DataFrame) : bool :=
  match rows d, columns d with
  | [], _ | _, [] => true
  | _, _ => false
  end.

(** [df[mask]] where the mask is computed row by row. *)
Definition select_rows (mask : Row -> bool) (d : DataFrame) : DataFrame :=
  {| columns := columns d; rows := List.filter mask (rows d) |}.

Definition with_conforme (r : Row) (b : bool) : Row :=
  {| ano := ano r; mes := mes r; bairro := bairro r;
     ponto_de_coleta := ponto_de_coleta r; parametro := parametro r;
     resultado := resultado r; resultado_numerico := resultado_numerico r;
     conforme := Some b |}.

(** [df['conforme'] = values]: the column is added when it is new. *)
Definition set_conforme (values : list bool) (d : DataFrame) : DataFrame :=
  {| columns := if has_column "conforme" d then columns d
                else columns d ++ ["conforme"];
     rows := zip_with with_conforme (rows d) values |}.

(** [series == value] on a text column: a missing cell equals nothing. *)
Definition cell_eq (cell value : option string) : bool :=
  match cell, value with
  | Some a, Some b => String.eqb a b
  | _, _ => false
  end.

(** [series == n] on a numeric column, for an integer [n]. *)
Definition num_eq (cell : option F64.float) (n : Z) : bool :=
  match cell with
  | Some x => F64.eqb x (F64.of_Z n)
  | None => false
  end.

(** [series.unique()]: the distinct values in order of first occurrence,
    the missing value included. *)
Fixpoint unique {A} `{EqDecision A} (l : list A) : list A :=
  match l with
  | [] => []
  | x :: l' => x :: List.filter (fun y => negb (bool_decide (y = x))) (unique l')
  end.

(** [series.nunique()]: the number of distinct values that are not missing. *)
Definition nunique (l : list (option string)) : Z :=
  Z.of_nat (length (unique (omap id l))).

(** [series.mean()] of a boolean column: the number of [True] over the
    number of cells, in binary64; [NaN] for an empty column. *)
Definition count_true (l : list (option bool)) : Z :=
  Z.of_nat (length (List.filter (fun c => bool_decide (c = Some true)) l)).

Definition count_cells (l : list (option bool)) : Z :=
  Z.of_nat (length (omap id l)).

Definition mean (l : list (option bool)) : F64.float :=
  F64.div (F64.of_Z (count_true l)) (F64.of_Z (count_cells l)).

(** [series.mean() * 100] *)
Definition percent (l : list (option bool)) : F64.float :=
  F64.mul (mean l) (F64.of_Z 100).

(** [df.apply(f, axis=1)]: [f] on every row in turn; the first exception
    ends the call. *)
Fixpoint apply_rows (f : Row -> result bool) (l : list Row)
    : result (list bool) :=
  match l with
  | [] => Ok []
  | r :: l' =>
      match f r with
      | Raise e => Raise e
      | Ok b =>
          match apply_rows f l' with
          | Raise e => Raise e
          | Ok bs => Ok (b :: bs)
          end
      end
  end.

(** ** Values of the result dictionaries *)

Inductive pyval : Type :=
  | PNone
  | PInt (n : Z)
  | PFloat (x : F64.float)
  | PStr (s : string).

(** [n - v] for an integer literal [n]. *)
Definition int_minus (n : Z) (v : pyval) : result pyval :=
  match v with
  | PInt m => Ok (PInt (n - m))
  | PFloat x => Ok (PFloat (F64.sub (F64.of_Z n) x))
  | _ => Raise TypeError
  end.

(** The name of a group as a value; the missing name, which pandas gives
    as [NaN] or [None], is [PNone]. *)
Definition of_name (name : option string) : pyval :=
  match name with
  | Some s => PStr s
  | None => PNone
  end.

(** ** The heap of data frames and the monad of the aggregators *)

Definition heap : Type := list DataFrame.

Definition M (A : Type) : Type := heap -> result A * heap.

Definition ret {A} (a : A) : M A := fun h => (Ok a, h).

Definition bind {A B} (m : M A) (k : A -> M B) : M B :=
  fun h =>
    match m h with
    | (Ok a, h') => k a h'
    | (Raise e, h') => (Raise e, h')
    end.

Definition lift {A} (r : result A) : M A := fun h => (r, h).

(** [try: body  except Exception: handler], with the heap as the body
    left it. *)
Definition try_M {A} (body handler : M A) : M A :=
  fun h =>
    match body h with
    | (Ok a, h') => (Ok a, h')
    | (Raise _, h') => handler h'
    end.

Notation "'let*' x ':=' m 'in' k" := (bind m (fun x => k))
  (at level 10, x name, m at level 100, k at level 200).
Notation "'do' m 'in' k" := (bind m (fun _ => k))
  (at level 10, m at level 100, k at level 200).

Definition deref (l : nat) : M DataFrame :=
  fun h =>
    match h !! l with
    | Some d => (Ok d, h)
    | None => (Raise OtherError, h)
    end.

Definition alloc (d : DataFrame) : M nat :=
  fun h => (Ok (length h), h ++ [d]).

Definition assign (l : nat) (d : DataFrame) : M unit :=
  fun h => (Ok tt, <[l := d]> h).

(** [df.copy()] *)
Definition frame_copy (l : nat) : M nat :=
  let* d := deref l in alloc d.

(** [df[mask]]: a new frame *)
Definition frame_select (l : nat) (mask : Row -> bool) : M nat :=
  let* d := deref l in alloc (select_rows mask d).

(** [df['conforme'] = df.apply(f, axis=1)] *)
Definition frame_set_conforme_apply (l : nat) (f : Row -> result bool)
    : M unit :=
  let* d := deref l in
  let* values := lift (apply_rows f (rows d)) in
  let* d' := deref l in
  assign l (set_conforme values d').

(** [df['mes'] = pd.to_numeric(df['mes'], errors='coerce')]: a numeric
    column is stored back as it is. *)
Definition frame_to_numeric_mes (l : nat) : M unit :=
  let* d := deref l in assign l d.

(** [df.dropna(subset=['mes'], inplace=True)] *)
Definition frame_dropna_mes (l : nat) : M unit :=
  let* d := deref l in
  assign l (select_rows (fun r => negb (isna_num (mes r))) d).

(** [for x in xs: body], threading the local variables [acc]. *)
Fixpoint for_each {A B} (xs : list A) (body : A -> B -> M B) (acc : B)
    : M B :=
  match xs with
  | [] => ret acc
  | x :: xs' => let* acc' := body x acc in for_each xs' body acc'
  end.

(** ** Result dictionaries *)

(** [d[k]] and [d.get(k, default)] *)
Definition getitem (d : gmap string pyval) (k : string) : result pyval :=
  match d !! k with
  | Some v => Ok v
  | None => Raise KeyError
  end.

Definition get (d : gmap string pyval) (k : string) (dflt : pyval) : pyval :=
  default dflt (d !! k).

(** [len(series) == 0] *)
Definition series_empty {A} (l : list A) : bool :=
  match l with [] => true | _ => false end.

(** [param.lower().replace(' ', '_').replace('(', '').replace(')', '').replace('/', '_')] *)
Definition param_key (param : string) : string :=
  PyStr.replace "/" "_"
    (PyStr.replace ")" ""
       (PyStr.replace "(" ""
          (PyStr.replace " " "_" (PyStr.lower param)))).

Definition parametros_para_stats : list string :=
  ["Escherichia coli"; "Coliformes totais"; "Turbidez (uT)";
   "Cloro residual livre (mg/L)"; "Fluoreto (mg/L)"].

Definition parametros_para_bairros : list string :=
  ["Escherichia coli"; "Coliformes totais"; "Turbidez (uT)";
   "Cloro residual livre (mg/L)"; "Fluoreto (mg/L)"].

Definition parametros_para_mes : list string :=
  ["Escherichia coli"; "Coliformes totais"; "Turbidez (uT)";
   "Cloro residual livre (mg/L)"; "Fluoreto (mg/L)"].

(** [series.mean() * 100 if not series.empty else 0] on the derived column *)
Definition percentual_de (d : DataFrame) : pyval :=
  let col := map conforme (rows d) in
  if negb (series_empty col) then PFloat (percent col) else PInt 0.

(** ** [calcular_estatisticas] *)

(** Lines 145-154, for one [param], reading [df_copy]. *)
Definition conformidade_do_parametro (df_copy : DataFrame) (param : string)
    : pyval :=
  if has_column "parametro" df_copy && negb (df_empty df_copy) then
    let df_param :=
      select_rows (fun r => cell_eq (parametro r) (Some param)) df_copy in
    if negb (df_empty df_param)
    then PFloat (percent (map conforme (rows df_param)))
    else PInt 0
  else PInt 0.

(** Lines 157-161: the five short names. *)
Definition com_nomes_curtos (stats : gmap string pyval) : gmap string pyval :=
  let stats :=
    <["conformidade_ecoli" :=
        get stats "conformidade_escherichia_coli" (PInt 0)]> stats in
  let stats :=
    <["conformidade_coliformes" :=
        get stats "conformidade_coliformes_totais" (PInt 0)]> stats in
  let stats :=
    <["conformidade_turbidez" :=
        get stats "conformidade_turbidez_ut" (PInt 0)]> stats in
  let stats :=
    <["conformidade_cloro" :=
        get stats "conformidade_cloro_residual_livre_mg_l" (PInt 0)]> stats in
  let stats :=
    <["conformidade_fluoreto" :=
        get stats "conformidade_fluoreto_mg_l" (PInt 0)]> stats in
  stats.

Definition calcular_estatisticas_body (df : nat) : M (gmap string pyval) :=
  let stats : gmap string pyval := ∅ in
  let* df_copy := frame_copy df in
  let* d := deref df_copy in
  let stats := <["total_amostras" := PInt (df_len d)]> stats in
  let stats :=
    <["bairros_unicos" :=
        PInt (if has_column "bairro" d then nunique (map bairro (rows d))
              else 0)]> stats in
  let* stats :=
    if negb (df_empty d) then
      do frame_set_conforme_apply df_copy verificar_conformidade in
      let* d := deref df_copy in
      let stats := <["conformidade_geral" := percentual_de d]> stats in
      let* geral := lift (getitem stats "conformidade_geral") in
      let* nao := lift (int_minus 100 geral) in
      ret (<["nao_conformidade_geral" := nao]> stats)
    else
      ret (<["nao_conformidade_geral" := PInt 100]>
             (<["conformidade_geral" := PInt 0]> stats)) in
  let* d := deref df_copy in
  let stats :=
    fold_left
      (fun stats param =>
         <["conformidade_" +:+ param_key param :=
             conformidade_do_parametro d param]> stats)
      parametros_para_stats stats in
  let stats := com_nomes_curtos stats in
  ret stats.

(** Lines 166-171: the dictionary returned by the handler. *)
Definition estatisticas_de_erro : gmap string pyval :=
  list_to_map
    [ ("total_amostras", PInt 0); ("bairros_unicos", PInt 0);
      ("conformidade_geral", PInt 0); ("nao_conformidade_geral", PInt 0);
      ("conformidade_ecoli", PInt 0); ("conformidade_coliformes", PInt 0);
      ("conformidade_turbidez", PInt 0); ("conformidade_cloro", PInt 0);
      ("conformidade_fluoreto", PInt 0) ].

Definition calcular_estatisticas (df : nat) : M (gmap string pyval) :=
  try_M (calcular_estatisticas_body df) (ret estatisticas_de_erro).

(** ** The grouping aggregators *)

(** The per-parameter entry of a group (lines 201-210 and 257-265),
    reading the frame of the group. *)
Definition percentual_do_parametro (df_grupo : DataFrame) (param : string)
    : pyval :=
  if has_column "parametro" df_grupo then
    let df_param :=
      select_rows (fun r => cell_eq (parametro r) (Some param)) df_grupo in
    if negb (df_empty df_param)
    then PFloat (percent (map conforme (rows df_param)))
    else PNone
  else PNone.

(** The loop over the named parameters followed by the five short names
    (lines 198-216 and 254-271). *)
Definition com_percentuais (params : list string) (df_grupo : DataFrame)
    (dados : gmap string pyval) : gmap string pyval :=
  let dados :=
    fold_left
      (fun dados param =>
         <["percentual_" +:+ param_key param :=
             percentual_do_parametro df_grupo param]> dados)
      params dados in
  let dados :=
    <["percentual_ecoli" := get dados "percentual_escherichia_coli" PNone]>
      dados in
  let dados :=
    <["percentual_coliformes" :=
        get dados "percentual_coliformes_totais" PNone]> dados in
  let dados :=
    <["percentual_turbidez" := get dados "percentual_turbidez_ut" PNone]>
      dados in
  let dados :=
    <["percentual_cloro" :=
        get dados "percentual_cloro_residual_livre_mg_l" PNone]> dados in
  let dados :=
    <["percentual_fluoreto" := get dados "percentual_fluoreto_mg_l" PNone]>
      dados in
  dados.

(** One turn of the loop of lines 182-218. *)
Definition obter_dados_bairros_iter (df_copy : nat)
    (bairro_nome : option string) (bairros_data : list (gmap string pyval))
    : M (list (gmap string pyval)) :=
  let* selecao :=
    frame_select df_copy (fun r => cell_eq (bairro r) bairro_nome) in
  let* df_bairro := frame_copy selecao in
  let* db := deref df_bairro in
  let total_analises := df_len db in
  let* percentual_conforme :=
    if negb (df_empty db) then
      do frame_set_conforme_apply df_bairro verificar_conformidade in
      let* db := deref df_bairro in
      ret (percentual_de db)
    else ret (PInt 0) in
  let dados_bairro : gmap string pyval :=
    <["percentual_conforme" := percentual_conforme]>
      (<["total_analises" := PInt total_analises]>
         (<["bairro" := of_name bairro_nome]> ∅)) in
  let* db := deref df_bairro in
  let dados_bairro :=
    com_percentuais parametros_para_bairros db dados_bairro in
  ret (bairros_data ++ [dados_bairro]).

Definition obter_dados_bairros_body (df : nat)
    : M (list (gmap string pyval)) :=
  let bairros_data : list (gmap string pyval) := [] in
  let* d := deref df in
  if df_empty d || negb (has_column "bairro" d) then ret bairros_data
  else
    let* df_copy := frame_copy df in
    let* dc := deref df_copy in
    for_each (unique (map bairro (rows dc)))
      (obter_dados_bairros_iter df_copy) bairros_data.

Definition obter_dados_bairros (df : nat) : M (list (gmap string pyval)) :=
  try_M (obter_dados_bairros_body df) (ret []).

Definition nomes_meses : list string :=
  ["Janeiro"; "Fevereiro"; "Março"; "Abril"; "Maio"; "Junho";
   "Julho"; "Agosto"; "Setembro"; "Outubro"; "Novembro"; "Dezembro"].

(** [range(1, 13)] *)
Definition range_1_13 : list Z := [1; 2; 3; 4; 5; 6; 7; 8; 9; 10; 11; 12].

(** [nomes_meses[i]] *)
Definition nome_do_mes (i : Z) : result pyval :=
  match nomes_meses !! Z.to_nat i with
  | Some s => if 0 <=? i then Ok (PStr s) else Raise OtherError
  | None => Raise OtherError
  end.

(** One turn of the loop of lines 239-273. *)
Definition obter_distribuicao_mes_iter (df_copy : nat) (mes_num : Z)
    (meses_data : list (gmap string pyval))
    : M (list (gmap string pyval)) :=
  let* selecao := frame_select df_copy (fun r => num_eq (mes r) mes_num) in
  let* df_mes_atual := frame_copy selecao in
  let* dm := deref df_mes_atual in
  let total_amostras := df_len dm in
  if 0 <? total_amostras then
    do frame_set_conforme_apply df_mes_atual verificar_conformidade in
    let* dm := deref df_mes_atual in
    let percentual_conforme := percentual_de dm in
    let* nome_mes := lift (nome_do_mes (mes_num - 1)) in
    let dados_mes : gmap string pyval :=
      <["percentual_conforme" := percentual_conforme]>
        (<["total_amostras" := PInt total_amostras]>
           (<["nome_mes" := nome_mes]>
              (<["mes" := PInt mes_num]> ∅))) in
    let dados_mes := com_percentuais parametros_para_mes dm dados_mes in
    ret (meses_data ++ [dados_mes])
  else ret meses_data.

Definition obter_distribuicao_mes_body (df : nat)
    : M (list (gmap string pyval)) :=
  let meses_data : list (gmap string pyval) := [] in
  let* d := deref df in
  if df_empty d || negb (has_column "mes" d) then ret meses_data
  else
    let* df_copy := frame_copy df in
    do frame_to_numeric_mes df_copy in
    do frame_dropna_mes df_copy in
    for_each range_1_13 (obter_distribuicao_mes_iter df_copy) meses_data.

Definition obter_distribuicao_mes (df : nat)
    : M (list (gmap string pyval)) :=
  try_M (obter_distribuicao_mes_body df) (ret []).

(** One turn of the loop of lines 289-302. *)
Definition obter_distribuicao_ponto_coleta_iter (df_copy : nat)
    (ponto_coleta_nome : option string)
    (pontos_data : list (gmap string pyval))
    : M (list (gmap string pyval)) :=
  let* selecao :=
    frame_select df_copy
      (fun r => cell_eq (ponto_de_coleta r) ponto_coleta_nome) in
  let* df_ponto := frame_copy selecao in
  let* dp := deref df_ponto in
  let total_analises := df_len dp in
  if 0 <? total_analises then
    do frame_set_conforme_apply df_ponto verificar_conformidade in
    let* dp := deref df_ponto in
    let percentual_conforme := percentual_de dp in
    let dados_ponto : gmap string pyval :=
      <["percentual_conforme" := percentual_conforme]>
        (<["total_analises" := PInt total_analises]>
           (<["ponto_de_coleta" := of_name ponto_coleta_nome]> ∅)) in
    ret (pontos_data ++ [dados_ponto])
  else ret pontos_data.

Definition obter_distribuicao_ponto_coleta_body (df : nat)
    : M (list (gmap string pyval)) :=
  let pontos_data : list (gmap string pyval) := [] in
  let* d := deref df in
  if df_empty d || negb (has_column "ponto_de_coleta" d) then ret pontos_data
  else
    let* df_copy := frame_copy df in
    let* dc := deref df_copy in
    for_each (unique (map ponto_de_coleta (rows dc)))
      (obter_distribuicao_ponto_coleta_iter df_copy) pontos_data.

Definition obter_distribuicao_ponto_coleta (df : nat)
    : M (list (gmap string pyval)) :=
  try_M (obter_distribuicao_ponto_coleta_body df) (ret []).

(** ** [carregar_dados] *)

(** A value of the filter dictionary: what a query string or a JSON body
    can hold. *)
Inductive jval : Type :=
  | JNull
  | JBool (b : bool)
  | JInt (n : Z)
  | JStr (s : string).

(** The truth value of [v] in a condition. *)
Definition truthy (v : jval) : bool :=
  match v with
  | JNull => false
  | JBool b => b
  | JInt n => negb (n =? 0)
  | JStr s => negb (String.eqb s "")
  end.

(** [v != 'todos'] *)
Definition not_todos (v : jval) : bool :=
  match v with
  | JStr s => negb (String.eqb s "todos")
  | _ => true
  end.

(** [int(v)] *)
Definition py_int (v : jval) : result Z :=
  match v with
  | JInt n => Ok n
  | JBool b => Ok (if b then 1 else 0)
  | JStr s => PyStr.int_of_str s
  | JNull => Raise TypeError
  end.

(** [filtros.get(k) and filtros[k] != 'todos']: the value to filter by,
    if the filter is active. *)
Definition filtro_ativo (filtros : gmap string jval) (k : string)
    : option jval :=
  match filtros !! k with
  | Some v => if truthy v && not_todos v then Some v else None
  | None => None
  end.

(** Lines 42-45 and 47-50: a numeric column is coerced, its missing cells
    are dropped, and the rows equal to [int(v)] are kept. *)
Definition filtrar_numerico (col : string) (cell : Row -> option F64.float)
    (v : jval) (df : DataFrame) : result DataFrame :=
  if has_column col df then
    let df := select_rows (fun r => negb (isna_num (cell r))) df in
    match py_int v with
    | Raise e => Raise e
    | Ok n => Ok (select_rows (fun r => num_eq (cell r) n) df)
    end
  else Ok df.

(** [series == v] on a text column *)
Definition cell_eq_j (cell : option string) (v : jval) : bool :=
  match cell, v with
  | Some a, JStr b => String.eqb a b
  | _, _ => false
  end.

(** Lines 52-53 and 55-56 *)
Definition filtrar_texto (col : string) (cell : Row -> option string)
    (v : jval) (df : DataFrame) : DataFrame :=
  if has_column col df then select_rows (fun r => cell_eq_j (cell r) v) df
  else df.

Definition rbind {A B} (r : result A) (k : A -> result B) : result B :=
  match r with
  | Ok a => k a
  | Raise e => Raise e
  end.

(** Lines 40-56 *)
Definition aplicar_filtros (filtros : option (gmap string jval))
    (df : DataFrame) : result DataFrame :=
  match filtros with
  | None => Ok df
  | Some f =>
      if bool_decide (f = ∅) then Ok df
      else
        rbind (match filtro_ativo f "ano" with
               | Some v => filtrar_numerico "ano" ano v df
               | None => Ok df
               end) (fun df =>
        rbind (match filtro_ativo f "mes" with
               | Some v => filtrar_numerico "mes" mes v df
               | None => Ok df
               end) (fun df =>
        let df := match filtro_ativo f "bairro" with
                  | Some v => filtrar_texto "bairro" bairro v df
                  | None => df
                  end in
        let df := match filtro_ativo f "parametro" with
                  | Some v => filtrar_texto "parametro" parametro v df
                  | None => df
                  end in
        Ok df))
  end.

Definition expected_cols : list string :=
  ["latitude"; "longitude"; "bairro"; "parametro"; "resultado";
   "resultado_numerico"; "ponto_de_coleta"; "data_da_coleta";
   "unidade_de_medida"; "id"].

(** The cell of column [col] set to missing, for the columns that a row
    represents. *)
Definition sem_valor (col : string) (r : Row) : Row :=
  {| ano := ano r; mes := mes r;
     bairro := if String.eqb col "bairro" then None else bairro r;
     ponto_de_coleta :=
       if String.eqb col "ponto_de_coleta" then None else ponto_de_coleta r;
     parametro := if String.eqb col "parametro" then None else parametro r;
     resultado := if String.eqb col "resultado" then None else resultado r;
     resultado_numerico :=
       if String.eqb col "resultado_numerico" then None
       else resultado_numerico r;
     conforme := conforme r |}.

(** Lines 61-66: [if col not in df.columns: df[col] = None] *)
Definition completar_coluna (df : DataFrame) (col : string) : DataFrame :=
  if has_column col df then df
  else {| columns := columns df ++ [col];
          rows := map (sem_valor col) (rows df) |}.

(** The frame of the two handlers: the twelve columns and no row. *)
Definition quadro_vazio : DataFrame :=
  {| columns :=
       ["latitude"; "longitude"; "bairro"; "parametro"; "resultado";
        "resultado_numerico"; "ponto_de_coleta"; "data_da_coleta";
        "unidade_de_medida"; "id"; "ano"; "mes"];
     rows := [] |}.

(** The body of the [try]; [csv] is what [pd.read_csv(CSV_PATH)] gives.
    The coordinates are not represented, so their coercion changes
    nothing. *)
Definition carregar_dados_body (csv : result DataFrame)
    (filtros : option (gmap string jval)) : result DataFrame :=
  rbind csv (fun df =>
  rbind (aplicar_filtros filtros df) (fun df =>
  let df := fold_left completar_coluna expected_cols df in
  Ok df)).

Definition carregar_dados (csv : result DataFrame)
    (filtros : option (gmap string jval)) : DataFrame :=
  match try_except_Exception
          (try_except (carregar_dados_body csv filtros)
             [FileNotFoundError] (Ok quadro_vazio))
          (Ok quadro_vazio) with
  | Ok df => df
  | Raise _ => quadro_vazio
  end.

(** ** The values that the aggregators return

    For a frame [d] held at the reference passed to an aggregator, the
    functions below give the result of the call; the lemmas [*_run] of the
    second part prove it. *)

(** The frame after [df['conforme'] = df.apply(verificar_conformidade, axis=1)] *)
Definition avaliado (d : DataFrame) : DataFrame :=
  set_conforme (map is_conforme (rows d)) d.

Definition estatisticas_de (d : DataFrame) : gmap string pyval :=
  let base : gmap string pyval :=
    <["bairros_unicos" :=
        PInt (if has_column "bairro" d then nunique (map bairro (rows d))
              else 0)]>
      (<["total_amostras" := PInt (df_len d)]> ∅) in
  let d' := if df_empty d then d else avaliado d in
  let stats :=
    if df_empty d then
      <["nao_conformidade_geral" := PInt 100]>
        (<["conformidade_geral" := PInt 0]> base)
    else
      <["nao_conformidade_geral" :=
          PFloat (F64.sub (F64.of_Z 100) (percent (map conforme (rows d'))))]>
        (<["conformidade_geral" := PFloat (percent (map conforme (rows d')))]>
           base) in
  com_nomes_curtos
    (fold_left
       (fun stats param =>
          <["conformidade_" +:+ param_key param :=
              conformidade_do_parametro d' param]> stats)
       parametros_para_stats stats).

Definition grupo_bairro (d : DataFrame) (bairro_nome : option string)
    : gmap string pyval :=
  let sel := select_rows (fun r => cell_eq (bairro r) bairro_nome) d in
  let db := if df_empty sel then sel else avaliado sel in
  com_percentuais parametros_para_bairros db
    (<["percentual_conforme" :=
         if df_empty sel then PInt 0 else percentual_de db]>
       (<["total_analises" := PInt (df_len sel)]>
          (<["bairro" := of_name bairro_nome]> ∅))).

Definition dados_bairros_de (d : DataFrame) : list (gmap string pyval) :=
  if df_empty d || negb (has_column "bairro" d) then []
  else map (grupo_bairro d) (unique (map bairro (rows d))).

(** [validos] is the frame after the rows without month are dropped. *)
Definition grupo_mes (validos : DataFrame) (mes_num : Z)
    : option (gmap string pyval) :=
  let sel := select_rows (fun r => num_eq (mes r) mes_num) validos in
  if 0 <? df_len sel then
    let dm := avaliado sel in
    Some (com_percentuais parametros_para_mes dm
            (<["percentual_conforme" := percentual_de dm]>
               (<["total_amostras" := PInt (df_len sel)]>
                  (<["nome_mes" :=
                       PStr (default "" (nomes_meses !! Z.to_nat (mes_num - 1)))]>
                     (<["mes" := PInt mes_num]> ∅)))))
  else None.

Definition com_mes (d : DataFrame) : DataFrame :=
  select_rows (fun r => negb (isna_num (mes r))) d.

Definition distribuicao_mes_de (d : DataFrame) : list (gmap string pyval) :=
  if df_empty d || negb (has_column "mes" d) then []
  else omap (grupo_mes (com_mes d)) range_1_13.

Definition grupo_ponto (d : DataFrame) (ponto_coleta_nome : option string)
    : option (gmap string pyval) :=
  let sel :=
    select_rows (fun r => cell_eq (ponto_de_coleta r) ponto_coleta_nome) d in
  if 0 <? df_len sel then
    Some (<["percentual_conforme" := percentual_de (avaliado sel)]>
            (<["total_analises" := PInt (df_len sel)]>
               (<["ponto_de_coleta" := of_name ponto_coleta_nome]> ∅)))
  else None.

Definition distribuicao_ponto_coleta_de (d : DataFrame)
    : list (gmap string pyval) :=
  if df_empty d || negb (has_column "ponto_de_coleta" d) then []
  else omap (grupo_ponto d) (unique (map ponto_de_coleta (rows d))).

(** The integer stored under [k] in a result dictionary, and the sum of
    these over the groups. *)
Definition contagem (k : string) (g : gmap string pyval) : Z :=
  match g !! k with
  | Some (PInt n) => n
  | _ => 0
  end.

Definition soma_contagens (k : string) (grupos : list (gmap string pyval)) : Z :=
  fold_right Z.add 0 (map (contagem k) grupos).

(** The name stored under [k] in a group. *)
Definition nome_do_grupo (k : string) (g : gmap string pyval)
    : option string :=
  match g !! k with
  | Some (PStr s) => Some s
  | _ => None
  end.

(** The compliance percentage of a list of rows:
    [100 * (rows where the evaluator is true) / (rows)], in binary64 as
    [mean() * 100] computes it. *)
Definition conformes (l : list Row) : Z :=
  Z.of_nat (length (List.filter is_conforme l)).

Definition taxa (l : list Row) : F64.float :=
  F64.mul (F64.div (F64.of_Z (conformes l)) (F64.of_Z (Z.of_nat (length l))))
    (F64.of_Z 100).

(** The numeric value of a row in the words of the specification: the
    numeric result if it is not null; otherwise the result parsed as a
    float after the comma is replaced by a point; none if neither is
    available or the text does not parse. *)
Definition texto_para_numero (r : string) : option F64.float :=
  match PyStr.float_of_str (PyStr.replace "," "." r) with
  | Ok x => Some x
  | Raise _ => None
  end.

Definition valor_resolvido (row : Row) : option F64.float :=
  if isna_num (resultado_numerico row)
  then resultado row ≫= texto_para_numero
  else resultado_numerico row.

(** A row with the cells that the evaluator reads; the others are
    missing. *)
Definition amostra (par res : option string) (num : option F64.float)
    : Row :=
  {| ano := None; mes := None; bairro := None; ponto_de_coleta := None;
     parametro := par; resultado := res; resultado_numerico := num;
     conforme := None |}.

(** The rows of a group, given by [mask], that measure [param]. *)
Definition amostras_do_parametro (mask : Row -> bool) (param : string)
    (d : DataFrame) : list Row :=
  List.filter (fun r => cell_eq (parametro r) (Some param))
    (List.filter mask (rows d)).

(** The per-parameter entry of a group: missing when the group has no
    row for the parameter, the compliance percentage of these rows
    otherwise. *)
Definition percentual_esperado (d : DataFrame) (amostras : list Row)
    : pyval :=
  if has_column "parametro" d then
    match amostras with
    | [] => PNone
    | _ => PFloat (taxa amostras)
    end
  else PNone.

(** Two rows and the frames used in the examples. *)
Definition linha (b p : option string) (m : option F64.float)
    (par res : option string) (num : option F64.float) : Row :=
  {| ano := None; mes := m; bairro := b; ponto_de_coleta := p;
     parametro := par; resultado := res; resultado_numerico := num;
     conforme := None |}.

Definition colunas_exemplo : list string :=
  ["ano"; "mes"; "bairro"; "ponto_de_coleta"; "parametro"; "resultado";
   "resultado_numerico"].

(** The scenario of the specification: an absent E. coli and a turbidity
    of 6.0, in one neighbourhood, at two points, in March and January. *)
Definition quadro_exemplo : DataFrame :=
  {| columns := colunas_exemplo;
     rows :=
       [ linha (Some "Centro") (Some "P1") (Some (F64.of_Z 3))
           (Some "Escherichia coli") (Some "AUSENTE") None;
         linha (Some "Centro") (Some "P2") (Some (F64.of_Z 1))
           (Some "Turbidez (uT)") None (Some (F64.of_Z 6)) ] |}.

(** One row without neighbourhood, collection point and month. *)
Definition quadro_sem_chave : DataFrame :=
  {| columns := colunas_exemplo;
     rows :=
       [ linha None None None
           (Some "Escherichia coli") (Some "AUSENTE") None ] |}.

(** What an example reads from the groups of a result: the entries under
    the keys [ks], in order, a key that is not there giving [None]. *)
Definition entradas (ks : list string)
    (r : result (list (gmap string pyval))) : list (list (option pyval)) :=
  match r with
  | Ok grupos => map (fun g : gmap string pyval => map (fun k => g !! k) ks) grupos
  | Raise _ => []
  end.

(** The sum of the counts of a result, nothing for a raise. *)
Definition soma_do_resultado (k : string)
    (r : result (list (gmap string pyval))) : Z :=
  match r with
  | Ok grupos => soma_contagens k grupos
  | Raise _ => 0
  end.

(** A row has a key when the cell is not missing; it has a month when
    the cell equals one of the numbers 1 to 12. *)
Definition tem_chave (cell : option string) : bool := negb (isna_str cell).

Definition tem_mes (cell : option F64.float) : bool :=
  existsb (num_eq cell) range_1_13.

Definition b2z (b : bool) : Z := if b then 1 else 0.

(** The sum of [f] over a list. *)
Definition soma {A} (f : A -> Z) (l : list A) : Z :=
  fold_right Z.add 0 (map f l).

(** The number of rows of [l] in the group of [n], for a test [matches]
    of a row against a key. *)
Definition count_of {K} (matches : Row -> K -> bool) (l : list Row) (n : K)
    : Z :=
  Z.of_nat (length (List.filter (fun r => matches r n) l)).

(** The position of the first row whose key is [k]. *)
Fixpoint first_index {A} `{EqDecision A} (k : A) (l : list A) : option nat :=
  match l with
  | [] => None
  | x :: l' => if bool_decide (x = k) then Some 0%nat
               else option_map S (first_index k l')
  end.

(** [nomes] lists keys of the column [col] in the order in which they
    first occur in it. *)
Definition first_occurrence_order {A} `{EqDecision A} (nomes col : list A)
    : Prop :=
  forall (i j : nat) (a b : A),
    nomes !! i = Some a -> nomes !! j = Some b -> (i < j)%nat ->
    exists ia ib, first_index a col = Some ia /\ first_index b col = Some ib
                  /\ (ia < ib)%nat.

(** [l] is strictly increasing. *)
Definition increasing (l : list Z) : Prop :=
  forall (i j : nat) (a b : Z),
    l !! i = Some a -> l !! j = Some b -> (i < j)%nat -> a < b.

(** The keys of the groups of a result, in the order of the result. *)
Definition nomes_dos_grupos (k : string) (grupos : list (gmap string pyval))
    : list (option string) :=
  map (nome_do_grupo k) grupos.

Definition meses_dos_grupos (grupos : list (gmap string pyval)) : list Z :=
  map (contagem "mes") grupos.

Definition is_some {A} (o : option A) : bool :=
  match o with Some _ => true | None => false end.


(** Three rows whose keys do not come in alphabetical or calendar order,
    for the years 2022, 2023 and a missing year. *)
Definition quadro_ordem : DataFrame :=
  {| columns := colunas_exemplo;
     rows :=
       [ {| ano := Some (F64.of_Z 2022); mes := Some (F64.of_Z 12);
            bairro := Some "Pituba"; ponto_de_coleta := Some "P2";
            parametro := Some "Turbidez (uT)"; resultado := Some "0,8";
            resultado_numerico := None; conforme := None |};
         {| ano := Some (F64.of_Z 2023); mes := Some (F64.of_Z 2);
            bairro := Some "Barra"; ponto_de_coleta := Some "P1";
            parametro := Some "Turbidez (uT)"; resultado := Some "7,1";
            resultado_numerico := None; conforme := None |};
         {| ano := None; mes := Some (F64.of_Z 2);
            bairro := Some "Pituba"; ponto_de_coleta := Some "P2";
            parametro := Some "Fluoreto (mg/L)"; resultado := Some "1,5";
            resultado_numerico := None; conforme := None |} ] |}.

(** ** Further definitions: rows with one cell replaced *)

Definition com_resultado (r : Row) (texto : option string) : Row :=
  {| ano := ano r; mes := mes r; bairro := bairro r;
     ponto_de_coleta := ponto_de_coleta r; parametro := parametro r;
     resultado := texto; resultado_numerico := resultado_numerico r;
     conforme := conforme r |}.

Definition com_resultado_numerico (r : Row) (x : option F64.float) : Row :=
  {| ano := ano r; mes := mes r; bairro := bairro r;
     ponto_de_coleta := ponto_de_coleta r; parametro := parametro r;
     resultado := resultado r; resultado_numerico := x;
     conforme := conforme r |}.

(** The entry of [calcular_estatisticas] for a parameter: 0 when no row
    measures it, the compliance percentage of the rows that do
    otherwise. *)
Definition conformidade_esperada (d : DataFrame) (amostras : list Row)
    : pyval :=
  if has_column "parametro" d then
    match amostras with
    | [] => PInt 0
    | _ => PFloat (taxa amostras)
    end
  else PInt 0.

(** The rows that measure [param]. *)
Definition amostras_de (param : string) (l : list Row) : list Row :=
  List.filter (fun r => cell_eq (parametro r) (Some param)) l.

(** The names of the neighbourhoods of a list of rows, as a set. *)
Definition bairros_de (l : list Row) : gset string :=
  list_to_set (omap id (map bairro l)).

(** The keys of the dictionary of [calcular_estatisticas]. *)
Definition chaves_estatisticas : gset string :=
  list_to_set
    [ "total_amostras"; "bairros_unicos"; "conformidade_geral";
      "nao_conformidade_geral";
      "conformidade_escherichia_coli"; "conformidade_coliformes_totais";
      "conformidade_turbidez_ut"; "conformidade_cloro_residual_livre_mg_l";
      "conformidade_fluoreto_mg_l";
      "conformidade_ecoli"; "conformidade_coliformes";
      "conformidade_turbidez"; "conformidade_cloro";
      "conformidade_fluoreto" ].

(** The two keys are present in [g] and hold the same value. *)
Definition mesmo_valor (g : gmap string pyval) (curto longo : string)
    : Prop :=
  exists v, g !! curto = Some v /\ g !! longo = Some v.

(** A group has the five short names, each with the value of its long
    name (lines 212-216 and 267-271). *)
Definition nomes_curtos_do_grupo (g : gmap string pyval) : Prop :=
  mesmo_valor g "percentual_ecoli" "percentual_escherichia_coli" /\
  mesmo_valor g "percentual_coliformes" "percentual_coliformes_totais" /\
  mesmo_valor g "percentual_turbidez" "percentual_turbidez_ut" /\
  mesmo_valor g "percentual_cloro" "percentual_cloro_residual_livre_mg_l" /\
  mesmo_valor g "percentual_fluoreto" "percentual_fluoreto_mg_l".

(** A frame with the rows in the opposite order. *)
Definition ao_contrario (d : DataFrame) : DataFrame :=
  {| columns := columns d; rows := reverse (rows d) |}.
(** ** Further definitions: the rows that the filters keep *)

(** The test of one numeric filter on a row of [df] (lines 41-50): no
    test when the filter is not active or the frame lacks the column. *)
Definition passa_numerico (col : string) (cell : Row -> option F64.float)
    (f : gmap string jval) (df : DataFrame) (r : Row) : bool :=
  match filtro_ativo f col with
  | Some v =>
      if has_column col df then
        match py_int v with
        | Ok n => num_eq (cell r) n
        | Raise _ => false
        end
      else true
  | None => true
  end.

(** The test of one text filter (lines 51-56). *)
Definition passa_texto (col : string) (cell : Row -> option string)
    (f : gmap string jval) (df : DataFrame) (r : Row) : bool :=
  match filtro_ativo f col with
  | Some v => if has_column col df then cell_eq_j (cell r) v else true
  | None => true
  end.

Definition passa_filtros (f : gmap string jval) (df : DataFrame) (r : Row)
    : bool :=
  passa_numerico "ano" ano f df r && passa_numerico "mes" mes f df r
  && passa_texto "bairro" bairro f df r
  && passa_texto "parametro" parametro f df r.

(** The cell of column [col] is missing in [r], for the columns that a
    row represents. *)
Definition celula_ausente (col : string) (r : Row) : Prop :=
  (col = "bairro" -> bairro r = None) /\
  (col = "ponto_de_coleta" -> ponto_de_coleta r = None) /\
  (col = "parametro" -> parametro r = None) /\
  (col = "resultado" -> resultado r = None) /\
  (col = "resultado_numerico" -> resultado_numerico r = None).
(** ** The routes of the aggregators *)

(** [request.args.to_dict()]: the query string as a dictionary of
    strings. *)
Definition to_dict (args : gmap string string) : gmap string jval :=
  JStr <$> args.

(** A call of [carregar_dados]: the frame it returns is a new object. *)
Definition carregar_dados_novo (csv : result DataFrame)
    (filtros : option (gmap string jval)) : M nat :=
  alloc (carregar_dados csv filtros).

(** Lines 475-483; [jsonify] hands over the list it is given. *)
Definition api_bairros (csv : result DataFrame) (args : gmap string string)
    : M (list (gmap string pyval)) :=
  try_M (let filtros_req := to_dict args in
         let* df := carregar_dados_novo csv (Some filtros_req) in
         let* bairros := obter_dados_bairros df in
         ret bairros)
    (ret []).

(** Lines 487-495 *)
Definition api_distribuicao_mes (csv : result DataFrame)
    (args : gmap string string) : M (list (gmap string pyval)) :=
  try_M (let filtros_req := to_dict args in
         let* df := carregar_dados_novo csv (Some filtros_req) in
         let* meses := obter_distribuicao_mes df in
         ret meses)
    (ret []).

(** Lines 499-507 *)
Definition api_distribuicao_ponto_coleta (csv : result DataFrame)
    (args : gmap string string) : M (list (gmap string pyval)) :=
  try_M (let filtros_req := to_dict args in
         let* df := carregar_dados_novo csv (Some filtros_req) in
         let* pontos := obter_distribuicao_ponto_coleta df in
         ret pontos)
    (ret []).

(** ** The list of neighbourhoods of the main page *)

(** [a <= b] on [str]: the lexicographic order of the characters, a
    proper prefix coming first.  On the bytes of UTF-8 text this is the
    order of the code points, which Python compares. *)
Definition str_le (a b : string) : Prop := String.leb a b = true.

#[global] Instance str_le_dec : RelDecision str_le :=
  fun a b => decide (String.leb a b = true).

(** [sorted(l)] for a list of strings: a stable sort by [<=]. *)
Definition sorted (l : list string) : list string := merge_sort str_le l.

(** Lines 453-455 of [index] *)
Definition bairros_lista (df : DataFrame) : list string :=
  let bairros_lista := [] in
  if has_column "bairro" df && negb (series_empty (map bairro (rows df)))
  then sorted (unique (omap id (map bairro (rows df))))
  else bairros_lista.

(** ** Further definitions: the texts that [float] reads *)

(** Some character of [s] satisfies [p]. *)
Fixpoint any_char (p : ascii -> bool) (s : string) : bool :=
  match s with
  | EmptyString => false
  | String c s' => p c || any_char p s'
  end.

(** [s] is a run of decimal digits; the number that the run writes when
    it follows the digits of [acc]. *)
Definition all_digits (s : string) : bool :=
  negb (any_char (fun c => negb (PyStr.is_digit c)) s).

Fixpoint digits_value (s : string) (acc : Z) : Z :=
  match s with
  | EmptyString => acc
  | String c s' => digits_value s' (10 * acc + Z.of_nat (PyStr.code c - 48))
  end.

(** A decimal numeral: an optional minus sign, the digits [a], the
    separator and the digits [b]. *)
Definition numeral (neg : bool) (a sep b : string) : string :=
  ((if neg then "-" else "") ++ a ++ sep ++ b)%string.

(** The characters that can occur in a text that [float] reads, the
    comma counted as a point: digits, white space, signs, point and
    comma, underscore, the letter of the exponent and the letters of
    [inf], [infinity] and [nan]. *)
Definition numeral_char (c : ascii) : bool :=
  PyStr.is_digit c || PyStr.is_c_space c
  || existsb (Ascii.eqb c) (list_ascii_of_string "+-.,_eEinfatyINFATY").

(** ** The evaluator as a computation on the objects it reaches

    [verificar_conformidade] is handed the row, a mutable object; it
    reaches the global dictionary [VALORES_REFERENCIA], mutable as well;
    and its handler prints.  Here every access of lines 85-119 is an
    operation on these objects, so that what the function does to them
    can be stated.  A printed message is kept as the parameter and the
    exception it reports; the index of the row, which the message also
    shows, is not represented. *)

Record Objects : Type := {
  the_row : Row;
  the_table : gmap string Rule;
  printed : list (option string * exn)
}.

Definition Ev (A : Type) : Type := Objects -> result A * Objects.

Definition ev_ret {A} (a : A) : Ev A := fun o => (Ok a, o).

Definition ev_bind {A B} (m : Ev A) (k : A -> Ev B) : Ev B :=
  fun o =>
    match m o with
    | (Ok a, o') => k a o'
    | (Raise e, o') => (Raise e, o')
    end.

Notation "'let+' x ':=' m 'in' k" := (ev_bind m (fun x => k))
  (at level 10, x name, m at level 100, k at level 200).

(** A computation that touches no object. *)
Definition ev_lift {A} (r : result A) : Ev A := fun o => (r, o).

(** [try: body  except Exception as e: handler], with the objects as the
    body left them. *)
Definition ev_try {A} (body : Ev A) (handler : exn -> Ev A) : Ev A :=
  fun o =>
    match body o with
    | (Ok a, o') => (Ok a, o')
    | (Raise e, o') => handler e o'
    end.

(** [row.get(c)] and [row[c] = v] *)
Definition row_get {A} (cell : Row -> A) : Ev A :=
  fun o => (Ok (cell (the_row o)), o).

Definition row_set (update : Row -> Row) : Ev unit :=
  fun o =>
    (Ok tt, {| the_row := update (the_row o); the_table := the_table o;
               printed := printed o |}).

(** [p in VALORES_REFERENCIA], [VALORES_REFERENCIA[p]] and
    [VALORES_REFERENCIA[p] = ref] *)
Definition table_contains (p : string) : Ev bool :=
  fun o => (Ok (bool_decide (is_Some (the_table o !! p))), o).

Definition table_getitem (p : string) : Ev Rule :=
  fun o =>
    match the_table o !! p with
    | Some ref => (Ok ref, o)
    | None => (Raise KeyError, o)
    end.

Definition table_setitem (p : string) (ref : Rule) : Ev unit :=
  fun o =>
    (Ok tt, {| the_row := the_row o; the_table := <[p := ref]> (the_table o);
               printed := printed o |}).

(** [print(...)] *)
Definition print (msg : option string * exn) : Ev unit :=
  fun o =>
    (Ok tt, {| the_row := the_row o; the_table := the_table o;
               printed := printed o ++ [msg] |}).

(** Lines 87-115: the body of the outer [try]. *)
Definition verificar_conformidade_ev_body
    (to_float : string -> result F64.float) (parametro : option string)
    : Ev bool :=
  match parametro with
  | None => ev_ret false
  | Some p =>
      let+ known := table_contains p in
      if negb known then ev_ret false
      else
        let+ ref := table_getitem p in
        match ref with
        | Ausencia valor =>
            let+ res := row_get resultado in
            let resultado_str :=
              match res with
              | Some r => PyStr.upper (PyStr.strip r)
              | None => ""
              end in
            ev_ret (String.eqb resultado_str valor)
        | _ =>
            let+ resultado_num_val := row_get resultado_numerico in
            if isna_num resultado_num_val then
              let+ res := row_get resultado in
              match res with
              | Some r =>
                  match to_float (PyStr.replace "," "." r) with
                  | Ok v => ev_lift (teste_numerico ref v)
                  | Raise e =>
                      if catches [ValueError; TypeError] e then ev_ret false
                      else ev_lift (Raise e)
                  end
              | None => ev_ret false
              end
            else
              match resultado_num_val with
              | Some v => ev_lift (teste_numerico ref v)
              | None => ev_ret false
              end
        end
  end.

(** Lines 85-119: the whole function. *)
Definition verificar_conformidade_ev (to_float : string -> result F64.float)
    : Ev bool :=
  let+ parametro := row_get parametro in
  ev_try (verificar_conformidade_ev_body to_float parametro)
    (fun e => let+ _ := print (parametro, e) in ev_ret false).

(** The objects after one more message. *)
Definition with_message (o : Objects) (msg : option string * exn) : Objects :=
  {| the_row := the_row o; the_table := the_table o;
     printed := printed o ++ [msg] |}.

(* ===================================================================== *)
(** * Part II. Properties *)
(* ===================================================================== *)

(** ** The reference table *)

Lemma VALORES_REFERENCIA_lookup (p : string) (ref : Rule) :
  VALORES_REFERENCIA !! p = Some ref →
  (p, ref) ∈ VALORES_REFERENCIA_items.
Proof. apply elem_of_list_to_map_2. Qed.

Lemma VALORES_REFERENCIA_ausencia (p v : string) :
  VALORES_REFERENCIA !! p = Some (Ausencia v) → v = "AUSENTE".
Proof.
  intros H%VALORES_REFERENCIA_lookup.
  unfold VALORES_REFERENCIA_items in H.
  repeat (apply elem_of_cons in H as [H | H];
          [ by (inversion H; subst) | ]).
  by apply elem_of_nil in H.
Qed.

(** ** The evaluator *)

Lemma try_except_Exception_returns (m : result bool) :
  ∃ b, try_except_Exception m (Ok false) = Ok b ∧
       (∀ e, m = Raise e → b = false).
Proof.
  destruct m as [b | e]; simpl.
  - exists b. split; [done | intros ? [=]].
  - by exists false.
Qed.

Lemma verificar_conformidade_returns (row : Row) :
  verificar_conformidade row = Ok (is_conforme row).
Proof.
  unfold is_conforme.
  destruct (try_except_Exception_returns (verificar_conformidade_body row))
    as (b & Hb & _).
  unfold verificar_conformidade, verificar_conformidade_with.
  unfold verificar_conformidade_body in Hb. by rewrite Hb.
Qed.

Lemma teste_numerico_maximo (b v : F64.float) :
  teste_numerico (Maximo b) v = Ok (F64.leb v b).
Proof. reflexivity. Qed.

Lemma teste_numerico_intervalo (mn mx v : F64.float) :
  teste_numerico (Intervalo mn mx) v = Ok (F64.leb mn v && F64.leb v mx).
Proof. reflexivity. Qed.

Lemma float_of_ascii_raises (s : string) (e : exn) :
  PyStr.float_of_ascii s = Raise e → e = ValueError.
Proof.
  unfold PyStr.float_of_ascii.
  repeat case_match; congruence.
Qed.

(** The body of the evaluator on a numeric rule, in terms of the value
    that the row resolves to. *)
Lemma verificar_conformidade_numerico (row : Row) (p : string) (ref : Rule) :
  parametro row = Some p →
  VALORES_REFERENCIA !! p = Some ref →
  (∀ v, ref ≠ Ausencia v) →
  verificar_conformidade row =
    match valor_resolvido row with
    | Some v => teste_numerico ref v
    | None => Ok false
    end.
Proof.
  intros Hp Hr Hnum.
  unfold verificar_conformidade, verificar_conformidade_with,
    verificar_conformidade_body_with, valor_resolvido.
  rewrite Hp, Hr.
  destruct ref as [v | b | mn mx]; [by destruct (Hnum v) | |].
  all: destruct (isna_num (resultado_numerico row)) eqn:Hna.
  all: try (destruct (resultado_numerico row) as [x |]; [done | done]).
  all: destruct (resultado row) as [r |]; simpl; [| done].
  all: unfold texto_para_numero.
  all: destruct (PyStr.float_of_str _) as [x | e] eqn:Hf; simpl; [done |].
  all: by destruct e.
Qed.

(** C1 (amended): under the absence rule the sentinel is ["AUSENTE"], and
    the evaluator returns true if and only if the trimmed, uppercased
    result equals it exactly; a missing result gives false. *)
Theorem absence_rule (row : Row) (p v : string) :
  parametro row = Some p →
  VALORES_REFERENCIA !! p = Some (Ausencia v) →
  v = "AUSENTE" ∧
  (∃ b, verificar_conformidade row = Ok b) ∧
  (verificar_conformidade row = Ok true ↔
     ∃ r, resultado row = Some r ∧
          PyStr.upper (PyStr.strip r) = "AUSENTE") ∧
  (resultado row = None → verificar_conformidade row = Ok false).
Proof.
  intros Hp Hr.
  pose proof (VALORES_REFERENCIA_ausencia _ _ Hr) as ->.
  split; [done |].
  unfold verificar_conformidade, verificar_conformidade_with,
    verificar_conformidade_body_with.
  rewrite Hp, Hr. simpl.
  destruct (resultado row) as [r |]; simpl.
  - split; [by eexists |]. split; [| done]. split.
    + intros [= H]. exists r. split; [done |]. by apply String.eqb_eq.
    + intros (r' & [= <-] & H). f_equal. by apply String.eqb_eq.
  - split; [by eexists |]. split; [| done]. split.
    + intros [=].
    + by intros (r' & [=] & _).
Qed.

(** The two texts side by side, whatever Python does outside ASCII: the
    English word is evaluated to false and the sentinel of the table to
    true. *)
Example absence_rule_sentinel :
  verificar_conformidade
    (amostra (Some "Escherichia coli") (Some "ABSENT") None) = Ok false ∧
  verificar_conformidade
    (amostra (Some "Escherichia coli") (Some " ausente ") None) = Ok true.
Proof. split; by vm_compute. Qed.

(** C2: a row whose parameter is missing, empty, or not a key of the
    reference table is evaluated to false. *)
Theorem unknown_parameter (row : Row) :
  parametro row = None ∨
  parametro row = Some "" ∨
  (∃ p, parametro row = Some p ∧ VALORES_REFERENCIA !! p = None) →
  verificar_conformidade row = Ok false.
Proof.
  unfold verificar_conformidade, verificar_conformidade_with,
    verificar_conformidade_body_with.
  intros [-> | [-> | (p & -> & ->)]]; done.
Qed.

(** ** What [float] reads *)

Lemma any_char_app (p : ascii → bool) (s1 s2 : string) :
  any_char p (s1 ++ s2)%string = any_char p s1 || any_char p s2.
Proof.
  induction s1 as [| c s1 IH]; [done |]. simpl. by rewrite IH, orb_assoc.
Qed.

Lemma any_char_impl (p q : ascii → bool) (s : string) :
  (∀ c, p c = true → q c = true) →
  any_char p s = true → any_char q s = true.
Proof.
  intros Hpq. induction s as [| c s IH]; [done |]. simpl.
  intros [Hc | Hs]%orb_true_iff.
  - by rewrite (Hpq c Hc).
  - rewrite (IH Hs). apply orb_true_r.
Qed.

Lemma any_char_none (p q : ascii → bool) (s : string) :
  (∀ c, q c = true → p c = false) →
  any_char p s = true → any_char (λ c, negb (q c)) s = true.
Proof.
  intros Hpq. apply any_char_impl. intros c Hc.
  destruct (q c) eqn:Hq; [| done]. by rewrite (Hpq c Hq) in Hc.
Qed.

Lemma all_digits_any (p : ascii → bool) (s : string) :
  (∀ c, PyStr.is_digit c = true → p c = false) →
  all_digits s = true → any_char p s = false.
Proof.
  intros Hp Hs. unfold all_digits in Hs. apply negb_true_iff in Hs.
  destruct (any_char p s) eqn:Ha; [| done].
  by rewrite (any_char_none p PyStr.is_digit s Hp Ha) in Hs.
Qed.

Lemma any_char_map_chars (q : ascii → bool) (f : ascii → ascii) (s : string) :
  any_char q (PyStr.map_chars f s) = any_char (λ c, q (f c)) s.
Proof. induction s as [| c s IH]; [done |]. simpl. by rewrite IH. Qed.

Lemma is_ascii_any (s : string) :
  PyStr.is_ascii s = negb (any_char (λ c, negb (PyStr.is_ascii_char c)) s).
Proof.
  induction s as [| c s IH]; [done |]. simpl. rewrite IH.
  by destruct (PyStr.is_ascii_char c).
Qed.

Lemma is_ascii_app (s1 s2 : string) :
  PyStr.is_ascii (s1 ++ s2)%string = PyStr.is_ascii s1 && PyStr.is_ascii s2.
Proof.
  induction s1 as [| c s1 IH]; [done |]. simpl. by rewrite IH, andb_assoc.
Qed.

Lemma is_digit_is_ascii (c : ascii) :
  PyStr.is_digit c = true → negb (PyStr.is_ascii_char c) = false.
Proof. destruct c as [[] [] [] [] [] [] [] []]; done. Qed.

Lemma all_digits_is_ascii (s : string) :
  all_digits s = true → PyStr.is_ascii s = true.
Proof.
  intros Hs. rewrite is_ascii_any.
  by rewrite (all_digits_any _ s is_digit_is_ascii Hs).
Qed.

(** *** Replacing one character *)

Lemma replace_app (old : ascii) (new s1 s2 : string) :
  PyStr.replace old new (s1 ++ s2)%string
  = (PyStr.replace old new s1 ++ PyStr.replace old new s2)%string.
Proof.
  induction s1 as [| c s1 IH]; [done |].
  change (String c s1 ++ s2)%string with (String c (s1 ++ s2)%string).
  cbn [PyStr.replace]. rewrite IH.
  destruct (Ascii.eqb c old); [| done].
  generalize (PyStr.replace old new s1), (PyStr.replace old new s2).
  intros t1 t2. clear IH.
  induction new as [| d new IHn]; [done |].
  change (String d new ++ t1 ++ t2)%string
    with (String d (new ++ t1 ++ t2)%string).
  change ((String d new ++ t1) ++ t2)%string
    with (String d ((new ++ t1) ++ t2)%string).
  by rewrite IHn.
Qed.

Lemma replace_absent (old : ascii) (new s : string) :
  any_char (Ascii.eqb old) s = false → PyStr.replace old new s = s.
Proof.
  induction s as [| c s IH]; [done |]. simpl.
  intros [Hc Hs]%orb_false_iff.
  rewrite Ascii.eqb_sym, Hc. by rewrite (IH Hs).
Qed.

Lemma any_char_replace (p : ascii → bool) (old : ascii) (new s : string) :
  p old = false → any_char p new = false →
  any_char p (PyStr.replace old new s) = any_char p s.
Proof.
  intros Ho Hn. induction s as [| c s IH]; [done |]. simpl.
  destruct (Ascii.eqb_spec c old) as [-> | Hne].
  - by rewrite any_char_app, Hn, Ho, IH.
  - simpl. by rewrite IH.
Qed.

Lemma is_ascii_replace_comma (s : string) :
  PyStr.is_ascii (PyStr.replace "," "." s) = PyStr.is_ascii s.
Proof.
  rewrite !is_ascii_any. f_equal. by apply any_char_replace.
Qed.

(** *** The scanner *)

Lemma scan_digits_cons (c : ascii) (s : string) (acc n : Z) :
  PyStr.scan_digits (String c s) acc n
  = if PyStr.is_digit c
    then PyStr.scan_digits s (10 * acc + Z.of_nat (PyStr.code c - 48)) (n + 1)
    else (acc, n, String c s).
Proof. reflexivity. Qed.

Lemma scan_digits_app (ds rest : string) (acc n : Z) :
  all_digits ds = true →
  PyStr.scan_digits (ds ++ rest)%string acc n
  = PyStr.scan_digits rest (digits_value ds acc) (n + Z.of_nat (String.length ds)).
Proof.
  revert acc n. induction ds as [| c ds IH]; intros acc n Hds.
  - simpl. by rewrite Z.add_0_r.
  - unfold all_digits in Hds. simpl in Hds.
    apply negb_true_iff, orb_false_iff in Hds as [Hc%negb_false_iff Hds].
    change (String c ds ++ rest)%string with (String c (ds ++ rest)%string).
    rewrite scan_digits_cons, Hc.
    rewrite IH by (unfold all_digits; by rewrite Hds).
    cbn [digits_value String.length]. f_equal. lia.
Qed.

Lemma digits_value_app (a b : string) (acc : Z) :
  digits_value (a ++ b)%string acc = digits_value b (digits_value a acc).
Proof.
  revert acc. induction a as [| c a IH]; intros acc; [done |]. simpl.
  by rewrite IH.
Qed.

Lemma scan_digits_chars (p : ascii → bool) (s : string) (acc n : Z) :
  (∀ c, PyStr.is_digit c = true → p c = false) →
  any_char p (PyStr.scan_digits s acc n).2 = any_char p s.
Proof.
  intros Hp. revert acc n. induction s as [| c s IH]; intros acc n; [done |].
  rewrite scan_digits_cons. destruct (PyStr.is_digit c) eqn:Hc; [| done].
  rewrite IH. simpl. by rewrite (Hp c Hc).
Qed.

Lemma take_sign_chars (p : ascii → bool) (s : string) :
  p "+"%char = false → p "-"%char = false →
  any_char p (PyStr.take_sign s).2 = any_char p s.
Proof.
  intros Hplus Hminus. destruct s as [| c s]; [done |].
  destruct c as [[] [] [] [] [] [] [] []]; try reflexivity;
    simpl; by rewrite ?Hplus, ?Hminus.
Qed.

Lemma take_sign_unsigned (c : ascii) (s : string) :
  c ≠ "+"%char → c ≠ "-"%char →
  PyStr.take_sign (String c s) = (false, String c s).
Proof.
  intros Hplus Hminus.
  destruct c as [[] [] [] [] [] [] [] []]; try reflexivity; congruence.
Qed.

Lemma is_digit_not_sign (c : ascii) :
  PyStr.is_digit c = true → c ≠ "+"%char ∧ c ≠ "-"%char.
Proof. destruct c as [[] [] [] [] [] [] [] []]; done. Qed.

(** *** Underscores and white space *)

Lemma any_char_cons (p : ascii → bool) (c : ascii) (s : string) :
  any_char p (String c s) = p c || any_char p s.
Proof. reflexivity. Qed.

Lemma strip_underscores_absent (prev : ascii) (s : string) :
  prev ≠ "_"%char → any_char (Ascii.eqb "_") s = false →
  PyStr.strip_underscores prev s = Some s.
Proof.
  revert prev. induction s as [| c s IH]; intros prev Hprev Hs.
  - simpl. by rewrite (proj2 (Ascii.eqb_neq _ _) Hprev).
  - rewrite any_char_cons in Hs. apply orb_false_iff in Hs as [Hc Hs].
    cbn [PyStr.strip_underscores].
    rewrite Ascii.eqb_sym, Hc, (proj2 (Ascii.eqb_neq _ _) Hprev).
    cbn [andb]. rewrite IH; [done | | done].
    intros ->. by rewrite Ascii.eqb_refl in Hc.
Qed.

Lemma strip_underscores_chars (p : ascii → bool) (prev : ascii)
    (s t : string) :
  p "_"%char = false →
  PyStr.strip_underscores prev s = Some t →
  any_char p t = any_char p s.
Proof.
  intros Hu. revert prev t. induction s as [| c s IH]; intros prev t.
  - simpl. destruct (Ascii.eqb prev "_"); [done |]. by intros [= <-].
  - cbn [PyStr.strip_underscores].
    destruct (Ascii.eqb_spec c "_") as [-> | Hc].
    + destruct (PyStr.is_digit prev); [| done].
      intros Ht. simpl. rewrite Hu. by apply (IH "_"%char).
    + destruct (Ascii.eqb prev "_" && negb (PyStr.is_digit c)); [done |].
      destruct (PyStr.strip_underscores c s) as [t' |] eqn:Ht'; [| done].
      intros [= <-]. simpl. by rewrite (IH c t' Ht').
Qed.

Lemma lstrip_absent (sp : ascii → bool) (s : string) :
  any_char sp s = false → PyStr.lstrip_with sp s = s.
Proof.
  destruct s as [| c s]; [done |]. simpl.
  intros [Hc _]%orb_false_iff. by rewrite Hc.
Qed.

Lemma rstrip_absent (sp : ascii → bool) (s : string) :
  any_char sp s = false → PyStr.rstrip_with sp s = s.
Proof.
  induction s as [| c s IH]; [done |]. simpl.
  intros [Hc Hs]%orb_false_iff. rewrite (IH Hs), Hc. by destruct s.
Qed.

Lemma lstrip_keeps (p sp : ascii → bool) (s : string) :
  (∀ c, sp c = true → p c = false) →
  any_char p (PyStr.lstrip_with sp s) = any_char p s.
Proof.
  intros Hsp. induction s as [| c s IH]; [done |].
  cbn [PyStr.lstrip_with]. destruct (sp c) eqn:Hc; [| done].
  simpl. by rewrite (Hsp c Hc), IH.
Qed.

Lemma rstrip_keeps (p sp : ascii → bool) (s : string) :
  (∀ c, sp c = true → p c = false) →
  any_char p (PyStr.rstrip_with sp s) = any_char p s.
Proof.
  intros Hsp. induction s as [| c s IH]; [done |].
  cbn [PyStr.rstrip_with]. simpl any_char at 2. rewrite <- IH.
  destruct (PyStr.rstrip_with sp s) as [| d u].
  - destruct (sp c) eqn:Hc; simpl; [by rewrite (Hsp c Hc) | done].
  - done.
Qed.

(** *** A decimal numeral is read as the number it writes *)

Lemma take_sign_numeral (a b : string) :
  all_digits a = true →
  PyStr.take_sign (a ++ String "." b)%string = (false, (a ++ String "." b)%string).
Proof.
  intros Ha. destruct a as [| c a]; [done |].
  unfold all_digits in Ha. simpl in Ha.
  apply negb_true_iff, orb_false_iff in Ha as [Hc%negb_false_iff _].
  destruct (is_digit_not_sign c Hc) as [Hplus Hminus].
  change (String c a ++ String "." b)%string
    with (String c (a ++ String "." b)%string).
  by apply take_sign_unsigned.
Qed.

Lemma take_sign_digits (a : string) :
  all_digits a = true → PyStr.take_sign a = (false, a).
Proof.
  intros Ha. destruct a as [| c a]; [done |].
  unfold all_digits in Ha. simpl in Ha.
  apply negb_true_iff, orb_false_iff in Ha as [Hc%negb_false_iff _].
  destruct (is_digit_not_sign c Hc) as [Hplus Hminus].
  by apply take_sign_unsigned.
Qed.

Lemma append_empty_r (s : string) : (s ++ "")%string = s.
Proof.
  induction s as [| c s IH]; [done |].
  change (String c s ++ "")%string with (String c (s ++ "")%string).
  by rewrite IH.
Qed.

Lemma scan_digits_all (a : string) (acc n : Z) :
  all_digits a = true →
  PyStr.scan_digits a acc n
  = (digits_value a acc, n + Z.of_nat (String.length a), EmptyString).
Proof.
  intros Ha. pose proof (scan_digits_app a EmptyString acc n Ha) as H.
  by rewrite append_empty_r in H.
Qed.

Lemma parse_decimal_unsigned (a b : string) :
  all_digits a = true → all_digits b = true →
  (0 < String.length a + String.length b)%nat →
  ∀ neg,
    (let '(m1, n1, s2) := PyStr.scan_digits (a ++ String "." b)%string 0 0 in
     let '(m2, n2, s3) :=
       match s2 with
       | String "." t => PyStr.scan_digits t m1 0
       | _ => (m1, 0, s2)
       end in
     if n1 + n2 =? 0 then None
     else
       let '(e, s4) :=
         match PyStr.parse_exponent s3 with
         | Some (e, r) => (e, r)
         | None => (0, s3)
         end in
       match s4 with
       | EmptyString => Some (F64.of_decimal neg m2 (e - n2))
       | _ => None
       end)
    = Some (F64.of_decimal neg (digits_value (a ++ b) 0)
              (- Z.of_nat (String.length b))).
Proof.
  intros Ha Hb Hlen neg.
  rewrite (scan_digits_app a (String "." b) 0 0 Ha).
  rewrite scan_digits_cons. change (PyStr.is_digit ".") with false. cbv iota.
  rewrite (scan_digits_all b _ 0 Hb).
  destruct (_ + _ =? 0) eqn:Hz; [apply Z.eqb_eq in Hz; lia |].
  change (PyStr.parse_exponent "") with (@None (Z * string)). cbv iota beta.
  rewrite digits_value_app.
  by replace (0 - (0 + Z.of_nat (String.length b)))
    with (- Z.of_nat (String.length b)) by lia.
Qed.

Lemma is_digit_not_underscore (c : ascii) :
  PyStr.is_digit c = true → Ascii.eqb "_" c = false.
Proof. destruct c as [[] [] [] [] [] [] [] []]; done. Qed.

Lemma is_digit_not_c_space (c : ascii) :
  PyStr.is_digit c = true → PyStr.is_c_space c = false.
Proof. destruct c as [[] [] [] [] [] [] [] []]; done. Qed.

Lemma is_digit_not_comma (c : ascii) :
  PyStr.is_digit c = true → Ascii.eqb "," c = false.
Proof. destruct c as [[] [] [] [] [] [] [] []]; done. Qed.

Lemma float_of_ascii_plain (s : string) :
  any_char (Ascii.eqb "_") s = false →
  any_char PyStr.is_c_space s = false →
  PyStr.float_of_ascii s
  = match PyStr.parse_decimal s with
    | Some x => Ok x
    | None =>
        match PyStr.parse_inf_or_nan s with
        | Some x => Ok x
        | None => Raise ValueError
        end
    end.
Proof.
  intros Hu Hsp. unfold PyStr.float_of_ascii.
  rewrite strip_underscores_absent by done. cbv zeta.
  by rewrite (lstrip_absent _ _ Hsp), (rstrip_absent _ _ Hsp).
Qed.

Lemma numeral_plain (p : ascii → bool) (neg : bool) (a sep b : string) :
  (∀ c, PyStr.is_digit c = true → p c = false) →
  p "-"%char = false → any_char p sep = false →
  all_digits a = true → all_digits b = true →
  any_char p (numeral neg a sep b) = false.
Proof.
  intros Hd Hm Hsep Ha Hb. unfold numeral.
  rewrite !any_char_app, Hsep.
  rewrite (all_digits_any p a Hd Ha), (all_digits_any p b Hd Hb).
  destruct neg; simpl; by rewrite ?Hm.
Qed.

Lemma parse_decimal_numeral (neg : bool) (a b : string) :
  all_digits a = true → all_digits b = true →
  (0 < String.length a + String.length b)%nat →
  PyStr.parse_decimal (numeral neg a "." b)
  = Some (F64.of_decimal neg (digits_value (a ++ b) 0)
            (- Z.of_nat (String.length b))).
Proof.
  intros Ha Hb Hlen. unfold PyStr.parse_decimal, numeral.
  change ("." ++ b)%string with (String "." b).
  destruct neg.
  - change ("-" ++ a ++ String "." b)%string
      with (String "-" (a ++ String "." b)%string).
    change (PyStr.take_sign (String "-" (a ++ String "." b)%string))
      with (true, (a ++ String "." b)%string).
    cbv iota beta. by apply parse_decimal_unsigned.
  - change ("" ++ a ++ String "." b)%string with (a ++ String "." b)%string.
    rewrite (take_sign_numeral a b Ha).
    cbv iota beta. by apply parse_decimal_unsigned.
Qed.

Lemma parse_decimal_integer (neg : bool) (a : string) :
  all_digits a = true → (0 < String.length a)%nat →
  PyStr.parse_decimal (numeral neg a "" "")
  = Some (F64.of_decimal neg (digits_value a 0) 0).
Proof.
  intros Ha Hlen. unfold PyStr.parse_decimal, numeral.
  change ("" ++ "")%string with ""%string. rewrite append_empty_r.
  assert (PyStr.take_sign ((if neg then "-" else "") ++ a)%string = (neg, a))
    as ->.
  { destruct neg; [done |]. by apply take_sign_digits. }
  cbv iota beta. rewrite (scan_digits_all a 0 0 Ha). cbv iota beta.
  destruct (_ + 0 =? 0) eqn:Hz; [apply Z.eqb_eq in Hz; lia |].
  change (PyStr.parse_exponent "") with (@None (Z * string)).
  by cbv iota beta.
Qed.

(** [float] of a numeral written with a point, and of an integer. *)
Lemma float_of_ascii_numeral (neg : bool) (a b : string) :
  all_digits a = true → all_digits b = true →
  (0 < String.length a + String.length b)%nat →
  PyStr.float_of_ascii (numeral neg a "." b)
  = Ok (F64.of_decimal neg (digits_value (a ++ b) 0)
          (- Z.of_nat (String.length b))).
Proof.
  intros Ha Hb Hlen.
  rewrite float_of_ascii_plain.
  - by rewrite parse_decimal_numeral.
  - by apply numeral_plain; [apply is_digit_not_underscore | ..].
  - by apply numeral_plain; [apply is_digit_not_c_space | ..].
Qed.

Lemma float_of_ascii_integer (neg : bool) (a : string) :
  all_digits a = true → (0 < String.length a)%nat →
  PyStr.float_of_ascii (numeral neg a "" "")
  = Ok (F64.of_decimal neg (digits_value a 0) 0).
Proof.
  intros Ha Hlen.
  rewrite float_of_ascii_plain.
  - by rewrite parse_decimal_integer.
  - by apply numeral_plain; [apply is_digit_not_underscore | ..].
  - by apply numeral_plain; [apply is_digit_not_c_space | ..].
Qed.

Lemma replace_comma_numeral (neg : bool) (a sep b : string) :
  sep ∈ [","%string; "."%string; ""%string] →
  all_digits a = true → all_digits b = true →
  PyStr.replace "," "." (numeral neg a sep b)
  = numeral neg a (if String.eqb sep "," then "." else sep) b.
Proof.
  intros Hsep Ha Hb. unfold numeral. rewrite !replace_app.
  rewrite (replace_absent "," "." a)
    by (by apply all_digits_any; [apply is_digit_not_comma |]).
  rewrite (replace_absent "," "." b)
    by (by apply all_digits_any; [apply is_digit_not_comma |]).
  f_equal; [by destruct neg |]. f_equal. f_equal.
  repeat (apply elem_of_cons in Hsep as [-> | Hsep]; [done |]).
  by apply elem_of_nil in Hsep.
Qed.

Lemma is_ascii_numeral (neg : bool) (a sep b : string) :
  PyStr.is_ascii sep = true →
  all_digits a = true → all_digits b = true →
  PyStr.is_ascii (numeral neg a sep b) = true.
Proof.
  intros Hsep Ha Hb. unfold numeral. rewrite !is_ascii_app, Hsep.
  rewrite (all_digits_is_ascii a Ha), (all_digits_is_ascii b Hb).
  by destruct neg.
Qed.

(** *** A text with a character that no numeral has is not read *)

Lemma point_step_chars (p : ascii → bool) (s2 : string) (m1 : Z) :
  (∀ c, PyStr.is_digit c = true → p c = false) →
  p "."%char = false →
  any_char p (match s2 with
              | String "." t => PyStr.scan_digits t m1 0
              | _ => (m1, 0, s2)
              end).2 = any_char p s2.
Proof.
  intros Hd Hpt. destruct s2 as [| c t]; [done |].
  destruct c as [[] [] [] [] [] [] [] []]; try reflexivity.
  rewrite scan_digits_chars by done. simpl. by rewrite Hpt.
Qed.

Lemma exponent_step_chars (p : ascii → bool) (s3 : string) :
  (∀ c, PyStr.is_digit c = true → p c = false) →
  p "+"%char = false → p "-"%char = false →
  p "e"%char = false → p "E"%char = false →
  any_char p (match PyStr.parse_exponent s3 with
              | Some (e, r) => (e, r)
              | None => (0, s3)
              end).2 = any_char p s3.
Proof.
  intros Hd Hplus Hminus He HE. destruct s3 as [| c s']; [done |].
  unfold PyStr.parse_exponent.
  destruct (Ascii.eqb c "e" || Ascii.eqb c "E") eqn:Hc; [| done].
  pose proof (take_sign_chars p s' Hplus Hminus) as H1.
  destruct (PyStr.take_sign s') as [ng s1]. cbn [snd] in H1.
  pose proof (scan_digits_chars p s1 0 0 Hd) as H2.
  destruct (PyStr.scan_digits s1 0 0) as [[e n] s2]. cbn [snd] in H2.
  destruct (n =? 0); [done |]. cbn [snd].
  rewrite any_char_cons, H2, H1.
  apply orb_true_iff in Hc as [->%Ascii.eqb_eq | ->%Ascii.eqb_eq];
    by rewrite ?He, ?HE.
Qed.

Lemma parse_decimal_chars (p : ascii → bool) (u : string) (x : F64.float) :
  (∀ c, PyStr.is_digit c = true → p c = false) →
  p "+"%char = false → p "-"%char = false → p "."%char = false →
  p "e"%char = false → p "E"%char = false →
  PyStr.parse_decimal u = Some x → any_char p u = false.
Proof.
  intros Hd Hplus Hminus Hpt He HE. unfold PyStr.parse_decimal.
  pose proof (take_sign_chars p u Hplus Hminus) as H1.
  destruct (PyStr.take_sign u) as [neg s1]. cbn [snd] in H1.
  pose proof (scan_digits_chars p s1 0 0 Hd) as H2.
  destruct (PyStr.scan_digits s1 0 0) as [[m1 n1] s2]. cbn [snd] in H2.
  pose proof (point_step_chars p s2 m1 Hd Hpt) as H3.
  destruct (match s2 with
            | String "." t => PyStr.scan_digits t m1 0
            | _ => (m1, 0, s2)
            end) as [[m2 n2] s3]. cbn [snd] in H3.
  destruct (n1 + n2 =? 0); [done |].
  pose proof (exponent_step_chars p s3 Hd Hplus Hminus He HE) as H4.
  destruct (match PyStr.parse_exponent s3 with
            | Some (e, r) => (e, r)
            | None => (0, s3)
            end) as [e s4]. cbn [snd] in H4.
  destruct s4; [| done]. intros _.
  by rewrite <- H1, <- H2, <- H3, <- H4.
Qed.

Lemma numeral_char_lower (c : ascii) :
  numeral_char c = false →
  existsb (Ascii.eqb (PyStr.lower_char c)) (list_ascii_of_string "infaty")
  = false.
Proof. destruct c as [[] [] [] [] [] [] [] []]; done. Qed.

Lemma parse_inf_or_nan_chars (u : string) (x : F64.float) :
  PyStr.parse_inf_or_nan u = Some x →
  any_char (λ c, negb (numeral_char c)) u = false.
Proof.
  unfold PyStr.parse_inf_or_nan.
  pose proof (take_sign_chars (λ c, negb (numeral_char c)) u eq_refl eq_refl)
    as H1.
  destruct (PyStr.take_sign u) as [neg t]. cbn [snd] in H1. cbv zeta.
  rewrite <- H1. clear H1. intros Hx.
  destruct (any_char (λ c, negb (numeral_char c)) t) eqn:Hbad; [| done].
  exfalso.
  assert (any_char
            (λ c, negb (existsb (Ascii.eqb c) (list_ascii_of_string "infaty")))
            (PyStr.lower_ascii t) = true) as Hl.
  { unfold PyStr.lower_ascii. rewrite any_char_map_chars.
    revert Hbad. apply any_char_impl. intros c Hc.
    apply negb_true_iff in Hc. by rewrite (numeral_char_lower c Hc). }
  destruct (String.eqb_spec (PyStr.lower_ascii t) "inf") as [E | _];
    [by rewrite E in Hl |].
  destruct (String.eqb_spec (PyStr.lower_ascii t) "infinity") as [E | _];
    [by rewrite E in Hl |].
  destruct (String.eqb_spec (PyStr.lower_ascii t) "nan") as [E | _];
    [by rewrite E in Hl |].
  done.
Qed.

Lemma float_of_ascii_foreign_char (s : string) :
  any_char (λ c, negb (numeral_char c)) s = true →
  PyStr.float_of_ascii s = Raise ValueError.
Proof.
  intros Hbad. unfold PyStr.float_of_ascii.
  destruct (PyStr.strip_underscores zero s) as [t |] eqn:Ht; [| done].
  rewrite <- (strip_underscores_chars _ _ _ _ eq_refl Ht) in Hbad.
  cbv zeta.
  set (u := PyStr.rstrip_with PyStr.is_c_space
              (PyStr.lstrip_with PyStr.is_c_space t)).
  assert (any_char (λ c, negb (numeral_char c)) u = true) as Hu.
  { unfold u. rewrite rstrip_keeps, lstrip_keeps; [done | |];
      intros c Hc; unfold numeral_char; by rewrite Hc, orb_true_r. }
  destruct (PyStr.parse_decimal u) as [x |] eqn:Hd.
  - rewrite (parse_decimal_chars _ u x) in Hu; try done.
    intros c Hc. unfold numeral_char. by rewrite Hc.
  - destruct (PyStr.parse_inf_or_nan u) as [x |] eqn:Hi; [| done].
    by rewrite (parse_inf_or_nan_chars u x Hi) in Hu.
Qed.

(** [float] on a text in ASCII is the reader above. *)
Lemma float_of_str_ascii (s : string) :
  PyStr.is_ascii s = true → PyStr.float_of_str s = PyStr.float_of_ascii s.
Proof. intros Hs. unfold PyStr.float_of_str. by rewrite Hs. Qed.

Lemma float_of_str_numeral (neg : bool) (a sep b : string) :
  sep ∈ [","%string; "."%string] →
  all_digits a = true → all_digits b = true →
  (0 < String.length a + String.length b)%nat →
  PyStr.float_of_str (PyStr.replace "," "." (numeral neg a sep b))
  = Ok (F64.of_decimal neg (digits_value (a ++ b) 0)
          (- Z.of_nat (String.length b))).
Proof.
  intros Hsep Ha Hb Hlen.
  assert (sep ∈ [","%string; "."%string; ""%string]) as Hsep'.
  { apply elem_of_cons in Hsep as [-> | Hsep]; [by left |].
    right. apply elem_of_cons in Hsep as [-> | Hsep]; [by left |].
    by apply elem_of_nil in Hsep. }
  rewrite (replace_comma_numeral neg a sep b Hsep' Ha Hb).
  assert ((if String.eqb sep "," then "."%string else sep) = "."%string) as ->.
  { repeat (apply elem_of_cons in Hsep as [-> | Hsep]; [done |]).
    by apply elem_of_nil in Hsep. }
  rewrite float_of_str_ascii by (by apply is_ascii_numeral).
  by apply float_of_ascii_numeral.
Qed.

Lemma float_of_str_integer (neg : bool) (a : string) :
  all_digits a = true → (0 < String.length a)%nat →
  PyStr.float_of_str (PyStr.replace "," "." (numeral neg a "" ""))
  = Ok (F64.of_decimal neg (digits_value a 0) 0).
Proof.
  intros Ha Hlen.
  rewrite (replace_comma_numeral neg a "" "")
    by (done || (right; right; by left)).
  rewrite float_of_str_ascii by (by apply is_ascii_numeral).
  by apply float_of_ascii_integer.
Qed.

Lemma float_of_str_foreign_char (r : string) :
  PyStr.is_ascii r = true →
  any_char (λ c, negb (numeral_char c)) r = true →
  PyStr.float_of_str (PyStr.replace "," "." r) = Raise ValueError.
Proof.
  intros Hascii Hbad.
  rewrite float_of_str_ascii by (by rewrite is_ascii_replace_comma).
  apply float_of_ascii_foreign_char.
  by rewrite any_char_replace.
Qed.

(** C3: under a maximum or range rule the evaluator resolves the numeric
    value of the row, preferring the numeric result and otherwise parsing
    the result with the comma replaced by a point; it returns false when
    no value is resolved, [value <= max] for a maximum and
    [min <= value <= max] for a range.  The parsing is pinned down: a
    decimal numeral written with a comma or a point is read as the
    binary64 number nearest to the number it writes, an integer numeral
    likewise (so ["1,5"] gives 1.5), and a text in ASCII with a
    character that no numeral has is not read, which gives false. *)
Theorem numeric_rules (row : Row) (p : string) :
  parametro row = Some p →
  (∀ b, VALORES_REFERENCIA !! p = Some (Maximo b) →
     verificar_conformidade row =
       Ok (match valor_resolvido row with
           | Some v => F64.leb v b
           | None => false
           end)) ∧
  (∀ mn mx, VALORES_REFERENCIA !! p = Some (Intervalo mn mx) →
     verificar_conformidade row =
       Ok (match valor_resolvido row with
           | Some v => F64.leb mn v && F64.leb v mx
           | None => false
           end)) ∧
  (∀ v, resultado_numerico row = Some v → F64.is_nan v = false →
     valor_resolvido row = Some v) ∧
  (isna_num (resultado_numerico row) = true →
     valor_resolvido row =
       match resultado row with
       | Some r =>
           match PyStr.float_of_str (PyStr.replace "," "." r) with
           | Ok x => Some x
           | Raise _ => None
           end
       | None => None
       end) ∧
  (∀ neg a sep b,
     sep ∈ [","%string; "."%string] →
     all_digits a = true → all_digits b = true →
     (0 < String.length a + String.length b)%nat →
     PyStr.float_of_str (PyStr.replace "," "." (numeral neg a sep b))
     = Ok (F64.of_decimal neg (digits_value (a ++ b) 0)
             (- Z.of_nat (String.length b)))) ∧
  (∀ neg a,
     all_digits a = true → (0 < String.length a)%nat →
     PyStr.float_of_str (PyStr.replace "," "." (numeral neg a "" ""))
     = Ok (F64.of_decimal neg (digits_value a 0) 0)) ∧
  (∀ r,
     PyStr.is_ascii r = true →
     any_char (λ c, negb (numeral_char c)) r = true →
     PyStr.float_of_str (PyStr.replace "," "." r) = Raise ValueError ∧
     (isna_num (resultado_numerico row) = true → resultado row = Some r →
      valor_resolvido row = None)) ∧
  PyStr.float_of_str (PyStr.replace "," "." "1,5") = Ok lit_1_5 ∧
  lit_1_5 = S754_finite false 6755399441055744 (-52).
Proof.
  intros Hp.
  split; [| split; [| split; [| split; [| split; [| split; [| split]]]]]].
  - intros b Hr.
    rewrite (verificar_conformidade_numerico row p _ Hp Hr) by done.
    by destruct (valor_resolvido row).
  - intros mn mx Hr.
    rewrite (verificar_conformidade_numerico row p _ Hp Hr) by done.
    by destruct (valor_resolvido row).
  - intros v Hv Hn. unfold valor_resolvido. rewrite Hv. simpl. by rewrite Hn.
  - intros Hna. unfold valor_resolvido. rewrite Hna.
    by destruct (resultado row).
  - apply float_of_str_numeral.
  - apply float_of_str_integer.
  - intros r Hascii Hbad.
    pose proof (float_of_str_foreign_char r Hascii Hbad) as Hf.
    split; [exact Hf |]. intros Hna Hres.
    unfold valor_resolvido, texto_para_numero. rewrite Hna, Hres. simpl.
    by rewrite Hf.
  - split; [| reflexivity].
    exact (float_of_str_numeral false "1" "," "5" ltac:(by left)
             eq_refl eq_refl ltac:(simpl; lia)).
Qed.

(** The numerals at work: with a comma, with a point, without digits
    before or after the separator, negative, an integer; and texts that
    are not read. *)
Example numeric_rules_parsing :
  map (λ s, PyStr.float_of_str (PyStr.replace "," "." s))
    ["0,2"; "5.0"; ",5"; "5,"; "-1,5"; "15"; "< 0,5"; "1,5 mg/L"; "1;5";
     "n/d"]
  = [Ok lit_0_2; Ok lit_5_0; Ok (F64.of_decimal false 5 (-1));
     Ok (F64.of_Z 5); Ok (F64.of_decimal true 15 (-1)); Ok (F64.of_Z 15);
     Raise ValueError; Raise ValueError; Raise ValueError;
     Raise ValueError].
Proof. by vm_compute. Qed.

(** The bounds are inclusive, the numeric result is preferred to the
    text, and a missing numeric result with a missing text gives false. *)
Example numeric_rules_bounds :
  map (λ r, verificar_conformidade r)
    [ amostra (Some "Turbidez (uT)") (Some "5,0") None;
      amostra (Some "Turbidez (uT)") (Some "5,01") None;
      amostra (Some "Cloro residual livre (mg/L)") (Some "0.2") None;
      amostra (Some "Cloro residual livre (mg/L)") (Some "5") None;
      amostra (Some "Cloro residual livre (mg/L)") (Some "0,19") None;
      amostra (Some "Turbidez (uT)") (Some "9,9") (Some (F64.of_Z 1));
      amostra (Some "Turbidez (uT)") (Some "1,0") (Some S754_nan);
      amostra (Some "Turbidez (uT)") None None ]
  = [Ok true; Ok false; Ok true; Ok true; Ok false; Ok true; Ok true;
     Ok false].
Proof. by vm_compute. Qed.

(** ** The evaluator and the objects it reaches *)

Ltac ev_steps :=
  cbv beta iota
    delta [ev_bind table_contains table_getitem row_get ev_ret ev_lift
           the_table the_row].

Lemma verificar_conformidade_ev_body_reads
    (to_float : string → result F64.float) (p : option string) (o : Objects) :
  (verificar_conformidade_ev_body to_float p o).2 = o.
Proof.
  destruct o as [row tab out]. unfold verificar_conformidade_ev_body.
  destruct p as [p |]; [| done]. ev_steps.
  destruct (tab !! p) as [ref |] eqn:Href; [| done].
  rewrite bool_decide_eq_true_2 by (by eexists). cbv beta iota delta [negb].
  rewrite Href. ev_steps.
  destruct ref as [valor | b | mn mx]; [reflexivity | |].
  all: destruct (isna_num (resultado_numerico row)).
  all: try (destruct (resultado_numerico row); reflexivity).
  all: destruct (resultado row) as [r |]; [| reflexivity].
  all: destruct (to_float _) as [v | e]; [reflexivity |].
  all: destruct (catches _ e); reflexivity.
Qed.

Lemma verificar_conformidade_ev_body_pure
    (to_float : string → result F64.float) (o : Objects) :
  the_table o = VALORES_REFERENCIA →
  (verificar_conformidade_ev_body to_float (parametro (the_row o)) o).1
  = verificar_conformidade_body_with to_float (the_row o).
Proof.
  destruct o as [row tab out]. cbn [the_table the_row]. intros ->.
  unfold verificar_conformidade_ev_body, verificar_conformidade_body_with.
  destruct (parametro row) as [p |]; [| done]. ev_steps.
  destruct (VALORES_REFERENCIA !! p) as [ref |] eqn:Href; [| done].
  rewrite bool_decide_eq_true_2 by (by eexists). cbv beta iota delta [negb].
  rewrite Href. ev_steps.
  destruct ref as [valor | b | mn mx]; [reflexivity | |].
  all: destruct (isna_num (resultado_numerico row)).
  all: try (destruct (resultado_numerico row); reflexivity).
  all: destruct (resultado row) as [r |]; [| reflexivity].
  all: destruct (to_float _) as [v | e]; [reflexivity |].
  all: destruct (catches _ e); reflexivity.
Qed.

Lemma verificar_conformidade_ev_run
    (to_float : string → result F64.float) (o : Objects) :
  verificar_conformidade_ev to_float o
  = match (verificar_conformidade_ev_body to_float (parametro (the_row o))
             o).1 with
    | Ok b => (Ok b, o)
    | Raise e => (Ok false, with_message o (parametro (the_row o), e))
    end.
Proof.
  unfold verificar_conformidade_ev, ev_bind, ev_try, row_get.
  pose proof (verificar_conformidade_ev_body_reads to_float
                (parametro (the_row o)) o) as Hread.
  destruct (verificar_conformidade_ev_body to_float (parametro (the_row o)) o)
    as [[b | e] o']; cbn [fst snd] in *; by subst o'.
Qed.

Lemma teste_numerico_returns (ref : Rule) (v : F64.float) :
  ∃ b, teste_numerico ref v = Ok b.
Proof. destruct ref; by eexists. Qed.

(** The body raises only what the conversion of line 101 raises and the
    inner handler does not expect. *)
Lemma verificar_conformidade_body_raises
    (to_float : string → result F64.float) (row : Row) (e : exn) :
  verificar_conformidade_body_with to_float row = Raise e
  ↔ ∃ p ref r,
      parametro row = Some p ∧ VALORES_REFERENCIA !! p = Some ref ∧
      (∀ v, ref ≠ Ausencia v) ∧
      isna_num (resultado_numerico row) = true ∧
      resultado row = Some r ∧
      to_float (PyStr.replace "," "." r) = Raise e ∧
      catches [ValueError; TypeError] e = false.
Proof.
  unfold verificar_conformidade_body_with. split.
  - destruct (parametro row) as [p |]; [| done].
    destruct (VALORES_REFERENCIA !! p) as [ref |] eqn:Href; [| done].
    destruct ref as [valor | b | mn mx]; [done | |].
    all: destruct (isna_num (resultado_numerico row)) eqn:Hna.
    all: try (destruct (resultado_numerico row); done).
    all: destruct (resultado row) as [r |]; [| done].
    all: destruct (to_float _) as [v | e'] eqn:Hf; [done |].
    all: destruct (catches _ e') eqn:Hc; [done |].
    all: intros [= ->]; eexists p, _, r; by repeat split.
  - intros (p & ref & r & -> & -> & Hnum & -> & -> & -> & ->).
    destruct ref as [valor | b | mn mx]; [by destruct (Hnum valor) | done..].
Qed.

(** C4: the evaluator is total and fail-closed, and it leaves the row
    and the reference table as they were.  For every row, every table,
    every list of messages printed so far and every behaviour of the
    conversion of line 101, the call returns a boolean; when the body of
    the [try] returns, the call returns the same and the objects are
    untouched; when the body raises, whatever the exception, the call
    returns false and the only change is one more printed message.
    With the table of the program the result is that of the function of
    the row, and the body raises exactly when the conversion raises an
    exception other than [ValueError] and [TypeError]; with Python's
    [float], a result that does not parse under a numeric rule gives
    false. *)
Theorem verificar_conformidade_fail_closed
    (to_float : string -> result F64.float) (o : Objects) :
  let row := the_row o in
  let body := verificar_conformidade_ev_body to_float (parametro row) o in
  let call := verificar_conformidade_ev to_float o in
  (∃ b, call.1 = Ok b) ∧
  the_row call.2 = the_row o ∧
  the_table call.2 = the_table o ∧
  (∀ b, body.1 = Ok b → call = (Ok b, o)) ∧
  (∀ e, body.1 = Raise e →
     call = (Ok false, with_message o (parametro row, e))) ∧
  (the_table o = VALORES_REFERENCIA →
     call.1 = verificar_conformidade_with to_float row ∧
     ∀ e, body.1 = Raise e
          ↔ ∃ p ref r,
              parametro row = Some p ∧ VALORES_REFERENCIA !! p = Some ref ∧
              (∀ v, ref ≠ Ausencia v) ∧
              isna_num (resultado_numerico row) = true ∧
              resultado row = Some r ∧
              to_float (PyStr.replace "," "." r) = Raise e ∧
              catches [ValueError; TypeError] e = false) ∧
  (∀ p ref r e,
     parametro row = Some p →
     VALORES_REFERENCIA !! p = Some ref →
     (∀ v, ref ≠ Ausencia v) →
     isna_num (resultado_numerico row) = true →
     resultado row = Some r →
     PyStr.float_of_str (PyStr.replace "," "." r) = Raise e →
     verificar_conformidade row = Ok false).
Proof.
  cbv zeta. rewrite (verificar_conformidade_ev_run to_float o).
  pose proof (verificar_conformidade_ev_body_pure to_float o) as Hpure.
  assert (∀ p ref r e,
            parametro (the_row o) = Some p →
            VALORES_REFERENCIA !! p = Some ref →
            (∀ v, ref ≠ Ausencia v) →
            isna_num (resultado_numerico (the_row o)) = true →
            resultado (the_row o) = Some r →
            PyStr.float_of_str (PyStr.replace "," "." r) = Raise e →
            verificar_conformidade (the_row o) = Ok false) as Hparse.
  { intros p ref r e Hp Hr Hnum Hna Hres Hf.
    rewrite (verificar_conformidade_numerico (the_row o) p ref Hp Hr Hnum).
    unfold valor_resolvido, texto_para_numero.
    rewrite Hna, Hres. simpl. by rewrite Hf. }
  destruct (verificar_conformidade_ev_body to_float (parametro (the_row o))
              o).1 as [b0 | e0].
  - split; [by eexists |]. split; [done |]. split; [done |].
    split; [by intros b [= ->] |]. split; [done |].
    split; [| exact Hparse].
    intros Ht. specialize (Hpure Ht). split.
    + unfold verificar_conformidade_with. by rewrite <- Hpure.
    + intros e. rewrite Hpure. apply verificar_conformidade_body_raises.
  - split; [by eexists |]. split; [done |]. split; [done |].
    split; [done |]. split; [by intros e [= ->] |].
    split; [| exact Hparse].
    intros Ht. specialize (Hpure Ht). split.
    + unfold verificar_conformidade_with. by rewrite <- Hpure.
    + intros e. rewrite Hpure. apply verificar_conformidade_body_raises.
Qed.

(** The handlers at work: a result that is no number; a conversion that
    raises an exception no inner handler expects, which the outer
    handler reports; and the two assignments that the evaluator never
    makes, which do change the objects. *)
Example verificar_conformidade_unparsable :
  PyStr.float_of_str (PyStr.replace "," "." "< 0,5") = Raise ValueError ∧
  verificar_conformidade (amostra (Some "Turbidez (uT)") (Some "< 0,5") None)
    = Ok false.
Proof. split; by vm_compute. Qed.

Example verificar_conformidade_unexpected :
  let row := amostra (Some "Turbidez (uT)") (Some "0,5") None in
  let o := {| the_row := row; the_table := VALORES_REFERENCIA;
              printed := [] |} in
  verificar_conformidade_body_with (fun _ => Raise OtherError) row
    = Raise OtherError ∧
  verificar_conformidade_with (fun _ => Raise OtherError) row = Ok false ∧
  verificar_conformidade_ev (fun _ => Raise OtherError) o
    = (Ok false,
       {| the_row := row; the_table := VALORES_REFERENCIA;
          printed := [(Some "Turbidez (uT)", OtherError)] |}).
Proof. split; [| split]; by vm_compute. Qed.

Example assignments_change_the_objects :
  let row := amostra (Some "Turbidez (uT)") (Some "0,5") None in
  let o := {| the_row := row; the_table := VALORES_REFERENCIA;
              printed := [] |} in
  the_row (row_set (fun r => with_conforme r true) o).2 ≠ the_row o ∧
  the_table (table_setitem "pH" (Maximo lit_5_0) o).2 ≠ the_table o.
Proof.
  split.
  - by vm_compute.
  - cbn [the_table table_setitem snd]. intros H.
    apply (f_equal (λ m : gmap string Rule, m !! "pH")) in H.
    by rewrite lookup_insert_eq in H.
Qed.

(** ** The derived column *)

Lemma apply_rows_verificar_conformidade (l : list Row) :
  apply_rows verificar_conformidade l = Ok (map is_conforme l).
Proof.
  induction l as [| r l IH]; simpl; [done |].
  by rewrite verificar_conformidade_returns, IH.
Qed.

Lemma zip_with_map_diag {A B C} (f : A → B → C) (g : A → B) (l : list A) :
  zip_with f l (map g l) = map (λ x, f x (g x)) l.
Proof. induction l; simpl; congruence. Qed.

Lemma rows_avaliado (d : DataFrame) :
  rows (avaliado d) = map (λ r, with_conforme r (is_conforme r)) (rows d).
Proof. apply zip_with_map_diag. Qed.

Lemma filter_map_comm {A B} (f : A → B) (P : B → bool) (Q : A → bool)
    (l : list A) :
  (∀ x, P (f x) = Q x) →
  List.filter P (map f l) = map f (List.filter Q l).
Proof.
  intros HPQ. induction l as [| x l IH]; simpl; [done |].
  rewrite HPQ. destruct (Q x); simpl; congruence.
Qed.

Lemma conforme_column (l : list Row) :
  map conforme (map (λ r, with_conforme r (is_conforme r)) l)
  = map Some (map is_conforme l).
Proof. induction l; simpl; congruence. Qed.

Lemma count_true_Some (bs : list bool) :
  count_true (map Some bs)
  = Z.of_nat (length (List.filter (λ b, b) bs)).
Proof.
  unfold count_true. f_equal.
  induction bs as [| [] bs IH]; simpl; congruence.
Qed.

Lemma count_cells_Some (bs : list bool) :
  count_cells (map Some bs) = Z.of_nat (length bs).
Proof.
  unfold count_cells. f_equal.
  induction bs as [| b bs IH]; csimpl; [done |].
  by rewrite IH.
Qed.

Lemma count_true_conforme (l : list Row) :
  count_true (map conforme (map (λ r, with_conforme r (is_conforme r)) l))
  = conformes l.
Proof.
  rewrite conforme_column, count_true_Some. unfold conformes. f_equal.
  induction l as [| r l IH]; simpl; [done |].
  destruct (is_conforme r); simpl; congruence.
Qed.

Lemma count_cells_conforme (l : list Row) :
  count_cells (map conforme (map (λ r, with_conforme r (is_conforme r)) l))
  = Z.of_nat (length l).
Proof. by rewrite conforme_column, count_cells_Some, length_map. Qed.

Lemma percent_conforme (l : list Row) :
  percent (map conforme (map (λ r, with_conforme r (is_conforme r)) l))
  = taxa l.
Proof.
  unfold percent, mean, taxa.
  by rewrite count_true_conforme, count_cells_conforme.
Qed.

(** The percentage read from the derived column of an evaluated frame,
    restricted to the rows that a mask on the other columns selects. *)
Lemma percent_select_avaliado (mask : Row → bool) (d : DataFrame) :
  (∀ r b, mask (with_conforme r b) = mask r) →
  percent (map conforme (rows (select_rows mask (avaliado d))))
  = taxa (List.filter mask (rows d)).
Proof.
  intros Hmask. simpl. rewrite zip_with_map_diag.
  rewrite (filter_map_comm _ mask mask) by (intros; apply Hmask).
  apply percent_conforme.
Qed.

Lemma percent_avaliado (d : DataFrame) :
  percent (map conforme (rows (avaliado d))) = taxa (rows d).
Proof. rewrite rows_avaliado. apply percent_conforme. Qed.

Lemma length_rows_avaliado (d : DataFrame) :
  length (rows (avaliado d)) = length (rows d).
Proof. rewrite rows_avaliado. apply length_map. Qed.

Lemma percentual_de_avaliado (d : DataFrame) :
  rows d ≠ [] → percentual_de (avaliado d) = PFloat (taxa (rows d)).
Proof.
  intros Hne. unfold percentual_de.
  rewrite percent_avaliado, rows_avaliado.
  by destruct (rows d).
Qed.

Lemma df_empty_false (d : DataFrame) :
  df_empty d = false ↔ rows d ≠ [] ∧ columns d ≠ [].
Proof.
  unfold df_empty.
  destruct (rows d), (columns d); split; try done; by intros [? ?].
Qed.

Lemma df_empty_nil (d : DataFrame) : rows d = [] → df_empty d = true.
Proof. unfold df_empty. by intros ->. Qed.

(** ** Running the heap operations *)

Lemma bind_ok {A B} (m : M A) (k : A → M B) (h h' : heap) (a : A) :
  m h = (Ok a, h') → bind m k h = k a h'.
Proof. unfold bind. by intros ->. Qed.

Lemma bind_raise {A B} (m : M A) (k : A → M B) (h h' : heap) (e : exn) :
  m h = (Raise e, h') → bind m k h = (Raise e, h').
Proof. unfold bind. by intros ->. Qed.

Lemma lookup_snoc (h : heap) (d : DataFrame) :
  (h ++ [d]) !! length h = Some d.
Proof. by rewrite lookup_app_r, Nat.sub_diag. Qed.

Lemma insert_snoc (h : heap) (d d' : DataFrame) :
  <[length h := d']> (h ++ [d]) = h ++ [d'].
Proof.
  rewrite <- (Nat.add_0_r (length h)). by rewrite insert_app_r.
Qed.

Lemma deref_ok (h : heap) (l : nat) (d : DataFrame) :
  h !! l = Some d → deref l h = (Ok d, h).
Proof. unfold deref. by intros ->. Qed.

Lemma deref_dangling (h : heap) (l : nat) :
  h !! l = None → deref l h = (Raise OtherError, h).
Proof. unfold deref. by intros ->. Qed.

Lemma frame_copy_ok (h : heap) (l : nat) (d : DataFrame) :
  h !! l = Some d → frame_copy l h = (Ok (length h), h ++ [d]).
Proof.
  intros Hl. unfold frame_copy. by rewrite (bind_ok _ _ _ _ _ (deref_ok _ _ _ Hl)).
Qed.

Lemma frame_select_ok (h : heap) (l : nat) (d : DataFrame) (mask : Row → bool) :
  h !! l = Some d →
  frame_select l mask h = (Ok (length h), h ++ [select_rows mask d]).
Proof.
  intros Hl. unfold frame_select.
  by rewrite (bind_ok _ _ _ _ _ (deref_ok _ _ _ Hl)).
Qed.

Lemma frame_set_conforme_apply_ok (h : heap) (l : nat) (d : DataFrame) :
  h !! l = Some d →
  frame_set_conforme_apply l verificar_conformidade h
  = (Ok tt, <[l := avaliado d]> h).
Proof.
  intros Hl. unfold frame_set_conforme_apply.
  rewrite (bind_ok _ _ _ _ _ (deref_ok _ _ _ Hl)).
  unfold lift at 1. unfold bind at 1.
  rewrite apply_rows_verificar_conformidade.
  by rewrite (bind_ok _ _ _ _ _ (deref_ok _ _ _ Hl)).
Qed.

(** A frame is selected from the frame at [c], copied, and the copy is
    evaluated when it has rows: the two new frames come after the heap. *)
Lemma select_copy_ok (h : heap) (c : nat) (dc : DataFrame)
    (mask : Row → bool) {B} (k : nat → M B) :
  h !! c = Some dc →
  (let* selecao := frame_select c mask in
   let* copia := frame_copy selecao in k copia) h
  = k (S (length h))
      (h ++ [select_rows mask dc; select_rows mask dc]).
Proof.
  intros Hc.
  rewrite (bind_ok _ _ _ _ _ (frame_select_ok _ _ _ mask Hc)).
  rewrite (bind_ok _ _ _ _ _ (frame_copy_ok _ _ _ (lookup_snoc _ _))).
  rewrite length_app, <- app_assoc. simpl.
  by rewrite Nat.add_1_r.
Qed.

Lemma lookup_second_new (h : heap) (a b : DataFrame) :
  (h ++ [a; b]) !! S (length h) = Some b.
Proof.
  rewrite lookup_app_r by lia.
  by replace (S (length h) - length h)%nat with 1%nat by lia.
Qed.

Lemma insert_second_new (h : heap) (a b b' : DataFrame) :
  <[S (length h) := b']> (h ++ [a; b]) = h ++ [a; b'].
Proof.
  replace (S (length h)) with (length h + 1)%nat by lia.
  by rewrite insert_app_r.
Qed.

(** The loop of an aggregator: every turn appends what it emits to the
    list and only adds frames to the heap. *)
Lemma for_each_append {A B} (body : A → list B → M (list B))
    (emit : A → list B) (Inv : heap → Prop) (Q : A → Prop) :
  (∀ h junk, Inv h → Inv (h ++ junk)) →
  (∀ x acc h, Q x → Inv h →
     ∃ junk, body x acc h = (Ok (acc ++ emit x), h ++ junk)) →
  ∀ xs acc h, Forall Q xs → Inv h →
    ∃ junk, for_each xs body acc h
            = (Ok (acc ++ concat (map emit xs)), h ++ junk).
Proof.
  intros Hinv Hbody xs.
  induction xs as [| x xs IH]; intros acc h HQ Hh; simpl.
  - exists []. unfold ret. by rewrite !app_nil_r.
  - inversion HQ as [| ? ? Hx Hxs]; subst.
    destruct (Hbody x acc h Hx Hh) as (j1 & Hrun).
    rewrite (bind_ok _ _ _ _ _ Hrun).
    destruct (IH (acc ++ emit x) (h ++ j1) Hxs (Hinv _ _ Hh)) as (j2 & ->).
    exists (j1 ++ j2). by rewrite <- !app_assoc.
Qed.

Lemma concat_map_singleton {A B} (g : A → B) (xs : list A) :
  concat (map (λ x, [g x]) xs) = map g xs.
Proof. induction xs; simpl; congruence. Qed.

Lemma concat_map_option {A B} (g : A → option B) (xs : list A) :
  concat (map (λ x, option_list (g x)) xs) = omap g xs.
Proof.
  induction xs as [| x xs IH]; simpl; [done |].
  rewrite IH. by destruct (g x).
Qed.

Lemma lookup_app_keeps (h junk : heap) (c : nat) (d : DataFrame) :
  h !! c = Some d → (h ++ junk) !! c = Some d.
Proof. intros H. by apply lookup_app_l_Some. Qed.

Lemma bind_assoc {A B C} (m : M A) (k1 : A → M B) (k2 : B → M C)
    (h : heap) :
  bind (bind m k1) k2 h = bind m (λ x, bind (k1 x) k2) h.
Proof. unfold bind. by destruct (m h) as [[a | e] h']. Qed.

Lemma bind_ret {A B} (a : A) (k : A → M B) (h : heap) :
  bind (ret a) k h = k a h.
Proof. reflexivity. Qed.

Lemma bind_lift_ok {A B} (a : A) (k : A → M B) (h : heap) :
  bind (lift (Ok a)) k h = k a h.
Proof. reflexivity. Qed.

Lemma series_empty_conforme_avaliado (d : DataFrame) :
  rows d ≠ [] → series_empty (map conforme (rows (avaliado d))) = false.
Proof. intros Hne. rewrite rows_avaliado. by destruct (rows d). Qed.

(** ** What the aggregators return, and the heap they leave *)

(** One step of a run: the first operation of the chain returns, by [H]. *)
Ltac run_with H :=
  rewrite ?bind_assoc; rewrite (bind_ok _ _ _ _ _ H).

Ltac run_pure :=
  rewrite ?bind_assoc; first [rewrite bind_ret | rewrite bind_lift_ok].

Lemma calcular_estatisticas_run (h : heap) (l : nat) (d : DataFrame) :
  h !! l = Some d →
  calcular_estatisticas l h
  = (Ok (estatisticas_de d),
     h ++ [if df_empty d then d else avaliado d]).
Proof.
  intros Hl.
  unfold calcular_estatisticas, try_M, calcular_estatisticas_body.
  run_with (frame_copy_ok _ _ _ Hl).
  run_with (deref_ok _ _ _ (lookup_snoc h d)).
  unfold estatisticas_de.
  destruct (df_empty d) eqn:Hemp; simpl negb; cbv iota.
  - run_pure.
    by run_with (deref_ok _ _ _ (lookup_snoc h d)).
  - apply df_empty_false in Hemp as [Hrows Hcols].
    run_with (frame_set_conforme_apply_ok _ _ _ (lookup_snoc h d)).
    rewrite insert_snoc.
    run_with (deref_ok _ _ _ (lookup_snoc h (avaliado d))).
    unfold getitem. rewrite lookup_insert_eq. run_pure.
    unfold percentual_de.
    rewrite (series_empty_conforme_avaliado d Hrows). simpl negb. cbv iota.
    simpl int_minus. run_pure. run_pure.
    by run_with (deref_ok _ _ _ (lookup_snoc h (avaliado d))).
Qed.

Lemma calcular_estatisticas_dangling (h : heap) (l : nat) :
  h !! l = None →
  calcular_estatisticas l h = (Ok estatisticas_de_erro, h).
Proof.
  intros Hl. unfold calcular_estatisticas, try_M, calcular_estatisticas_body.
  unfold frame_copy. rewrite ?bind_assoc.
  by rewrite (bind_raise _ _ _ _ _ (deref_dangling _ _ Hl)).
Qed.

(** The group frame: selected from the copy, copied and evaluated. *)
Lemma obter_dados_bairros_iter_run (h : heap) (c : nat) (dc : DataFrame)
    (nome : option string) (acc : list (gmap string pyval)) :
  h !! c = Some dc →
  ∃ junk, obter_dados_bairros_iter c nome acc h
          = (Ok (acc ++ [grupo_bairro dc nome]), h ++ junk).
Proof.
  intros Hc. unfold obter_dados_bairros_iter, grupo_bairro.
  rewrite (select_copy_ok _ _ _ _ _ Hc).
  set (sel := select_rows _ dc).
  run_with (deref_ok _ _ _ (lookup_second_new h sel sel)).
  destruct (df_empty sel) eqn:Hemp; simpl negb; cbv iota.
  - run_pure.
    run_with (deref_ok _ _ _ (lookup_second_new h sel sel)).
    eexists. reflexivity.
  - apply df_empty_false in Hemp as [Hrows Hcols].
    run_with (frame_set_conforme_apply_ok _ _ _ (lookup_second_new h sel sel)).
    rewrite insert_second_new.
    run_with (deref_ok _ _ _ (lookup_second_new h sel (avaliado sel))).
    run_pure.
    run_with (deref_ok _ _ _ (lookup_second_new h sel (avaliado sel))).
    eexists. reflexivity.
Qed.

Lemma obter_dados_bairros_run (h : heap) (l : nat) (d : DataFrame) :
  h !! l = Some d →
  ∃ junk, obter_dados_bairros l h = (Ok (dados_bairros_de d), h ++ junk).
Proof.
  intros Hl.
  unfold obter_dados_bairros, try_M, obter_dados_bairros_body,
    dados_bairros_de.
  run_with (deref_ok _ _ _ Hl).
  destruct (df_empty d || negb (has_column "bairro" d)).
  - exists []. unfold ret. by rewrite app_nil_r.
  - run_with (frame_copy_ok _ _ _ Hl).
    run_with (deref_ok _ _ _ (lookup_snoc h d)).
    destruct (for_each_append (obter_dados_bairros_iter (length h))
                (λ nome, [grupo_bairro d nome])
                (λ h', h' !! length h = Some d) (λ _, True)
                (λ h' junk, lookup_app_keeps h' junk _ _)
                (λ nome acc h' _ Hh',
                   obter_dados_bairros_iter_run h' _ d nome acc Hh')
                (unique (map bairro (rows d))) [] (h ++ [d])
                (Forall_true _ _ (λ _, I)) (lookup_snoc h d))
      as (junk & ->).
    exists (d :: junk).
    by rewrite concat_map_singleton, <- app_assoc.
Qed.

Lemma obter_dados_bairros_dangling (h : heap) (l : nat) :
  h !! l = None → obter_dados_bairros l h = (Ok [], h).
Proof.
  intros Hl. unfold obter_dados_bairros, try_M, obter_dados_bairros_body.
  by rewrite (bind_raise _ _ _ _ _ (deref_dangling _ _ Hl)).
Qed.

Lemma nome_do_mes_ok (m : Z) :
  1 ≤ m ≤ 12 →
  nome_do_mes (m - 1)
  = Ok (PStr (default "" (nomes_meses !! Z.to_nat (m - 1)))).
Proof.
  intros Hm.
  assert (m = 1 ∨ m = 2 ∨ m = 3 ∨ m = 4 ∨ m = 5 ∨ m = 6 ∨ m = 7 ∨ m = 8 ∨
          m = 9 ∨ m = 10 ∨ m = 11 ∨ m = 12) as H by lia.
  repeat (destruct H as [-> | H]; [reflexivity |]). by subst.
Qed.

Lemma range_1_13_bounds : Forall (λ m, 1 ≤ m ≤ 12) range_1_13.
Proof. unfold range_1_13. repeat constructor; lia. Qed.

Lemma obter_distribuicao_mes_iter_run (h : heap) (c : nat) (dv : DataFrame)
    (m : Z) (acc : list (gmap string pyval)) :
  1 ≤ m ≤ 12 →
  h !! c = Some dv →
  ∃ junk, obter_distribuicao_mes_iter c m acc h
          = (Ok (acc ++ option_list (grupo_mes dv m)), h ++ junk).
Proof.
  intros Hm Hc. unfold obter_distribuicao_mes_iter, grupo_mes.
  rewrite (select_copy_ok _ _ _ _ _ Hc).
  set (sel := select_rows _ dv).
  run_with (deref_ok _ _ _ (lookup_second_new h sel sel)).
  destruct (0 <? df_len sel) eqn:Hlen.
  - run_with (frame_set_conforme_apply_ok _ _ _ (lookup_second_new h sel sel)).
    rewrite insert_second_new.
    run_with (deref_ok _ _ _ (lookup_second_new h sel (avaliado sel))).
    rewrite (nome_do_mes_ok m Hm). run_pure.
    eexists. reflexivity.
  - eexists. unfold ret. simpl option_list. by rewrite app_nil_r.
Qed.

Lemma obter_distribuicao_mes_run (h : heap) (l : nat) (d : DataFrame) :
  h !! l = Some d →
  ∃ junk, obter_distribuicao_mes l h
          = (Ok (distribuicao_mes_de d), h ++ junk).
Proof.
  intros Hl.
  unfold obter_distribuicao_mes, try_M, obter_distribuicao_mes_body,
    distribuicao_mes_de.
  run_with (deref_ok _ _ _ Hl).
  destruct (df_empty d || negb (has_column "mes" d)).
  - exists []. unfold ret. by rewrite app_nil_r.
  - run_with (frame_copy_ok _ _ _ Hl).
    unfold frame_to_numeric_mes, frame_dropna_mes.
    run_with (deref_ok _ _ _ (lookup_snoc h d)).
    unfold assign at 1. unfold bind at 1. rewrite insert_snoc.
    run_with (deref_ok _ _ _ (lookup_snoc h d)).
    unfold assign at 1. unfold bind at 1. rewrite insert_snoc.
    fold (com_mes d).
    destruct (for_each_append (obter_distribuicao_mes_iter (length h))
                (λ m, option_list (grupo_mes (com_mes d) m))
                (λ h', h' !! length h = Some (com_mes d))
                (λ m, 1 ≤ m ≤ 12)
                (λ h' junk, lookup_app_keeps h' junk _ _)
                (λ m acc h' Hm Hh',
                   obter_distribuicao_mes_iter_run h' _ _ m acc Hm Hh')
                range_1_13 [] (h ++ [com_mes d])
                range_1_13_bounds (lookup_snoc h (com_mes d)))
      as (junk & ->).
    exists (com_mes d :: junk).
    by rewrite concat_map_option, <- app_assoc.
Qed.

Lemma obter_distribuicao_mes_dangling (h : heap) (l : nat) :
  h !! l = None → obter_distribuicao_mes l h = (Ok [], h).
Proof.
  intros Hl.
  unfold obter_distribuicao_mes, try_M, obter_distribuicao_mes_body.
  by rewrite (bind_raise _ _ _ _ _ (deref_dangling _ _ Hl)).
Qed.

Lemma obter_distribuicao_ponto_coleta_iter_run (h : heap) (c : nat)
    (dc : DataFrame) (nome : option string)
    (acc : list (gmap string pyval)) :
  h !! c = Some dc →
  ∃ junk, obter_distribuicao_ponto_coleta_iter c nome acc h
          = (Ok (acc ++ option_list (grupo_ponto dc nome)), h ++ junk).
Proof.
  intros Hc. unfold obter_distribuicao_ponto_coleta_iter, grupo_ponto.
  rewrite (select_copy_ok _ _ _ _ _ Hc).
  set (sel := select_rows _ dc).
  run_with (deref_ok _ _ _ (lookup_second_new h sel sel)).
  destruct (0 <? df_len sel) eqn:Hlen.
  - run_with (frame_set_conforme_apply_ok _ _ _ (lookup_second_new h sel sel)).
    rewrite insert_second_new.
    run_with (deref_ok _ _ _ (lookup_second_new h sel (avaliado sel))).
    eexists. reflexivity.
  - eexists. unfold ret. simpl option_list. by rewrite app_nil_r.
Qed.

Lemma obter_distribuicao_ponto_coleta_run (h : heap) (l : nat)
    (d : DataFrame) :
  h !! l = Some d →
  ∃ junk, obter_distribuicao_ponto_coleta l h
          = (Ok (distribuicao_ponto_coleta_de d), h ++ junk).
Proof.
  intros Hl.
  unfold obter_distribuicao_ponto_coleta, try_M,
    obter_distribuicao_ponto_coleta_body, distribuicao_ponto_coleta_de.
  run_with (deref_ok _ _ _ Hl).
  destruct (df_empty d || negb (has_column "ponto_de_coleta" d)).
  - exists []. unfold ret. by rewrite app_nil_r.
  - run_with (frame_copy_ok _ _ _ Hl).
    run_with (deref_ok _ _ _ (lookup_snoc h d)).
    destruct (for_each_append
                (obter_distribuicao_ponto_coleta_iter (length h))
                (λ nome, option_list (grupo_ponto d nome))
                (λ h', h' !! length h = Some d) (λ _, True)
                (λ h' junk, lookup_app_keeps h' junk _ _)
                (λ nome acc h' _ Hh',
                   obter_distribuicao_ponto_coleta_iter_run h' _ d nome acc Hh')
                (unique (map ponto_de_coleta (rows d))) [] (h ++ [d])
                (Forall_true _ _ (λ _, I)) (lookup_snoc h d))
      as (junk & ->).
    exists (d :: junk).
    by rewrite concat_map_option, <- app_assoc.
Qed.

Lemma obter_distribuicao_ponto_coleta_dangling (h : heap) (l : nat) :
  h !! l = None → obter_distribuicao_ponto_coleta l h = (Ok [], h).
Proof.
  intros Hl.
  unfold obter_distribuicao_ponto_coleta, try_M,
    obter_distribuicao_ponto_coleta_body.
  by rewrite (bind_raise _ _ _ _ _ (deref_dangling _ _ Hl)).
Qed.

(** ** Reading the result dictionaries *)

Ltac other_key := rewrite lookup_insert_ne by (by vm_compute).

Lemma com_nomes_curtos_geral (stats : gmap string pyval) :
  com_nomes_curtos stats !! "conformidade_geral"
  = stats !! "conformidade_geral" ∧
  com_nomes_curtos stats !! "nao_conformidade_geral"
  = stats !! "nao_conformidade_geral" ∧
  com_nomes_curtos stats !! "total_amostras" = stats !! "total_amostras".
Proof. unfold com_nomes_curtos. repeat split; by repeat other_key. Qed.

Lemma fold_conformidade_geral (d : DataFrame) (stats : gmap string pyval) :
  let stats' :=
    fold_left
      (λ stats param,
         <["conformidade_" +:+ param_key param :=
             conformidade_do_parametro d param]> stats)
      parametros_para_stats stats in
  stats' !! "conformidade_geral" = stats !! "conformidade_geral" ∧
  stats' !! "nao_conformidade_geral" = stats !! "nao_conformidade_geral" ∧
  stats' !! "total_amostras" = stats !! "total_amostras".
Proof.
  unfold parametros_para_stats. cbn [fold_left].
  repeat split; by repeat other_key.
Qed.

Lemma estatisticas_de_geral (d : DataFrame) :
  estatisticas_de d !! "total_amostras" = Some (PInt (df_len d)) ∧
  estatisticas_de d !! "conformidade_geral"
  = Some (if df_empty d then PInt 0 else PFloat (taxa (rows d))) ∧
  estatisticas_de d !! "nao_conformidade_geral"
  = Some (if df_empty d then PInt 100
          else PFloat (F64.sub (F64.of_Z 100) (taxa (rows d)))).
Proof.
  unfold estatisticas_de.
  match goal with
  | |- context [com_nomes_curtos ?s] =>
      destruct (com_nomes_curtos_geral s) as (-> & -> & ->)
  end.
  match goal with
  | |- context [fold_left _ _ ?s] =>
      destruct (fold_conformidade_geral
                  (if df_empty d then d else avaliado d) s) as (-> & -> & ->)
  end.
  destruct (df_empty d); rewrite ?percent_avaliado;
    repeat split; by repeat (rewrite lookup_insert_eq || other_key).
Qed.

Lemma is_conforme_spec (row : Row) :
  is_conforme row = true ↔ verificar_conformidade row = Ok true.
Proof.
  rewrite verificar_conformidade_returns. split; [by intros -> | by intros [=]].
Qed.

(** C5: the overall compliance percentage is [100 * k / n] for the [k]
    rows that the evaluator accepts among the [n] rows, computed in
    binary64 as [(k / n) * 100], and the overall non-compliance is 100
    minus it; for a frame without rows they are 0 and 100. *)
Theorem overall_compliance (h : heap) (l : nat) (d : DataFrame) :
  h !! l = Some d →
  ∃ stats junk,
    calcular_estatisticas l h = (Ok stats, h ++ junk) ∧
    stats !! "total_amostras" = Some (PInt (Z.of_nat (length (rows d)))) ∧
    (rows d = [] →
       stats !! "conformidade_geral" = Some (PInt 0) ∧
       stats !! "nao_conformidade_geral" = Some (PInt 100)) ∧
    (rows d ≠ [] → columns d ≠ [] →
       let k := Z.of_nat (length (List.filter is_conforme (rows d))) in
       let n := Z.of_nat (length (rows d)) in
       let pct := F64.mul (F64.div (F64.of_Z k) (F64.of_Z n)) (F64.of_Z 100) in
       stats !! "conformidade_geral" = Some (PFloat pct) ∧
       stats !! "nao_conformidade_geral"
       = Some (PFloat (F64.sub (F64.of_Z 100) pct))).
Proof.
  intros Hl. eexists _, _.
  split; [apply (calcular_estatisticas_run _ _ _ Hl) |].
  destruct (estatisticas_de_geral d) as (Htot & Hg & Hn).
  split; [exact Htot |]. split.
  - intros Hrows. rewrite Hg, Hn. by rewrite (df_empty_nil d Hrows).
  - intros Hrows Hcols. rewrite Hg, Hn.
    by rewrite (proj2 (df_empty_false d) (conj Hrows Hcols)).
Qed.

(** What an aggregator adds and what it changes are frames of its own,
    placed after the heap it was given. *)
Lemma aggregators_extend_heap (h : heap) (l : nat) :
  (∃ junk, snd (calcular_estatisticas l h) = h ++ junk) ∧
  (∃ junk, snd (obter_dados_bairros l h) = h ++ junk) ∧
  (∃ junk, snd (obter_distribuicao_mes l h) = h ++ junk) ∧
  (∃ junk, snd (obter_distribuicao_ponto_coleta l h) = h ++ junk).
Proof.
  destruct (h !! l) as [d |] eqn:Hl.
  - repeat split.
    + eexists. by rewrite (calcular_estatisticas_run _ _ _ Hl).
    + destruct (obter_dados_bairros_run _ _ _ Hl) as (junk & ->).
      by exists junk.
    + destruct (obter_distribuicao_mes_run _ _ _ Hl) as (junk & ->).
      by exists junk.
    + destruct (obter_distribuicao_ponto_coleta_run _ _ _ Hl) as (junk & ->).
      by exists junk.
  - repeat split; exists []; rewrite app_nil_r.
    + by rewrite (calcular_estatisticas_dangling _ _ Hl).
    + by rewrite (obter_dados_bairros_dangling _ _ Hl).
    + by rewrite (obter_distribuicao_mes_dangling _ _ Hl).
    + by rewrite (obter_distribuicao_ponto_coleta_dangling _ _ Hl).
Qed.

(** C10: each of the four aggregators leaves every frame of the caller
    as it was, the frame it is called on included: the same columns and
    the same rows are read back after the call.  The derived column goes
    to a copy. *)
Theorem aggregators_leave_input_unchanged (h : heap) (l l' : nat)
    (d : DataFrame) :
  h !! l' = Some d →
  snd (calcular_estatisticas l h) !! l' = Some d ∧
  snd (obter_dados_bairros l h) !! l' = Some d ∧
  snd (obter_distribuicao_mes l h) !! l' = Some d ∧
  snd (obter_distribuicao_ponto_coleta l h) !! l' = Some d.
Proof.
  intros Hl'.
  destruct (aggregators_extend_heap h l)
    as ((j1 & ->) & (j2 & ->) & (j3 & ->) & (j4 & ->)).
  repeat split; by apply lookup_app_keeps.
Qed.

(** Without the copy the derived column would land in the caller's
    frame: the assignment changes the frame it is applied to. *)
Example column_assignment_mutates :
  snd (frame_set_conforme_apply 0 verificar_conformidade [quadro_exemplo])
  ≠ [quadro_exemplo] ∧
  snd (calcular_estatisticas 0 [quadro_exemplo]) !! 0%nat
  = Some quadro_exemplo.
Proof. split; by vm_compute. Qed.

(** ** The per-parameter entries of a group *)

Lemma columns_avaliado_nonempty (d : DataFrame) :
  columns d ≠ [] → columns (avaliado d) ≠ [].
Proof.
  unfold avaliado, set_conforme. simpl.
  destruct (has_column "conforme" d); [done |].
  by destruct (columns d).
Qed.

Lemma has_column_avaliado (c : string) (d : DataFrame) :
  c ≠ "conforme" → has_column c (avaliado d) = has_column c d.
Proof.
  intros Hc. unfold has_column at 1. unfold avaliado, set_conforme. simpl.
  destruct (has_column "conforme" d); [done |].
  unfold has_column. apply bool_decide_ext.
  rewrite elem_of_app, list_elem_of_singleton.
  split; [by intros [H | ->] | by left].
Qed.

Lemma has_column_nonempty (c : string) (d : DataFrame) :
  has_column c d = true → columns d ≠ [].
Proof.
  unfold has_column. intros H%bool_decide_eq_true_1 Hnil.
  rewrite Hnil in H. by apply elem_of_nil in H.
Qed.

Lemma mask_parametro_with_conforme (p : string) (r : Row) (b : bool) :
  cell_eq (parametro (with_conforme r b)) (Some p)
  = cell_eq (parametro r) (Some p).
Proof. reflexivity. Qed.

Lemma percentual_do_parametro_grupo (sel : DataFrame) (p : string) :
  percentual_do_parametro (if df_empty sel then sel else avaliado sel) p
  = percentual_esperado sel
      (List.filter (λ r, cell_eq (parametro r) (Some p)) (rows sel)).
Proof.
  unfold percentual_do_parametro, percentual_esperado.
  destruct (df_empty sel) eqn:Hemp.
  - destruct (has_column "parametro" sel) eqn:Hcol; [| done].
    apply has_column_nonempty in Hcol.
    assert (rows sel = []) as Hrows.
    { unfold df_empty in Hemp. destruct (rows sel), (columns sel); done. }
    unfold df_empty. simpl. by rewrite Hrows.
  - rewrite has_column_avaliado by done.
    destruct (has_column "parametro" sel) eqn:Hcol; [| done].
    apply has_column_nonempty in Hcol.
    rewrite percent_select_avaliado by (intros; apply mask_parametro_with_conforme).
    unfold df_empty. simpl. rewrite zip_with_map_diag.
    rewrite (filter_map_comm _ _
               (λ r, cell_eq (parametro r) (Some p)))
      by (intros; apply mask_parametro_with_conforme).
    pose proof (columns_avaliado_nonempty sel Hcol) as Hc.
    unfold avaliado, set_conforme in Hc. simpl in Hc.
    destruct (List.filter _ (rows sel)); simpl; [done |].
    by destruct (if has_column "conforme" sel then _ else _).
Qed.

(** The keys under which [com_percentuais] stores the five percentages,
    and the keys that it leaves alone. *)
Ltac concrete_keys :=
  change ("percentual_" +:+ param_key "Escherichia coli")
    with "percentual_escherichia_coli" in *;
  change ("percentual_" +:+ param_key "Coliformes totais")
    with "percentual_coliformes_totais" in *;
  change ("percentual_" +:+ param_key "Turbidez (uT)")
    with "percentual_turbidez_ut" in *;
  change ("percentual_" +:+ param_key "Cloro residual livre (mg/L)")
    with "percentual_cloro_residual_livre_mg_l" in *;
  change ("percentual_" +:+ param_key "Fluoreto (mg/L)")
    with "percentual_fluoreto_mg_l" in *.

Ltac read_key := repeat (rewrite lookup_insert_eq || other_key).

Lemma com_percentuais_lookup (params : list string) (db : DataFrame)
    (dados : gmap string pyval) (p : string) :
  params = ["Escherichia coli"; "Coliformes totais"; "Turbidez (uT)";
            "Cloro residual livre (mg/L)"; "Fluoreto (mg/L)"] →
  p ∈ params →
  com_percentuais params db dados !! ("percentual_" +:+ param_key p)
  = Some (percentual_do_parametro db p).
Proof.
  intros -> Hp. unfold com_percentuais. cbn [fold_left].
  repeat (apply elem_of_cons in Hp as [-> | Hp];
          [concrete_keys; by read_key |]).
  by apply elem_of_nil in Hp.
Qed.

Lemma com_percentuais_other (params : list string) (db : DataFrame)
    (dados : gmap string pyval) (k : string) :
  params = ["Escherichia coli"; "Coliformes totais"; "Turbidez (uT)";
            "Cloro residual livre (mg/L)"; "Fluoreto (mg/L)"] →
  k ∈ ["bairro"; "total_analises"; "percentual_conforme"; "mes";
       "nome_mes"; "total_amostras"] →
  com_percentuais params db dados !! k = dados !! k.
Proof.
  intros -> Hk. unfold com_percentuais. cbn [fold_left]. concrete_keys.
  repeat (apply elem_of_cons in Hk as [-> | Hk]; [by read_key |]).
  by apply elem_of_nil in Hk.
Qed.

Lemma filter_filter_implied {A} (P Q : A → bool) (l : list A) :
  (∀ x, P x = true → Q x = true) →
  List.filter P (List.filter Q l) = List.filter P l.
Proof.
  intros HPQ. induction l as [| x l IH]; simpl; [done |].
  destruct (Q x) eqn:HQ; simpl.
  - destruct (P x); congruence.
  - destruct (P x) eqn:HP; [| done].
    rewrite (HPQ x HP) in HQ. done.
Qed.

Lemma num_eq_not_na (cell : option F64.float) (n : Z) :
  num_eq cell n = true → negb (isna_num cell) = true.
Proof. destruct cell as [[] |]; done. Qed.

Lemma rows_mes_group (d : DataFrame) (m : Z) :
  rows (select_rows (λ r, num_eq (mes r) m) (com_mes d))
  = List.filter (λ r, num_eq (mes r) m) (rows d).
Proof.
  simpl. apply filter_filter_implied. intros r. apply num_eq_not_na.
Qed.

Lemma grupo_bairro_campos (d : DataFrame) (nome : option string) :
  grupo_bairro d nome !! "bairro" = Some (of_name nome) ∧
  grupo_bairro d nome !! "total_analises"
  = Some (PInt (Z.of_nat
                  (length (List.filter (λ r, cell_eq (bairro r) nome)
                             (rows d))))) ∧
  ∀ p, p ∈ parametros_para_bairros →
    grupo_bairro d nome !! ("percentual_" +:+ param_key p)
    = Some (percentual_esperado d
              (amostras_do_parametro (λ r, cell_eq (bairro r) nome) p d)).
Proof.
  unfold grupo_bairro. split; [| split].
  - rewrite com_percentuais_other; [by read_key | done | set_solver].
  - rewrite com_percentuais_other; [by read_key | done | set_solver].
  - intros p Hp. rewrite com_percentuais_lookup by done.
    by rewrite percentual_do_parametro_grupo.
Qed.

Lemma grupo_mes_campos (d : DataFrame) (m : Z) (g : gmap string pyval) :
  grupo_mes (com_mes d) m = Some g →
  g !! "mes" = Some (PInt m) ∧
  g !! "total_amostras"
  = Some (PInt (Z.of_nat
                  (length (List.filter (λ r, num_eq (mes r) m) (rows d))))) ∧
  List.filter (λ r, num_eq (mes r) m) (rows d) ≠ [] ∧
  ∀ p, p ∈ parametros_para_mes →
    g !! ("percentual_" +:+ param_key p)
    = Some (percentual_esperado d
              (amostras_do_parametro (λ r, num_eq (mes r) m) p d)).
Proof.
  unfold grupo_mes.
  set (sel := select_rows (λ r, num_eq (mes r) m) (com_mes d)).
  assert (rows sel = List.filter (λ r, num_eq (mes r) m) (rows d)) as Hsel
    by apply rows_mes_group.
  destruct (0 <? df_len sel) eqn:Hlen; [| done].
  intros [= <-].
  split; [| split; [| split]].
  - rewrite com_percentuais_other; [by read_key | done | set_solver].
  - rewrite com_percentuais_other; [| done | set_solver].
    read_key. unfold df_len. by rewrite Hsel.
  - apply Z.ltb_lt in Hlen. unfold df_len in Hlen. rewrite Hsel in Hlen.
    by destruct (List.filter _ (rows d)).
  - intros p Hp. rewrite com_percentuais_lookup by done.
    unfold amostras_do_parametro. rewrite <- Hsel.
    destruct (df_empty sel) eqn:Hemp.
    + destruct (has_column "parametro" sel) eqn:Hcol.
      * apply has_column_nonempty in Hcol.
        apply Z.ltb_lt in Hlen. unfold df_len in Hlen.
        unfold df_empty in Hemp.
        destruct (rows sel), (columns sel); simpl in *; done || lia.
      * unfold percentual_do_parametro, percentual_esperado.
        rewrite has_column_avaliado by done.
        change (has_column "parametro" d) with (has_column "parametro" sel).
        by rewrite Hcol.
    + pose proof (percentual_do_parametro_grupo sel p) as Hp'.
      rewrite Hemp in Hp'. by rewrite Hp'.
Qed.

Lemma grupo_ponto_campos (d : DataFrame) (nome : option string)
    (g : gmap string pyval) :
  grupo_ponto d nome = Some g →
  g !! "ponto_de_coleta" = Some (of_name nome) ∧
  g !! "total_analises"
  = Some (PInt (Z.of_nat
                  (length (List.filter
                             (λ r, cell_eq (ponto_de_coleta r) nome)
                             (rows d))))) ∧
  List.filter (λ r, cell_eq (ponto_de_coleta r) nome) (rows d) ≠ [] ∧
  dom g = {["ponto_de_coleta"; "total_analises"; "percentual_conforme"]}.
Proof.
  unfold grupo_ponto.
  destruct (0 <? df_len _) eqn:Hlen; [| done].
  intros [= <-]. split; [| split; [| split]].
  - by read_key.
  - by read_key.
  - apply Z.ltb_lt in Hlen. unfold df_len in Hlen. simpl in Hlen.
    by destruct (List.filter _ (rows d)).
  - rewrite !dom_insert_L, dom_empty_L. set_solver.
Qed.

Lemma dados_bairros_de_elem (d : DataFrame) (g : gmap string pyval) :
  g ∈ dados_bairros_de d → ∃ nome, g = grupo_bairro d nome.
Proof.
  unfold dados_bairros_de.
  destruct (df_empty d || negb (has_column "bairro" d)).
  - by intros ?%elem_of_nil.
  - intros (nome & -> & _)%list_elem_of_fmap. by exists nome.
Qed.

Lemma distribuicao_mes_de_elem (d : DataFrame) (g : gmap string pyval) :
  g ∈ distribuicao_mes_de d →
  ∃ m, m ∈ range_1_13 ∧ grupo_mes (com_mes d) m = Some g.
Proof.
  unfold distribuicao_mes_de.
  destruct (df_empty d || negb (has_column "mes" d)).
  - by intros ?%elem_of_nil.
  - intros (m & Hm & Hg)%list_elem_of_omap. by exists m.
Qed.

Lemma distribuicao_ponto_coleta_de_elem (d : DataFrame)
    (g : gmap string pyval) :
  g ∈ distribuicao_ponto_coleta_de d → ∃ nome, grupo_ponto d nome = Some g.
Proof.
  unfold distribuicao_ponto_coleta_de.
  destruct (df_empty d || negb (has_column "ponto_de_coleta" d)).
  - by intros ?%elem_of_nil.
  - intros (nome & _ & Hg)%list_elem_of_omap. by exists nome.
Qed.

(** C6 (amended): the neighbourhood and the month aggregators give every
    group they emit an entry for each of the five named parameters: the
    compliance percentage of the rows of the group that measure the
    parameter, and null, not 0, when the group has no such row.  The
    collection-point aggregator gives a group its name, its count and its
    overall percentage only. *)
Theorem per_parameter_percentages (h : heap) (l : nat) (d : DataFrame) :
  h !! l = Some d →
  (∃ grupos junk,
     obter_dados_bairros l h = (Ok grupos, h ++ junk) ∧
     ∀ g, g ∈ grupos →
       ∃ nome, g !! "bairro" = Some (of_name nome) ∧
         ∀ p, p ∈ parametros_para_bairros →
           g !! ("percentual_" +:+ param_key p)
           = Some (percentual_esperado d
                     (amostras_do_parametro
                        (λ r, cell_eq (bairro r) nome) p d))) ∧
  (∃ grupos junk,
     obter_distribuicao_mes l h = (Ok grupos, h ++ junk) ∧
     ∀ g, g ∈ grupos →
       ∃ m, g !! "mes" = Some (PInt m) ∧
         ∀ p, p ∈ parametros_para_mes →
           g !! ("percentual_" +:+ param_key p)
           = Some (percentual_esperado d
                     (amostras_do_parametro
                        (λ r, num_eq (mes r) m) p d))) ∧
  (∃ grupos junk,
     obter_distribuicao_ponto_coleta l h = (Ok grupos, h ++ junk) ∧
     ∀ g, g ∈ grupos →
       dom g = {["ponto_de_coleta"; "total_analises"; "percentual_conforme"]}).
Proof.
  intros Hl. split; [| split].
  - destruct (obter_dados_bairros_run _ _ _ Hl) as (junk & Hrun).
    eexists _, junk. split; [exact Hrun |].
    intros g (nome & ->)%dados_bairros_de_elem.
    exists nome.
    destruct (grupo_bairro_campos d nome) as (Hn & _ & Hp). by split.
  - destruct (obter_distribuicao_mes_run _ _ _ Hl) as (junk & Hrun).
    eexists _, junk. split; [exact Hrun |].
    intros g (m & _ & Hg)%distribuicao_mes_de_elem.
    exists m.
    destruct (grupo_mes_campos d m g Hg) as (Hm & _ & _ & Hp). by split.
  - destruct (obter_distribuicao_ponto_coleta_run _ _ _ Hl) as (junk & Hrun).
    eexists _, junk. split; [exact Hrun |].
    intros g (nome & Hg)%distribuicao_ponto_coleta_de_elem.
    by destruct (grupo_ponto_campos d nome g Hg) as (_ & _ & _ & Hdom).
Qed.

(** The neighbourhood of the example: all of its E. coli samples comply,
    none of its turbidity samples does, and it has no fluoride sample. *)
Example per_parameter_percentages_example :
  entradas
    ["bairro"; "percentual_escherichia_coli"; "percentual_turbidez_ut";
     "percentual_fluoreto_mg_l"; "percentual_fluoreto"]
    (fst (obter_dados_bairros 0 [quadro_exemplo]))
  = [ [Some (PStr "Centro"); Some (PFloat (F64.of_Z 100));
       Some (PFloat (S754_zero false)); Some PNone; Some PNone] ].
Proof. vm_compute. reflexivity. Qed.

(** ** Counting the rows of the groups *)

Section Groups.
Context {K : Type} (matches : Row → K → bool).

Lemma count_of_cons (r : Row) (l : list Row) (n : K) :
  count_of matches (r :: l) n = b2z (matches r n) + count_of matches l n.
Proof.
  unfold count_of. simpl. destruct (matches r n); simpl; unfold b2z; lia.
Qed.

Lemma soma_count_of_cons (ns : list K) (r : Row) (l : list Row) :
  soma (count_of matches (r :: l)) ns
  = soma (λ n, b2z (matches r n)) ns + soma (count_of matches l) ns.
Proof.
  unfold soma. induction ns as [| n ns IH]; simpl; [done |].
  rewrite IH, count_of_cons. lia.
Qed.

Lemma soma_no_match (ns : list K) (r : Row) :
  (∀ n, n ∈ ns → matches r n = false) →
  soma (λ n, b2z (matches r n)) ns = 0.
Proof.
  unfold soma. induction ns as [| n ns IH]; intros H; simpl; [done |].
  rewrite (H n) by set_solver. rewrite IH; [done |].
  intros n' Hn'. apply H. set_solver.
Qed.

(** A row that matches at most one of the keys counts once. *)
Lemma soma_indicator (ns : list K) (r : Row) :
  NoDup ns →
  (∀ n1 n2, n1 ∈ ns → n2 ∈ ns →
     matches r n1 = true → matches r n2 = true → n1 = n2) →
  soma (λ n, b2z (matches r n)) ns = b2z (existsb (matches r) ns).
Proof.
  induction ns as [| n ns IH]; intros Hnd Huniq; [done |].
  apply NoDup_cons in Hnd as [Hn Hnd].
  change (b2z (matches r n) + soma (λ n, b2z (matches r n)) ns
          = b2z (matches r n || existsb (matches r) ns)).
  destruct (matches r n) eqn:Hm; simpl.
  - rewrite soma_no_match; [done |].
    intros n' Hn'. destruct (matches r n') eqn:Hm'; [| done].
    assert (n = n') as <- by (apply Huniq; set_solver).
    done.
  - rewrite IH; [done | done |].
    intros n1 n2 H1 H2. apply Huniq; set_solver.
Qed.

Lemma soma_count_of (ns : list K) (l : list Row) :
  NoDup ns →
  (∀ r n1 n2, n1 ∈ ns → n2 ∈ ns →
     matches r n1 = true → matches r n2 = true → n1 = n2) →
  soma (count_of matches l) ns
  = Z.of_nat (length (List.filter (λ r, existsb (matches r) ns) l)).
Proof.
  intros Hnd Huniq. induction l as [| r l IH].
  - unfold soma, count_of. simpl.
    induction ns as [| n ns IHn]; simpl; [done |].
    apply NoDup_cons in Hnd as [_ Hnd]. rewrite IHn; [done | done |].
    intros r n1 n2 H1 H2. apply Huniq; set_solver.
  - rewrite soma_count_of_cons, IH, soma_indicator by (done || apply Huniq).
    simpl. destruct (existsb (matches r) ns); simpl; unfold b2z; lia.
Qed.
End Groups.

(** ** [unique] *)

Lemma elem_of_List_filter {A} (f : A → bool) (l : list A) (x : A) :
  x ∈ List.filter f l ↔ x ∈ l ∧ f x = true.
Proof. rewrite !list_elem_of_In. apply filter_In. Qed.

Lemma elem_of_unique {A} `{EqDecision A} (l : list A) (x : A) :
  x ∈ unique l ↔ x ∈ l.
Proof.
  induction l as [| y l IH]; simpl; [done |].
  rewrite !elem_of_cons, elem_of_List_filter, IH.
  split.
  - intros [-> | [H _]]; [by left | by right].
  - intros [-> | H]; [by left |].
    destruct (decide (x = y)) as [-> | Hne]; [by left |].
    right. split; [done |]. by rewrite bool_decide_eq_false_2.
Qed.

Lemma NoDup_List_filter {A} (f : A → bool) (l : list A) :
  NoDup l → NoDup (List.filter f l).
Proof.
  induction 1 as [| x l Hx Hnd IH]; simpl; [constructor |].
  destruct (f x); [| done].
  constructor; [| done]. rewrite elem_of_List_filter. by intros [? _].
Qed.

Lemma NoDup_unique {A} `{EqDecision A} (l : list A) : NoDup (unique l).
Proof.
  induction l as [| y l IH]; simpl; [constructor |].
  constructor; [| by apply NoDup_List_filter].
  rewrite elem_of_List_filter. intros [_ H].
  by rewrite bool_decide_eq_true_2 in H.
Qed.

(** ** binary64 equality with a finite number *)

Lemma SFeqb_finite (x : F64.float) (s : bool) (m : positive) (e : Z) :
  F64.eqb x (S754_finite s m e) = true → x = S754_finite s m e.
Proof.
  unfold F64.eqb, SFeqb, SFcompare.
  destruct x as [sx | sx | | sx mx ex]; try (by destruct sx, s); [done |].
  assert (∀ c, match c with Eq => true | _ => false end = true → c = Eq)
    as Hc by (by intros []).
  destruct sx, s; try done.
  - destruct (ex ?= e) eqn:He; try done.
    apply Z.compare_eq in He as ->.
    destruct (Pos.compare_cont Eq mx m) eqn:Hm; try done.
    apply Pos.compare_eq in Hm as ->. done.
  - destruct (ex ?= e) eqn:He; try done.
    apply Z.compare_eq in He as ->.
    destruct (Pos.compare_cont Eq mx m) eqn:Hm; try done.
    apply Pos.compare_eq in Hm as ->. done.
Qed.

Lemma of_Z_month_finite (m : Z) :
  m ∈ range_1_13 → ∃ mt e, F64.of_Z m = S754_finite false mt e.
Proof.
  unfold range_1_13. intros H.
  repeat (apply elem_of_cons in H as [-> | H];
          [by (eexists _, _; vm_compute) |]).
  by apply elem_of_nil in H.
Qed.

Lemma of_Z_month_inj (m1 m2 : Z) :
  m1 ∈ range_1_13 → m2 ∈ range_1_13 →
  F64.of_Z m1 = F64.of_Z m2 → m1 = m2.
Proof.
  unfold range_1_13. intros H1 H2.
  repeat (apply elem_of_cons in H1 as [-> | H1]);
    try (by apply elem_of_nil in H1);
    repeat (apply elem_of_cons in H2 as [-> | H2]);
    try (by apply elem_of_nil in H2);
    (done || (intros Heq; vm_compute in Heq; discriminate Heq)).
Qed.

Lemma num_eq_month_unique (cell : option F64.float) (m1 m2 : Z) :
  m1 ∈ range_1_13 → m2 ∈ range_1_13 →
  num_eq cell m1 = true → num_eq cell m2 = true → m1 = m2.
Proof.
  intros H1 H2. destruct cell as [x |]; [| done]. simpl.
  destruct (of_Z_month_finite m1 H1) as (mt1 & e1 & E1).
  destruct (of_Z_month_finite m2 H2) as (mt2 & e2 & E2).
  rewrite E1, E2.
  intros ->%SFeqb_finite Heq%SFeqb_finite.
  apply of_Z_month_inj; [done | done |]. by rewrite E1, E2.
Qed.

Lemma NoDup_range_1_13 : NoDup range_1_13.
Proof. apply (bool_decide_unpack _). by vm_compute. Qed.

Lemma cell_eq_unique (cell n1 n2 : option string) :
  cell_eq cell n1 = true → cell_eq cell n2 = true → n1 = n2.
Proof.
  destruct cell as [c |], n1 as [a |], n2 as [b |]; simpl; try done.
  by intros <-%String.eqb_eq <-%String.eqb_eq.
Qed.

(** ** The sum of the counts of the groups *)

Lemma contagem_lookup (k : string) (g : gmap string pyval) (n : Z) :
  g !! k = Some (PInt n) → contagem k g = n.
Proof. unfold contagem. by intros ->. Qed.

Lemma soma_ext {A} (f g : A → Z) (l : list A) :
  (∀ x, x ∈ l → f x = g x) → soma f l = soma g l.
Proof.
  unfold soma. induction l as [| x l IH]; intros H; simpl; [done |].
  rewrite (H x) by set_solver. rewrite IH; [done |].
  intros y Hy. apply H. set_solver.
Qed.

Lemma soma_contagens_map {A} (k : string) (g : A → gmap string pyval)
    (ns : list A) :
  soma_contagens k (map g ns) = soma (λ n, contagem k (g n)) ns.
Proof. unfold soma_contagens, soma. by rewrite map_map. Qed.

Lemma soma_contagens_omap {A} (k : string)
    (g : A → option (gmap string pyval)) (ns : list A) :
  soma_contagens k (omap g ns)
  = soma (λ n, from_option (contagem k) 0 (g n)) ns.
Proof.
  unfold soma_contagens, soma.
  induction ns as [| n ns IH]; csimpl; [done |].
  destruct (g n); simpl; by rewrite IH.
Qed.

Lemma rows_of_empty_frame (c : string) (d : DataFrame) :
  has_column c d = true → df_empty d = true → rows d = [].
Proof.
  intros Hc%has_column_nonempty Hemp. unfold df_empty in Hemp.
  by destruct (rows d), (columns d).
Qed.

Lemma filter_all {A} (f : A → bool) (l : list A) :
  (∀ x, x ∈ l → f x = true) → List.filter f l = l.
Proof.
  induction l as [| x l IH]; intros H; simpl; [done |].
  rewrite (H x) by set_solver. f_equal. apply IH.
  intros y Hy. apply H. set_solver.
Qed.

Lemma filter_ext_elem {A} (f g : A → bool) (l : list A) :
  (∀ x, x ∈ l → f x = g x) → List.filter f l = List.filter g l.
Proof.
  intros H. apply filter_ext_in. intros x Hx. apply H.
  by apply list_elem_of_In.
Qed.

(** Among the distinct values of a text column, a row finds its own
    value exactly when its cell is not missing. *)
Lemma existsb_cell_eq_unique (key : Row → option string) (l : list Row)
    (r : Row) :
  r ∈ l →
  existsb (cell_eq (key r)) (unique (map key l)) = tem_chave (key r).
Proof.
  intros Hr. unfold tem_chave.
  destruct (key r) as [s |] eqn:Hk; simpl.
  - apply existsb_exists. exists (Some s). split.
    + apply list_elem_of_In, elem_of_unique, list_elem_of_fmap.
      by exists r.
    + simpl. by apply String.eqb_eq.
  - destruct (existsb _ _) eqn:He; [| done].
    apply existsb_exists in He as (n & _ & Hn). done.
Qed.

Lemma soma_text_groups (key : Row → option string) (l : list Row) :
  soma (count_of (λ r n, cell_eq (key r) n) l) (unique (map key l))
  = Z.of_nat (length (List.filter (λ r, tem_chave (key r)) l)).
Proof.
  rewrite soma_count_of.
  - f_equal. f_equal. apply filter_ext_elem.
    intros r Hr. by apply existsb_cell_eq_unique.
  - apply NoDup_unique.
  - intros r n1 n2 _ _. apply cell_eq_unique.
Qed.

Lemma soma_dados_bairros_de (d : DataFrame) :
  has_column "bairro" d = true →
  soma_contagens "total_analises" (dados_bairros_de d)
  = Z.of_nat (length (List.filter (λ r, tem_chave (bairro r)) (rows d))).
Proof.
  intros Hcol. unfold dados_bairros_de. rewrite Hcol.
  destruct (df_empty d) eqn:Hemp; cbn [orb negb].
  - by rewrite (rows_of_empty_frame _ _ Hcol Hemp).
  - rewrite soma_contagens_map, <- soma_text_groups.
    apply soma_ext. intros nome _.
    destruct (grupo_bairro_campos d nome) as (_ & Hn & _).
    by rewrite (contagem_lookup _ _ _ Hn).
Qed.

Lemma soma_distribuicao_ponto_coleta_de (d : DataFrame) :
  has_column "ponto_de_coleta" d = true →
  soma_contagens "total_analises" (distribuicao_ponto_coleta_de d)
  = Z.of_nat (length (List.filter (λ r, tem_chave (ponto_de_coleta r))
                        (rows d))).
Proof.
  intros Hcol. unfold distribuicao_ponto_coleta_de. rewrite Hcol.
  destruct (df_empty d) eqn:Hemp; cbn [orb negb].
  - by rewrite (rows_of_empty_frame _ _ Hcol Hemp).
  - rewrite soma_contagens_omap, <- soma_text_groups.
    apply soma_ext. intros nome _.
    destruct (grupo_ponto d nome) as [g |] eqn:Hg; simpl.
    + destruct (grupo_ponto_campos d nome g Hg) as (_ & Hn & _).
      by rewrite (contagem_lookup _ _ _ Hn).
    + unfold grupo_ponto in Hg.
      destruct (0 <? df_len _) eqn:Hlen; [done |].
      apply Z.ltb_ge in Hlen. unfold df_len in Hlen. simpl in Hlen.
      unfold count_of. lia.
Qed.

Lemma soma_distribuicao_mes_de (d : DataFrame) :
  has_column "mes" d = true →
  soma_contagens "total_amostras" (distribuicao_mes_de d)
  = Z.of_nat (length (List.filter (λ r, tem_mes (mes r)) (rows d))).
Proof.
  intros Hcol. unfold distribuicao_mes_de. rewrite Hcol.
  destruct (df_empty d) eqn:Hemp; cbn [orb negb].
  - by rewrite (rows_of_empty_frame _ _ Hcol Hemp).
  - rewrite soma_contagens_omap.
    transitivity (soma (count_of (λ r m, num_eq (mes r) m) (rows d))
                    range_1_13).
    + apply soma_ext. intros m _.
      destruct (grupo_mes (com_mes d) m) as [g |] eqn:Hg; simpl.
      * destruct (grupo_mes_campos d m g Hg) as (_ & Hn & _).
        by rewrite (contagem_lookup _ _ _ Hn).
      * unfold grupo_mes in Hg.
        destruct (0 <? df_len _) eqn:Hlen; [done |].
        apply Z.ltb_ge in Hlen. unfold df_len in Hlen.
        rewrite rows_mes_group in Hlen. unfold count_of. lia.
    + rewrite soma_count_of; [done | apply NoDup_range_1_13 |].
      intros r m1 m2. apply num_eq_month_unique.
Qed.

(** C7 (amended): for a record set that has the key column, the counts
    of the groups of an aggregator add up to the number of records that
    have a key: a neighbourhood or a collection point that is not
    missing, a month equal to one of 1 to 12.  They add up to the number
    of records when every record has a key. *)
Theorem group_counts_sum (h : heap) (l : nat) (d : DataFrame) :
  h !! l = Some d →
  (has_column "bairro" d = true →
   ∃ grupos junk,
     obter_dados_bairros l h = (Ok grupos, h ++ junk) ∧
     soma_contagens "total_analises" grupos
     = Z.of_nat (length (List.filter (λ r, tem_chave (bairro r)) (rows d))) ∧
     ((∀ r, r ∈ rows d → tem_chave (bairro r) = true) →
      soma_contagens "total_analises" grupos = df_len d)) ∧
  (has_column "mes" d = true →
   ∃ grupos junk,
     obter_distribuicao_mes l h = (Ok grupos, h ++ junk) ∧
     soma_contagens "total_amostras" grupos
     = Z.of_nat (length (List.filter (λ r, tem_mes (mes r)) (rows d))) ∧
     ((∀ r, r ∈ rows d → tem_mes (mes r) = true) →
      soma_contagens "total_amostras" grupos = df_len d)) ∧
  (has_column "ponto_de_coleta" d = true →
   ∃ grupos junk,
     obter_distribuicao_ponto_coleta l h = (Ok grupos, h ++ junk) ∧
     soma_contagens "total_analises" grupos
     = Z.of_nat (length (List.filter (λ r, tem_chave (ponto_de_coleta r))
                           (rows d))) ∧
     ((∀ r, r ∈ rows d → tem_chave (ponto_de_coleta r) = true) →
      soma_contagens "total_analises" grupos = df_len d)).
Proof.
  intros Hl. split; [| split]; intros Hcol.
  - destruct (obter_dados_bairros_run _ _ _ Hl) as (junk & Hrun).
    eexists _, junk. split; [exact Hrun |].
    rewrite (soma_dados_bairros_de d Hcol). split; [done |].
    intros Hall. by rewrite filter_all.
  - destruct (obter_distribuicao_mes_run _ _ _ Hl) as (junk & Hrun).
    eexists _, junk. split; [exact Hrun |].
    rewrite (soma_distribuicao_mes_de d Hcol). split; [done |].
    intros Hall. by rewrite filter_all.
  - destruct (obter_distribuicao_ponto_coleta_run _ _ _ Hl) as (junk & Hrun).
    eexists _, junk. split; [exact Hrun |].
    rewrite (soma_distribuicao_ponto_coleta_de d Hcol). split; [done |].
    intros Hall. by rewrite filter_all.
Qed.

(** ** The order of the groups *)

Lemma List_filter_lookup {A} (f : A → bool) (l : list A) (i : nat) (a : A) :
  List.filter f l !! i = Some a → ∃ i0, l !! i0 = Some a.
Proof.
  intros H. apply list_elem_of_lookup.
  assert (a ∈ List.filter f l) as Ha by (apply list_elem_of_lookup; eauto).
  by apply elem_of_List_filter in Ha as [? _].
Qed.

(** Filtering keeps the relative order of what it keeps. *)
Lemma List_filter_lookup_order {A} (f : A → bool) (l : list A)
    (i j : nat) (a b : A) :
  List.filter f l !! i = Some a → List.filter f l !! j = Some b →
  (i < j)%nat →
  ∃ i0 j0, l !! i0 = Some a ∧ l !! j0 = Some b ∧ (i0 < j0)%nat.
Proof.
  revert i j. induction l as [| y l IH]; intros i j Hi Hj Hlt; [done |].
  simpl in Hi, Hj. destruct (f y).
  - destruct i as [| i], j as [| j]; try lia.
    + injection Hi as ->. simpl in Hj.
      destruct (List_filter_lookup f l j b Hj) as (j0 & Hj0).
      exists 0%nat, (S j0). split; [done | split; [done | lia]].
    + simpl in Hi, Hj.
      destruct (IH i j Hi Hj ltac:(lia)) as (i0 & j0 & ? & ? & ?).
      exists (S i0), (S j0). split; [done | split; [done | lia]].
  - destruct (IH i j Hi Hj Hlt) as (i0 & j0 & ? & ? & ?).
    exists (S i0), (S j0). split; [done | split; [done | lia]].
Qed.

Lemma first_index_elem {A} `{EqDecision A} (a : A) (l : list A) :
  a ∈ l → ∃ i, first_index a l = Some i.
Proof.
  induction l as [| x l IH]; [by intros ?%elem_of_nil |].
  intros Ha. simpl. case_bool_decide; [by eexists |].
  apply elem_of_cons in Ha as [-> | Ha]; [done |].
  destruct (IH Ha) as (i & ->). by eexists.
Qed.

Lemma unique_first_occurrence_order {A} `{EqDecision A} (l : list A) :
  first_occurrence_order (unique l) l.
Proof.
  unfold first_occurrence_order.
  induction l as [| x l IH]; intros i j a b Hi Hj Hlt; [done |].
  simpl in Hi, Hj.
  assert (∀ k c, List.filter (λ y, negb (bool_decide (y = x))) (unique l)
                   !! k = Some c → c ≠ x ∧ c ∈ l) as Hrest.
  { intros k c Hk.
    assert (c ∈ List.filter (λ y, negb (bool_decide (y = x))) (unique l))
      as Hc by (apply list_elem_of_lookup; eauto).
    apply elem_of_List_filter in Hc as [Hc Hne].
    apply (proj1 (elem_of_unique _ _)) in Hc. split; [| done].
    intros ->. by rewrite bool_decide_eq_true_2 in Hne. }
  destruct i as [| i], j as [| j]; try lia.
  - injection Hi as ->. simpl in Hj.
    destruct (Hrest j b Hj) as [Hne Hb].
    destruct (first_index_elem b l Hb) as (ib & Hib).
    exists 0%nat, (S ib). simpl.
    rewrite bool_decide_eq_true_2 by done.
    rewrite bool_decide_eq_false_2 by done.
    rewrite Hib. split; [done | split; [done | lia]].
  - simpl in Hi, Hj.
    destruct (Hrest i a Hi) as [Hna _], (Hrest j b Hj) as [Hnb _].
    destruct (List_filter_lookup_order _ _ _ _ _ _ Hi Hj ltac:(lia))
      as (i0 & j0 & Hi0 & Hj0 & Hlt0).
    destruct (IH i0 j0 a b Hi0 Hj0 Hlt0) as (ia & ib & Ha & Hb & Hab).
    exists (S ia), (S ib). simpl.
    rewrite !bool_decide_eq_false_2 by done.
    rewrite Ha, Hb. split; [done | split; [done | lia]].
Qed.

Lemma first_occurrence_order_filter {A} `{EqDecision A} (f : A → bool)
    (nomes col : list A) :
  first_occurrence_order nomes col →
  first_occurrence_order (List.filter f nomes) col.
Proof.
  intros H i j a b Hi Hj Hlt.
  destruct (List_filter_lookup_order _ _ _ _ _ _ Hi Hj Hlt)
    as (i0 & j0 & Hi0 & Hj0 & Hlt0).
  by apply (H i0 j0).
Qed.

Lemma range_1_13_lookup (i : nat) (a : Z) :
  range_1_13 !! i = Some a → a = Z.of_nat i + 1.
Proof.
  unfold range_1_13.
  do 12 (destruct i as [| i]; [by intros [= <-] |]). done.
Qed.

Lemma increasing_filter_range (f : Z → bool) :
  increasing (List.filter f range_1_13).
Proof.
  intros i j a b Hi Hj Hlt.
  destruct (List_filter_lookup_order _ _ _ _ _ _ Hi Hj Hlt)
    as (i0 & j0 & Hi0%range_1_13_lookup & Hj0%range_1_13_lookup & Hlt0).
  lia.
Qed.

(** The keys of the groups that an [omap] emits. *)
Lemma map_omap_filter {A B C} (f : A → option B) (h : B → C) (k : A → C)
    (ns : list A) :
  (∀ n g, f n = Some g → h g = k n) →
  map h (omap f ns) = map k (List.filter (λ n, is_some (f n)) ns).
Proof.
  intros H. induction ns as [| n ns IH]; csimpl; [done |].
  destruct (f n) as [g |] eqn:Hf; simpl; [| done].
  by rewrite (H n g Hf), IH.
Qed.

Lemma List_filter_nonempty {A} (f : A → bool) (l : list A) :
  List.filter f l ≠ [] ↔ ∃ x, x ∈ l ∧ f x = true.
Proof.
  split.
  - destruct (List.filter f l) as [| x l'] eqn:Hf; [done |]. intros _.
    exists x. apply elem_of_List_filter. rewrite Hf. by left.
  - intros (x & Hx) Hnil.
    apply elem_of_List_filter in Hx. rewrite Hnil in Hx.
    by apply elem_of_nil in Hx.
Qed.

Lemma elem_of_range_1_13 (m : Z) : m ∈ range_1_13 ↔ 1 ≤ m ≤ 12.
Proof.
  split.
  - intros H. by apply (proj1 (Forall_forall _ _) range_1_13_bounds).
  - intros H.
    assert (m = 1 ∨ m = 2 ∨ m = 3 ∨ m = 4 ∨ m = 5 ∨ m = 6 ∨ m = 7 ∨
            m = 8 ∨ m = 9 ∨ m = 10 ∨ m = 11 ∨ m = 12) as Hm by lia.
    unfold range_1_13.
    repeat (destruct Hm as [-> | Hm];
            [by repeat (rewrite elem_of_cons; (by left) || right) |]).
    subst. by repeat (rewrite elem_of_cons; (by left) || right).
Qed.

Lemma nome_do_grupo_of_name (k : string) (g : gmap string pyval)
    (n : option string) :
  g !! k = Some (of_name n) → nome_do_grupo k g = n.
Proof. unfold nome_do_grupo. intros ->. by destruct n. Qed.

Lemma nomes_dados_bairros_de (d : DataFrame) :
  has_column "bairro" d = true →
  nomes_dos_grupos "bairro" (dados_bairros_de d)
  = unique (map bairro (rows d)).
Proof.
  intros Hcol. unfold nomes_dos_grupos, dados_bairros_de. rewrite Hcol.
  destruct (df_empty d) eqn:Hemp; cbn [orb negb].
  - by rewrite (rows_of_empty_frame _ _ Hcol Hemp).
  - rewrite map_map. rewrite <- (map_id (unique _)) at 2.
    apply map_ext. intros n.
    apply nome_do_grupo_of_name.
    by destruct (grupo_bairro_campos d n) as (Hn & _).
Qed.

Lemma grupo_ponto_is_some (d : DataFrame) (n : option string) :
  is_some (grupo_ponto d n) = true
  ↔ n ≠ None ∧ n ∈ map ponto_de_coleta (rows d).
Proof.
  unfold grupo_ponto, df_len. simpl.
  destruct (0 <? _) eqn:Hlen; simpl.
  - apply Z.ltb_lt in Hlen.
    assert (List.filter (λ r, cell_eq (ponto_de_coleta r) n) (rows d) ≠ [])
      as Hne by (intros E; rewrite E in Hlen; simpl in Hlen; lia).
    apply List_filter_nonempty in Hne as (r & Hr & Heq).
    split; [intros _ | done].
    destruct (ponto_de_coleta r) as [s |] eqn:Hs, n as [s' |]; try done.
    simpl in Heq. apply String.eqb_eq in Heq as <-.
    split; [done |]. apply list_elem_of_fmap. by exists r.
  - apply Z.ltb_ge in Hlen.
    split; [done |]. intros [Hn Hin]. exfalso.
    destruct n as [s |]; [| done].
    apply list_elem_of_fmap in Hin as (r & Hs & Hr).
    assert (List.filter (λ r, cell_eq (ponto_de_coleta r) (Some s)) (rows d)
            ≠ []) as Hne.
    { apply List_filter_nonempty. exists r. split; [done |].
      rewrite <- Hs. simpl. by apply String.eqb_eq. }
    destruct (List.filter _ (rows d)); [done | simpl in Hlen; lia].
Qed.

Lemma nomes_distribuicao_ponto_coleta_de (d : DataFrame) :
  has_column "ponto_de_coleta" d = true →
  nomes_dos_grupos "ponto_de_coleta" (distribuicao_ponto_coleta_de d)
  = List.filter (λ n, is_some (grupo_ponto d n))
      (unique (map ponto_de_coleta (rows d))).
Proof.
  intros Hcol. unfold nomes_dos_grupos, distribuicao_ponto_coleta_de.
  rewrite Hcol.
  destruct (df_empty d) eqn:Hemp; cbn [orb negb].
  - by rewrite (rows_of_empty_frame _ _ Hcol Hemp).
  - rewrite (map_omap_filter _ _ id), map_id; [done |].
    intros n g Hg. apply nome_do_grupo_of_name.
    by destruct (grupo_ponto_campos d n g Hg) as (Hn & _).
Qed.

Lemma grupo_mes_is_some (d : DataFrame) (m : Z) :
  is_some (grupo_mes (com_mes d) m) = true
  ↔ ∃ r, r ∈ rows d ∧ num_eq (mes r) m = true.
Proof.
  unfold grupo_mes, df_len. rewrite rows_mes_group.
  rewrite <- List_filter_nonempty.
  destruct (0 <? _) eqn:Hlen; simpl.
  - apply Z.ltb_lt in Hlen. split; [intros _ | done].
    intros E. rewrite E in Hlen. simpl in Hlen. lia.
  - apply Z.ltb_ge in Hlen. split; [done |]. intros Hne.
    destruct (List.filter _ (rows d)); [done | simpl in Hlen; lia].
Qed.

Lemma meses_distribuicao_mes_de (d : DataFrame) :
  has_column "mes" d = true →
  meses_dos_grupos (distribuicao_mes_de d)
  = List.filter (λ m, is_some (grupo_mes (com_mes d) m)) range_1_13 ∨
  (rows d = [] ∧ meses_dos_grupos (distribuicao_mes_de d) = []).
Proof.
  intros Hcol. unfold meses_dos_grupos, distribuicao_mes_de. rewrite Hcol.
  destruct (df_empty d) eqn:Hemp; cbn [orb negb].
  - right. by rewrite (rows_of_empty_frame _ _ Hcol Hemp).
  - left. rewrite (map_omap_filter _ _ id), map_id; [done |].
    intros m g Hg. apply contagem_lookup.
    by destruct (grupo_mes_campos d m g Hg) as (Hm & _).
Qed.

(** C9: the neighbourhood and the collection-point aggregators emit one
    group for each distinct key, in the order in which the keys first
    occur in the record set (the collection points without the missing
    key); the month aggregator emits its groups by increasing month,
    for the months 1 to 12 that have a record and for no other. *)
Theorem group_order (h : heap) (l : nat) (d : DataFrame) :
  h !! l = Some d →
  (has_column "bairro" d = true →
   ∃ grupos junk,
     obter_dados_bairros l h = (Ok grupos, h ++ junk) ∧
     let nomes := nomes_dos_grupos "bairro" grupos in
     NoDup nomes ∧
     (∀ n, n ∈ nomes ↔ n ∈ map bairro (rows d)) ∧
     first_occurrence_order nomes (map bairro (rows d))) ∧
  (has_column "ponto_de_coleta" d = true →
   ∃ grupos junk,
     obter_distribuicao_ponto_coleta l h = (Ok grupos, h ++ junk) ∧
     let nomes := nomes_dos_grupos "ponto_de_coleta" grupos in
     NoDup nomes ∧
     (∀ n, n ∈ nomes ↔ n ≠ None ∧ n ∈ map ponto_de_coleta (rows d)) ∧
     first_occurrence_order nomes (map ponto_de_coleta (rows d))) ∧
  (has_column "mes" d = true →
   ∃ grupos junk,
     obter_distribuicao_mes l h = (Ok grupos, h ++ junk) ∧
     let meses := meses_dos_grupos grupos in
     increasing meses ∧
     (∀ m, m ∈ meses ↔
           1 ≤ m ≤ 12 ∧ ∃ r, r ∈ rows d ∧ num_eq (mes r) m = true)).
Proof.
  intros Hl. split; [| split]; intros Hcol.
  - destruct (obter_dados_bairros_run _ _ _ Hl) as (junk & Hrun).
    eexists _, junk. split; [exact Hrun |]. cbv zeta.
    rewrite (nomes_dados_bairros_de d Hcol).
    split; [apply NoDup_unique |].
    split; [intros n; apply elem_of_unique |].
    apply unique_first_occurrence_order.
  - destruct (obter_distribuicao_ponto_coleta_run _ _ _ Hl) as (junk & Hrun).
    eexists _, junk. split; [exact Hrun |]. cbv zeta.
    rewrite (nomes_distribuicao_ponto_coleta_de d Hcol).
    split; [apply NoDup_List_filter, NoDup_unique |].
    split.
    + intros n. rewrite elem_of_List_filter, elem_of_unique.
      rewrite grupo_ponto_is_some.
      split; [by intros [_ ?] | by intros [? ?]].
    + apply first_occurrence_order_filter, unique_first_occurrence_order.
  - destruct (obter_distribuicao_mes_run _ _ _ Hl) as (junk & Hrun).
    eexists _, junk. split; [exact Hrun |]. cbv zeta.
    destruct (meses_distribuicao_mes_de d Hcol) as [-> | [Hrows ->]].
    + split; [apply increasing_filter_range |].
      intros m. rewrite elem_of_List_filter, elem_of_range_1_13.
      by rewrite grupo_mes_is_some.
    + split; [by intros i j a b Hi |].
      intros m. split; [by intros ?%elem_of_nil |].
      intros (_ & r & Hr & _). rewrite Hrows in Hr.
      by apply elem_of_nil in Hr.
Qed.

(** Pituba comes before Barra and P2 before P1, as in the rows; February
    comes before December, against the rows. *)
Example group_order_example :
  entradas ["bairro"] (fst (obter_dados_bairros 0 [quadro_ordem]))
  = [[Some (PStr "Pituba")]; [Some (PStr "Barra")]] ∧
  entradas ["ponto_de_coleta"]
    (fst (obter_distribuicao_ponto_coleta 0 [quadro_ordem]))
  = [[Some (PStr "P2")]; [Some (PStr "P1")]] ∧
  entradas ["mes"; "nome_mes"; "total_amostras"]
    (fst (obter_distribuicao_mes 0 [quadro_ordem]))
  = [[Some (PInt 2); Some (PStr "Fevereiro"); Some (PInt 2)];
     [Some (PInt 12); Some (PStr "Dezembro"); Some (PInt 1)]].
Proof. split; [| split]; by vm_compute. Qed.

(** ** The loader *)

Lemma filtro_ativo_todos (f : gmap string jval) (k : string) :
  f !! k = None ∨ f !! k = Some (JStr "todos") → filtro_ativo f k = None.
Proof. unfold filtro_ativo. by intros [-> | ->]. Qed.

Lemma aplicar_filtros_todos (f : gmap string jval) (df : DataFrame) :
  (∀ k, k ∈ ["ano"; "mes"; "bairro"; "parametro"] →
        f !! k = None ∨ f !! k = Some (JStr "todos")) →
  aplicar_filtros (Some f) df = Ok df.
Proof.
  intros H. unfold aplicar_filtros.
  case_bool_decide; [done |].
  rewrite !filtro_ativo_todos; [done | ..]; apply H;
    repeat (rewrite elem_of_cons; (by left) || right).
Qed.

(** C8: a filter dictionary in which each of the four keys is absent or
    set to ["todos"] loads the same record set as no filter at all, for
    every outcome of reading the file. *)
Theorem todos_is_no_filter (csv : result DataFrame)
    (filtros : gmap string jval) :
  (∀ k, k ∈ ["ano"; "mes"; "bairro"; "parametro"] →
        filtros !! k = None ∨ filtros !! k = Some (JStr "todos")) →
  carregar_dados csv (Some filtros) = carregar_dados csv None.
Proof.
  intros H. unfold carregar_dados, carregar_dados_body.
  destruct csv as [df | e]; [| done].
  unfold rbind at 1. unfold rbind at 2.
  by rewrite (aplicar_filtros_todos filtros df H).
Qed.

(** The filters do filter: the year 2023 keeps one row of three, the rows
    without a year go with any year, ["todos"] keeps all, and a year that
    is no number ends in the handler, with no row. *)
Example carregar_dados_example :
  map (λ f, length (rows (carregar_dados (Ok quadro_ordem) f)))
    [ None; Some {["ano" := JStr "todos"]}; Some {["ano" := JStr "2023"]};
      Some {["ano" := JInt 2022]}; Some {["ano" := JStr "dois mil"]};
      Some {["bairro" := JStr "Pituba"]};
      Some (<["mes" := JStr "2"]> {["bairro" := JStr "Pituba"]}) ]
  = [3; 3; 1; 1; 0; 2; 1]%nat ∧
  carregar_dados (Raise FileNotFoundError) None = quadro_vazio ∧
  ano <$> rows (carregar_dados (Ok quadro_ordem)
                  (Some {["ano" := JStr " 2_023 "]}))
  = [Some (F64.of_Z 2023)].
Proof. split; [| split]; by vm_compute. Qed.

(* ===================================================================== *)
(** * Part III. Further properties of the code *)
(* ===================================================================== *)

(** Membership in a list that is written out. *)
Ltac in_list :=
  unfold parametros_para_stats, parametros_para_bairros, parametros_para_mes,
    expected_cols;
  repeat first [apply list_elem_of_here | apply list_elem_of_further].

(** ** The evaluator reads one form of the result *)

Lemma replace_comma_idempotent (s : string) :
  PyStr.replace "," "." (PyStr.replace "," "." s) = PyStr.replace "," "." s.
Proof.
  induction s as [| c s IH]; [done |].
  cbn [PyStr.replace]. destruct (Ascii.eqb c ",") eqn:Hc.
  - change ("." ++ PyStr.replace "," "." s)%string
      with (String "." (PyStr.replace "," "." s)).
    cbn [PyStr.replace]. change (Ascii.eqb "." ",") with false. cbv iota.
    by rewrite IH.
  - cbn [PyStr.replace]. by rewrite Hc, IH.
Qed.

(** X1: under the absence rule the numeric result is never read, and
    under a numeric rule the text of the result is never read when the
    numeric result is present: replacing the cell that is not read leaves
    the evaluation as it is. *)
Theorem evaluator_reads_one_result (row : Row) (p : string) (ref : Rule) :
  parametro row = Some p →
  VALORES_REFERENCIA !! p = Some ref →
  (∀ x, (∃ s, ref = Ausencia s) →
        verificar_conformidade (com_resultado_numerico row x)
        = verificar_conformidade row) ∧
  (∀ t, (∀ s, ref ≠ Ausencia s) →
        isna_num (resultado_numerico row) = false →
        verificar_conformidade (com_resultado row t)
        = verificar_conformidade row).
Proof.
  intros Hp Hr. split.
  - intros x (s & ->).
    unfold verificar_conformidade, verificar_conformidade_with,
      verificar_conformidade_body_with. simpl.
    by rewrite Hp, Hr.
  - intros t Hnum Hna.
    rewrite (verificar_conformidade_numerico row p ref Hp Hr Hnum).
    rewrite (verificar_conformidade_numerico (com_resultado row t) p ref
               Hp Hr Hnum).
    unfold valor_resolvido. simpl. by rewrite Hna.
Qed.

(** X2: under a numeric rule a decimal comma and a decimal point are read
    alike: writing the result with points instead of commas does not
    change the evaluation. *)
Theorem decimal_comma_is_point (row : Row) (p : string) (ref : Rule)
    (r : string) :
  parametro row = Some p →
  VALORES_REFERENCIA !! p = Some ref →
  (∀ s, ref ≠ Ausencia s) →
  resultado row = Some r →
  verificar_conformidade
    (com_resultado row (Some (PyStr.replace "," "." r)))
  = verificar_conformidade row.
Proof.
  intros Hp Hr Hnum Hres.
  rewrite (verificar_conformidade_numerico row p ref Hp Hr Hnum).
  rewrite (verificar_conformidade_numerico (com_resultado row _) p ref
             Hp Hr Hnum).
  unfold valor_resolvido, texto_para_numero. simpl. rewrite Hres. simpl.
  by rewrite replace_comma_idempotent.
Qed.

(** ** The dictionary of [calcular_estatisticas] *)

Lemma conformidade_do_parametro_avaliado (d : DataFrame) (p : string) :
  conformidade_do_parametro (if df_empty d then d else avaliado d) p
  = conformidade_esperada d (amostras_de p (rows d)).
Proof.
  unfold conformidade_do_parametro, conformidade_esperada, amostras_de.
  destruct (df_empty d) eqn:Hemp.
  - rewrite Hemp, andb_false_r.
    destruct (has_column "parametro" d) eqn:Hcol; [| done].
    by rewrite (rows_of_empty_frame _ _ Hcol Hemp).
  - rewrite has_column_avaliado by done.
    destruct (has_column "parametro" d) eqn:Hcol; [| done].
    apply df_empty_false in Hemp as [Hrows Hcols].
    assert (df_empty (avaliado d) = false) as ->.
    { apply df_empty_false. split.
      - rewrite rows_avaliado. by destruct (rows d).
      - by apply columns_avaliado_nonempty. }
    cbn [andb negb].
    rewrite percent_select_avaliado
      by (intros; apply mask_parametro_with_conforme).
    pose proof (columns_avaliado_nonempty d Hcols) as Hc.
    unfold df_empty. cbn [rows columns select_rows].
    rewrite rows_avaliado.
    rewrite (filter_map_comm _ _ (λ r, cell_eq (parametro r) (Some p)))
      by (intros; apply mask_parametro_with_conforme).
    unfold avaliado, set_conforme in Hc. simpl in Hc.
    destruct (List.filter _ (rows d)); simpl; [done |].
    by destruct (if has_column "conforme" d then _ else _).
Qed.

Ltac concrete_stat_keys :=
  change ("conformidade_" +:+ param_key "Escherichia coli")
    with "conformidade_escherichia_coli" in *;
  change ("conformidade_" +:+ param_key "Coliformes totais")
    with "conformidade_coliformes_totais" in *;
  change ("conformidade_" +:+ param_key "Turbidez (uT)")
    with "conformidade_turbidez_ut" in *;
  change ("conformidade_" +:+ param_key "Cloro residual livre (mg/L)")
    with "conformidade_cloro_residual_livre_mg_l" in *;
  change ("conformidade_" +:+ param_key "Fluoreto (mg/L)")
    with "conformidade_fluoreto_mg_l" in *.

(** The five entries and the five short names, whatever the values. *)
Lemma estatisticas_lookup_parametros (v : string → pyval)
    (base : gmap string pyval) :
  let stats :=
    com_nomes_curtos
      (fold_left
         (λ stats param, <["conformidade_" +:+ param_key param := v param]>
                           stats)
         parametros_para_stats base) in
  (∀ p, p ∈ parametros_para_stats →
        stats !! ("conformidade_" +:+ param_key p) = Some (v p)) ∧
  stats !! "conformidade_ecoli" = Some (v "Escherichia coli") ∧
  stats !! "conformidade_coliformes" = Some (v "Coliformes totais") ∧
  stats !! "conformidade_turbidez" = Some (v "Turbidez (uT)") ∧
  stats !! "conformidade_cloro" = Some (v "Cloro residual livre (mg/L)") ∧
  stats !! "conformidade_fluoreto" = Some (v "Fluoreto (mg/L)").
Proof.
  unfold com_nomes_curtos, get, parametros_para_stats. cbn [fold_left].
  cbv zeta. concrete_stat_keys.
  split; [| split; [| split; [| split; [| split]]]].
  - intros p Hp.
    repeat (apply elem_of_cons in Hp as [-> | Hp];
            [concrete_stat_keys; by read_key |]).
    by apply elem_of_nil in Hp.
  - by read_key.
  - by read_key.
  - by read_key.
  - by read_key.
  - by read_key.
Qed.

Lemma estatisticas_de_parametros (d : DataFrame) :
  (∀ p, p ∈ parametros_para_stats →
        estatisticas_de d !! ("conformidade_" +:+ param_key p)
        = Some (conformidade_esperada d (amostras_de p (rows d)))) ∧
  estatisticas_de d !! "conformidade_ecoli"
  = estatisticas_de d !! "conformidade_escherichia_coli" ∧
  estatisticas_de d !! "conformidade_coliformes"
  = estatisticas_de d !! "conformidade_coliformes_totais" ∧
  estatisticas_de d !! "conformidade_turbidez"
  = estatisticas_de d !! "conformidade_turbidez_ut" ∧
  estatisticas_de d !! "conformidade_cloro"
  = estatisticas_de d !! "conformidade_cloro_residual_livre_mg_l" ∧
  estatisticas_de d !! "conformidade_fluoreto"
  = estatisticas_de d !! "conformidade_fluoreto_mg_l".
Proof.
  unfold estatisticas_de. cbv zeta.
  match goal with
  | |- context [com_nomes_curtos (fold_left _ _ ?base)] =>
      destruct (estatisticas_lookup_parametros
                  (conformidade_do_parametro
                     (if df_empty d then d else avaliado d)) base)
        as (Hp & H1 & H2 & H3 & H4 & H5)
  end.
  cbv zeta in Hp, H1, H2, H3, H4, H5.
  split; [| split; [| split; [| split; [| split]]]].
  - intros p Hin. rewrite (Hp p Hin).
    by rewrite conformidade_do_parametro_avaliado.
  - rewrite H1. symmetry.
    apply (Hp "Escherichia coli"). in_list.
  - rewrite H2. symmetry.
    apply (Hp "Coliformes totais"). in_list.
  - rewrite H3. symmetry.
    apply (Hp "Turbidez (uT)"). in_list.
  - rewrite H4. symmetry.
    apply (Hp "Cloro residual livre (mg/L)"). in_list.
  - rewrite H5. symmetry.
    apply (Hp "Fluoreto (mg/L)"). in_list.
Qed.

(** X3: for each of the five named parameters the statistics hold the
    compliance percentage of the rows that measure it, and the integer 0
    when no row does (or the frame has no parameter column); each short
    name holds the value of its long name. *)
Theorem estatisticas_por_parametro (h : heap) (l : nat) (d : DataFrame) :
  h !! l = Some d →
  ∃ stats junk,
    calcular_estatisticas l h = (Ok stats, h ++ junk) ∧
    (∀ p, p ∈ parametros_para_stats →
          stats !! ("conformidade_" +:+ param_key p)
          = Some (conformidade_esperada d (amostras_de p (rows d)))) ∧
    stats !! "conformidade_ecoli"
    = stats !! "conformidade_escherichia_coli" ∧
    stats !! "conformidade_coliformes"
    = stats !! "conformidade_coliformes_totais" ∧
    stats !! "conformidade_turbidez" = stats !! "conformidade_turbidez_ut" ∧
    stats !! "conformidade_cloro"
    = stats !! "conformidade_cloro_residual_livre_mg_l" ∧
    stats !! "conformidade_fluoreto" = stats !! "conformidade_fluoreto_mg_l".
Proof.
  intros Hl. eexists _, _.
  split; [apply (calcular_estatisticas_run _ _ _ Hl) |].
  apply estatisticas_de_parametros.
Qed.

Lemma estatisticas_lookup_base (v : string → pyval)
    (base : gmap string pyval) (k : string) :
  k ∈ ["total_amostras"; "bairros_unicos"; "conformidade_geral";
       "nao_conformidade_geral"] →
  com_nomes_curtos
    (fold_left
       (λ stats param, <["conformidade_" +:+ param_key param := v param]>
                         stats)
       parametros_para_stats base) !! k
  = base !! k.
Proof.
  intros Hk.
  unfold com_nomes_curtos, parametros_para_stats. cbn [fold_left].
  cbv zeta. concrete_stat_keys.
  repeat (apply elem_of_cons in Hk as [-> | Hk]; [by read_key |]).
  by apply elem_of_nil in Hk.
Qed.

Lemma length_unique_size `{Countable A} (l : list A) :
  length (unique l) = size (list_to_set l : gset A).
Proof.
  rewrite <- (size_list_to_set (C := gset A) (unique l))
    by apply NoDup_unique.
  f_equal. apply set_eq. intros x.
  by rewrite !elem_of_list_to_set, elem_of_unique.
Qed.

Lemma estatisticas_de_bairros_unicos (d : DataFrame) :
  estatisticas_de d !! "bairros_unicos"
  = Some (PInt (if has_column "bairro" d
                then Z.of_nat (size (bairros_de (rows d))) else 0)).
Proof.
  unfold estatisticas_de. cbv zeta.
  rewrite estatisticas_lookup_base by in_list.
  destruct (df_empty d); read_key;
    unfold nunique, bairros_de; by rewrite length_unique_size.
Qed.

(** X4: [bairros_unicos] is the number of different neighbourhood names
    of the record set, a missing name not counted, and 0 for a frame
    without the neighbourhood column. *)
Theorem estatisticas_bairros_unicos (h : heap) (l : nat) (d : DataFrame) :
  h !! l = Some d →
  ∃ stats junk,
    calcular_estatisticas l h = (Ok stats, h ++ junk) ∧
    stats !! "bairros_unicos"
    = Some (PInt (if has_column "bairro" d
                  then Z.of_nat (size (bairros_de (rows d))) else 0)) ∧
    ∀ nome, nome ∈ bairros_de (rows d) ↔
            ∃ r, r ∈ rows d ∧ bairro r = Some nome.
Proof.
  intros Hl. eexists _, _.
  split; [apply (calcular_estatisticas_run _ _ _ Hl) |].
  split; [apply estatisticas_de_bairros_unicos |].
  intros nome. unfold bairros_de.
  rewrite elem_of_list_to_set, list_elem_of_omap.
  split.
  - intros (o & (r & -> & Hr)%list_elem_of_fmap & Ho). by exists r.
  - intros (r & Hr & Hb). exists (Some nome). split; [| done].
    apply list_elem_of_fmap. by exists r.
Qed.

Lemma dom_estatisticas_chaves (v : string → pyval) (a b c e : pyval) :
  dom (com_nomes_curtos
         (fold_left
            (λ stats param,
               <["conformidade_" +:+ param_key param := v param]> stats)
            parametros_para_stats
            (<["nao_conformidade_geral" := a]>
               (<["conformidade_geral" := b]>
                  (<["bairros_unicos" := c]>
                     (<["total_amostras" := e]> ∅))))))
  = chaves_estatisticas.
Proof.
  unfold com_nomes_curtos, parametros_para_stats.
  cbv zeta. cbn [fold_left]. concrete_stat_keys.
  rewrite !dom_insert_L, dom_empty_L.
  unfold chaves_estatisticas. cbn [list_to_set foldr].
  apply set_eq. intros k.
  rewrite !elem_of_union, !elem_of_singleton, elem_of_empty.
  tauto.
Qed.

Lemma dom_estatisticas_de (d : DataFrame) :
  dom (estatisticas_de d) = chaves_estatisticas.
Proof.
  unfold estatisticas_de. cbv zeta.
  destruct (df_empty d); apply dom_estatisticas_chaves.
Qed.

(** X5: the dictionary of statistics has the same fourteen keys for
    every record set, empty or not. *)
Theorem estatisticas_keys (h : heap) (l : nat) (d : DataFrame) :
  h !! l = Some d →
  ∃ stats junk,
    calcular_estatisticas l h = (Ok stats, h ++ junk) ∧
    dom stats = chaves_estatisticas.
Proof.
  intros Hl. eexists _, _.
  split; [apply (calcular_estatisticas_run _ _ _ Hl) |].
  apply dom_estatisticas_de.
Qed.

(** ** The aggregators always return *)

(** X6: none of the four aggregators raises, whatever the heap and the
    reference: each returns a value. *)
Theorem aggregators_never_raise (h : heap) (l : nat) :
  (∃ stats h', calcular_estatisticas l h = (Ok stats, h')) ∧
  (∃ grupos h', obter_dados_bairros l h = (Ok grupos, h')) ∧
  (∃ grupos h', obter_distribuicao_mes l h = (Ok grupos, h')) ∧
  (∃ grupos h', obter_distribuicao_ponto_coleta l h = (Ok grupos, h')).
Proof.
  destruct (h !! l) as [d |] eqn:Hl.
  - split; [| split; [| split]].
    + eexists _, _. apply (calcular_estatisticas_run _ _ _ Hl).
    + destruct (obter_dados_bairros_run _ _ _ Hl) as (junk & ->).
      by eexists _, _.
    + destruct (obter_distribuicao_mes_run _ _ _ Hl) as (junk & ->).
      by eexists _, _.
    + destruct (obter_distribuicao_ponto_coleta_run _ _ _ Hl) as (junk & ->).
      by eexists _, _.
  - split; [| split; [| split]]; eexists _, _.
    + apply (calcular_estatisticas_dangling _ _ Hl).
    + apply (obter_dados_bairros_dangling _ _ Hl).
    + apply (obter_distribuicao_mes_dangling _ _ Hl).
    + apply (obter_distribuicao_ponto_coleta_dangling _ _ Hl).
Qed.

(** ** The early return of the grouping aggregators *)

(** X7: on a frame that is empty or lacks the key column, a grouping
    aggregator returns the empty list before it copies anything: the heap
    is the one it was given. *)
Theorem grouping_early_return (h : heap) (l : nat) (d : DataFrame) :
  h !! l = Some d →
  (df_empty d = true ∨ has_column "bairro" d = false →
   obter_dados_bairros l h = (Ok [], h)) ∧
  (df_empty d = true ∨ has_column "mes" d = false →
   obter_distribuicao_mes l h = (Ok [], h)) ∧
  (df_empty d = true ∨ has_column "ponto_de_coleta" d = false →
   obter_distribuicao_ponto_coleta l h = (Ok [], h)).
Proof.
  intros Hl. split; [| split]; intros Hd.
  - unfold obter_dados_bairros, try_M, obter_dados_bairros_body.
    run_with (deref_ok _ _ _ Hl).
    by destruct Hd as [-> | ->]; rewrite ?orb_true_r.
  - unfold obter_distribuicao_mes, try_M, obter_distribuicao_mes_body.
    run_with (deref_ok _ _ _ Hl).
    by destruct Hd as [-> | ->]; rewrite ?orb_true_r.
  - unfold obter_distribuicao_ponto_coleta, try_M,
      obter_distribuicao_ponto_coleta_body.
    run_with (deref_ok _ _ _ Hl).
    by destruct Hd as [-> | ->]; rewrite ?orb_true_r.
Qed.

(** ** The fields of a group *)

Lemma df_empty_select (mask : Row → bool) (d : DataFrame) :
  columns d ≠ [] →
  df_empty (select_rows mask d)
  = match List.filter mask (rows d) with [] => true | _ => false end.
Proof.
  intros Hc. unfold df_empty. cbn [rows columns select_rows].
  destruct (List.filter mask (rows d)); [done |].
  by destruct (columns d).
Qed.

Lemma percentual_conforme_do_grupo (mask : Row → bool) (d : DataFrame) :
  List.filter mask (rows d) ≠ [] →
  percentual_de (avaliado (select_rows mask d))
  = PFloat (taxa (List.filter mask (rows d))).
Proof. intros Hne. by rewrite percentual_de_avaliado. Qed.

Lemma grupo_bairro_percentual (d : DataFrame) (nome : option string) :
  columns d ≠ [] →
  grupo_bairro d nome !! "percentual_conforme"
  = Some (match List.filter (λ r, cell_eq (bairro r) nome) (rows d) with
          | [] => PInt 0
          | membros => PFloat (taxa membros)
          end).
Proof.
  intros Hc. unfold grupo_bairro.
  rewrite com_percentuais_other; [| done | in_list].
  read_key. rewrite (df_empty_select _ _ Hc).
  destruct (List.filter _ (rows d)) as [| r membros] eqn:Hm; [done |].
  rewrite percentual_conforme_do_grupo by (by rewrite Hm).
  by rewrite Hm.
Qed.

Lemma cell_eq_None (cell : option string) : cell_eq cell None = false.
Proof. by destruct cell. Qed.

Lemma cell_eq_refl (s : string) : cell_eq (Some s) (Some s) = true.
Proof. apply String.eqb_refl. Qed.

Lemma filter_none {A} (f : A → bool) (l : list A) :
  (∀ x, f x = false) → List.filter f l = [].
Proof. intros Hf. induction l as [| x l IH]; simpl; [done |]. by rewrite Hf. Qed.

(** X8: every group of [obter_dados_bairros] carries its name, the
    number of rows of that neighbourhood and their compliance
    percentage.  The rows without a neighbourhood give one more group,
    with the missing name, no row and the integer 0 as percentage. *)
Theorem neighbourhood_groups (h : heap) (l : nat) (d : DataFrame) :
  h !! l = Some d →
  ∃ grupos junk,
    obter_dados_bairros l h = (Ok grupos, h ++ junk) ∧
    ∀ g, g ∈ grupos →
      ∃ nome,
        let membros := List.filter (λ r, cell_eq (bairro r) nome) (rows d) in
        nome ∈ map bairro (rows d) ∧
        g !! "bairro" = Some (of_name nome) ∧
        g !! "total_analises" = Some (PInt (Z.of_nat (length membros))) ∧
        (nome = None →
           membros = [] ∧ g !! "percentual_conforme" = Some (PInt 0)) ∧
        (nome ≠ None →
           membros ≠ [] ∧
           g !! "percentual_conforme" = Some (PFloat (taxa membros))).
Proof.
  intros Hl.
  destruct (obter_dados_bairros_run _ _ _ Hl) as (junk & Hrun).
  exists (dados_bairros_de d), junk. split; [exact Hrun |].
  intros g Hg. unfold dados_bairros_de in Hg.
  destruct (df_empty d || negb (has_column "bairro" d)) eqn:Hd;
    [by apply elem_of_nil in Hg |].
  apply orb_false_iff in Hd as [_ Hcol%negb_false_iff].
  apply has_column_nonempty in Hcol.
  apply list_elem_of_fmap in Hg as (nome & -> & Hn).
  apply (proj1 (elem_of_unique _ _)) in Hn.
  exists nome. cbv zeta.
  split; [exact Hn |].
  split; [exact (proj1 (grupo_bairro_campos d nome)) |].
  split; [exact (proj1 (proj2 (grupo_bairro_campos d nome))) |].
  rewrite (grupo_bairro_percentual d nome Hcol).
  split.
  - intros ->.
    rewrite (filter_none (λ r, cell_eq (bairro r) None))
      by (intros r; apply cell_eq_None).
    done.
  - intros Hnome.
    assert (List.filter (λ r, cell_eq (bairro r) nome) (rows d) ≠ []) as Hm.
    { apply List_filter_nonempty.
      apply list_elem_of_fmap in Hn as (r & -> & Hr).
      exists r. split; [exact Hr |].
      destruct (bairro r) as [s |]; [apply cell_eq_refl |].
      by destruct Hnome. }
    split; [exact Hm |].
    generalize dependent (List.filter (λ r, cell_eq (bairro r) nome) (rows d)).
    intros membros Hm. by destruct membros.
Qed.

(** A frame with a row that has no neighbourhood: the group of the
    missing name counts no row. *)
Example neighbourhood_groups_missing_name :
  entradas ["bairro"; "total_analises"; "percentual_conforme";
            "percentual_escherichia_coli"]
    (fst (obter_dados_bairros 0 [quadro_sem_chave]))
  = [[Some PNone; Some (PInt 0); Some (PInt 0); Some PNone]].
Proof. vm_compute. reflexivity. Qed.

Lemma grupo_mes_percentual (d : DataFrame) (m : Z) (g : gmap string pyval) :
  1 ≤ m ≤ 12 →
  grupo_mes (com_mes d) m = Some g →
  g !! "percentual_conforme"
  = Some (PFloat (taxa (List.filter (λ r, num_eq (mes r) m) (rows d)))) ∧
  ∃ nome, nomes_meses !! Z.to_nat (m - 1) = Some nome ∧
          g !! "nome_mes" = Some (PStr nome).
Proof.
  intros Hm Hg.
  pose proof (grupo_mes_campos d m g Hg) as (_ & _ & Hne & _).
  unfold grupo_mes in Hg.
  destruct (0 <? df_len _) eqn:Hlen; [| done].
  injection Hg as <-. split.
  - rewrite com_percentuais_other; [| done | in_list].
    read_key.
    rewrite percentual_de_avaliado by (by rewrite rows_mes_group).
    by rewrite rows_mes_group.
  - rewrite com_percentuais_other; [| done | in_list].
    read_key.
    destruct (nomes_meses !! Z.to_nat (m - 1)) as [nome |] eqn:Hnome.
    + by exists nome.
    + apply lookup_ge_None in Hnome. simpl in Hnome. lia.
Qed.

(** X9: every group of [obter_distribuicao_mes] is that of a month from
    1 to 12 in which a row falls; it carries the number, the name at
    position [number - 1] of the list of names, the count of the rows of
    the month, which is positive, and their compliance percentage. *)
Theorem month_groups (h : heap) (l : nat) (d : DataFrame) :
  h !! l = Some d →
  ∃ grupos junk,
    obter_distribuicao_mes l h = (Ok grupos, h ++ junk) ∧
    ∀ g, g ∈ grupos →
      ∃ m nome,
        let membros := List.filter (λ r, num_eq (mes r) m) (rows d) in
        1 ≤ m ≤ 12 ∧
        g !! "mes" = Some (PInt m) ∧
        nomes_meses !! Z.to_nat (m - 1) = Some nome ∧
        g !! "nome_mes" = Some (PStr nome) ∧
        membros ≠ [] ∧
        g !! "total_amostras" = Some (PInt (Z.of_nat (length membros))) ∧
        g !! "percentual_conforme" = Some (PFloat (taxa membros)).
Proof.
  intros Hl.
  destruct (obter_distribuicao_mes_run _ _ _ Hl) as (junk & Hrun).
  exists (distribuicao_mes_de d), junk. split; [exact Hrun |].
  intros g Hg.
  apply distribuicao_mes_de_elem in Hg as (m & Hm%elem_of_range_1_13 & Hg).
  pose proof (grupo_mes_campos d m g Hg) as (Hmes & Htot & Hne & _).
  pose proof (grupo_mes_percentual d m g Hm Hg) as (Hpc & nome & Hn & Hnm).
  by exists m, nome.
Qed.

Lemma grupo_ponto_percentual (d : DataFrame) (nome : option string)
    (g : gmap string pyval) :
  grupo_ponto d nome = Some g →
  nome ≠ None ∧
  g !! "percentual_conforme"
  = Some (PFloat (taxa (List.filter (λ r, cell_eq (ponto_de_coleta r) nome)
                          (rows d)))).
Proof.
  intros Hg.
  pose proof (grupo_ponto_campos d nome g Hg) as (_ & _ & Hne & _).
  split.
  - intros ->. apply Hne. apply filter_none. intros r. apply cell_eq_None.
  - unfold grupo_ponto in Hg.
    destruct (0 <? df_len _); [| done].
    injection Hg as <-. read_key.
    by rewrite percentual_conforme_do_grupo.
Qed.

(** X10: every group of [obter_distribuicao_ponto_coleta] is that of a
    collection point named in some row; it carries the name, the number
    of rows of the point, which is positive, and their compliance
    percentage.  Rows without a collection point are in no group. *)
Theorem collection_point_groups (h : heap) (l : nat) (d : DataFrame) :
  h !! l = Some d →
  ∃ grupos junk,
    obter_distribuicao_ponto_coleta l h = (Ok grupos, h ++ junk) ∧
    ∀ g, g ∈ grupos →
      ∃ nome,
        let membros :=
          List.filter (λ r, cell_eq (ponto_de_coleta r) (Some nome))
            (rows d) in
        g !! "ponto_de_coleta" = Some (PStr nome) ∧
        membros ≠ [] ∧
        g !! "total_analises" = Some (PInt (Z.of_nat (length membros))) ∧
        g !! "percentual_conforme" = Some (PFloat (taxa membros)).
Proof.
  intros Hl.
  destruct (obter_distribuicao_ponto_coleta_run _ _ _ Hl) as (junk & Hrun).
  exists (distribuicao_ponto_coleta_de d), junk. split; [exact Hrun |].
  intros g Hg.
  apply distribuicao_ponto_coleta_de_elem in Hg as (nome & Hg).
  pose proof (grupo_ponto_campos d nome g Hg) as (Hn & Htot & Hne & _).
  pose proof (grupo_ponto_percentual d nome g Hg) as (Hsome & Hpc).
  destruct nome as [nome |]; [| done].
  by exists nome.
Qed.

(** ** The short names of a group *)

(** Reading a key of a dictionary that is written out. *)
Ltac fast_key :=
  repeat (rewrite lookup_insert_eq
          || rewrite lookup_insert_ne
               by (apply String.eqb_neq; vm_compute; reflexivity)).

Lemma com_percentuais_nomes_curtos (v : string → pyval)
    (dados : gmap string pyval) :
  let dados :=
    fold_left
      (λ dados param, <["percentual_" +:+ param_key param := v param]> dados)
      ["Escherichia coli"; "Coliformes totais"; "Turbidez (uT)";
       "Cloro residual livre (mg/L)"; "Fluoreto (mg/L)"] dados in
  let dados :=
    <["percentual_ecoli" := get dados "percentual_escherichia_coli" PNone]>
      dados in
  let dados :=
    <["percentual_coliformes" :=
        get dados "percentual_coliformes_totais" PNone]> dados in
  let dados :=
    <["percentual_turbidez" := get dados "percentual_turbidez_ut" PNone]>
      dados in
  let dados :=
    <["percentual_cloro" :=
        get dados "percentual_cloro_residual_livre_mg_l" PNone]> dados in
  let dados :=
    <["percentual_fluoreto" := get dados "percentual_fluoreto_mg_l" PNone]>
      dados in
  nomes_curtos_do_grupo dados.
Proof.
  cbv zeta. cbn [fold_left]. concrete_keys.
  unfold get, nomes_curtos_do_grupo, mesmo_valor.
  split; [| split; [| split; [| split]]].
  - exists (v "Escherichia coli"). split; by fast_key.
  - exists (v "Coliformes totais"). split; by fast_key.
  - exists (v "Turbidez (uT)"). split; by fast_key.
  - exists (v "Cloro residual livre (mg/L)"). split; by fast_key.
  - exists (v "Fluoreto (mg/L)"). split; by fast_key.
Qed.

Lemma nomes_curtos_com_percentuais (params : list string) (db : DataFrame)
    (dados : gmap string pyval) :
  params = ["Escherichia coli"; "Coliformes totais"; "Turbidez (uT)";
            "Cloro residual livre (mg/L)"; "Fluoreto (mg/L)"] →
  nomes_curtos_do_grupo (com_percentuais params db dados).
Proof.
  intros ->.
  exact (com_percentuais_nomes_curtos (percentual_do_parametro db) dados).
Qed.

(** X11: in every group of [obter_dados_bairros] and of
    [obter_distribuicao_mes] each of the five short names and each of
    the five long names is present, and each short name holds the value
    of its long name. *)
Theorem group_short_names (h : heap) (l : nat) (d : DataFrame) :
  h !! l = Some d →
  (∃ grupos junk,
     obter_dados_bairros l h = (Ok grupos, h ++ junk) ∧
     ∀ g, g ∈ grupos → nomes_curtos_do_grupo g) ∧
  (∃ grupos junk,
     obter_distribuicao_mes l h = (Ok grupos, h ++ junk) ∧
     ∀ g, g ∈ grupos → nomes_curtos_do_grupo g).
Proof.
  intros Hl. split.
  - destruct (obter_dados_bairros_run _ _ _ Hl) as (junk & Hrun).
    exists (dados_bairros_de d), junk. split; [exact Hrun |].
    intros g (nome & ->)%dados_bairros_de_elem.
    unfold grupo_bairro.
    exact (nomes_curtos_com_percentuais _ _ _ eq_refl).
  - destruct (obter_distribuicao_mes_run _ _ _ Hl) as (junk & Hrun).
    exists (distribuicao_mes_de d), junk. split; [exact Hrun |].
    intros g (m & _ & Hg)%distribuicao_mes_de_elem.
    unfold grupo_mes in Hg. destruct (0 <? df_len _); [| done].
    injection Hg as <-.
    exact (nomes_curtos_com_percentuais _ _ _ eq_refl).
Qed.

(** ** The order of the rows *)

Lemma List_filter_Permutation {A} (f : A → bool) (l l' : list A) :
  l ≡ₚ l' → List.filter f l ≡ₚ List.filter f l'.
Proof.
  induction 1 as [| x l l' _ IH | x y l | l l' l'' _ IH1 _ IH2]; simpl.
  - done.
  - destruct (f x); [by constructor | done].
  - destruct (f x), (f y); try done. apply perm_swap.
  - by etrans.
Qed.

Lemma Permutation_nil_iff {A} (l l' : list A) :
  l ≡ₚ l' → (l = [] ↔ l' = []).
Proof.
  intros Hp. split; intros ->.
  - by apply Permutation_nil.
  - symmetry in Hp. by apply Permutation_nil.
Qed.

Lemma taxa_Permutation (l l' : list Row) : l ≡ₚ l' → taxa l = taxa l'.
Proof.
  intros Hp. unfold taxa, conformes.
  by rewrite (Permutation_length Hp),
    (Permutation_length (List_filter_Permutation is_conforme _ _ Hp)).
Qed.

Lemma df_empty_Permutation (d d' : DataFrame) :
  columns d = columns d' → rows d ≡ₚ rows d' → df_empty d = df_empty d'.
Proof.
  intros Hc Hp. unfold df_empty. rewrite Hc.
  pose proof (Permutation_nil_iff _ _ Hp) as Hnil.
  destruct (rows d), (rows d'); try done.
  - discriminate (proj1 Hnil eq_refl).
  - discriminate (proj2 Hnil eq_refl).
Qed.

Lemma has_column_columns (c : string) (d d' : DataFrame) :
  columns d = columns d' → has_column c d = has_column c d'.
Proof. unfold has_column. by intros ->. Qed.

Lemma elem_of_bairros_de (l : list Row) (nome : string) :
  nome ∈ bairros_de l ↔ ∃ r, r ∈ l ∧ bairro r = Some nome.
Proof.
  unfold bairros_de. rewrite elem_of_list_to_set, list_elem_of_omap.
  split.
  - intros (o & (r & -> & Hr)%list_elem_of_fmap & Ho). by exists r.
  - intros (r & Hr & Hb). exists (Some nome). split; [| done].
    apply list_elem_of_fmap. by exists r.
Qed.

Lemma bairros_de_Permutation (l l' : list Row) :
  l ≡ₚ l' → bairros_de l = bairros_de l'.
Proof.
  intros Hp. apply set_eq. intros nome. rewrite !elem_of_bairros_de.
  split; intros (r & Hr & Hb); exists r; split; try done.
  - by rewrite <- Hp.
  - by rewrite Hp.
Qed.

Lemma nunique_bairros_de (l : list Row) :
  nunique (map bairro l) = Z.of_nat (size (bairros_de l)).
Proof. unfold nunique, bairros_de. by rewrite length_unique_size. Qed.

Lemma conformidade_esperada_Permutation (d d' : DataFrame) (p : string) :
  columns d = columns d' → rows d ≡ₚ rows d' →
  conformidade_esperada d (amostras_de p (rows d))
  = conformidade_esperada d' (amostras_de p (rows d')).
Proof.
  intros Hc Hp. unfold conformidade_esperada, amostras_de.
  rewrite (has_column_columns _ _ _ Hc).
  destruct (has_column "parametro" d'); [| done].
  pose proof (List_filter_Permutation
                (λ r, cell_eq (parametro r) (Some p)) _ _ Hp) as Hf.
  pose proof (Permutation_nil_iff _ _ Hf) as Hnil.
  pose proof (taxa_Permutation _ _ Hf) as Ht.
  destruct (List.filter _ (rows d)), (List.filter _ (rows d')); try done.
  - discriminate (proj1 Hnil eq_refl).
  - discriminate (proj2 Hnil eq_refl).
  - by rewrite Ht.
Qed.

Lemma estatisticas_de_Permutation (d d' : DataFrame) :
  columns d = columns d' → rows d ≡ₚ rows d' →
  estatisticas_de d = estatisticas_de d'.
Proof.
  intros Hc Hp. unfold estatisticas_de. cbv zeta.
  unfold parametros_para_stats. cbn [fold_left].
  rewrite !conformidade_do_parametro_avaliado.
  rewrite !(conformidade_esperada_Permutation d d' _ Hc Hp).
  rewrite !nunique_bairros_de, (bairros_de_Permutation _ _ Hp).
  rewrite (has_column_columns "bairro" _ _ Hc).
  unfold df_len. rewrite (Permutation_length Hp).
  rewrite (df_empty_Permutation _ _ Hc Hp).
  destruct (df_empty d'); [done |].
  by rewrite !percent_avaliado, (taxa_Permutation _ _ Hp).
Qed.

Lemma com_percentuais_ext (params : list string) (db db' : DataFrame)
    (dados : gmap string pyval) :
  (∀ p, percentual_do_parametro db p = percentual_do_parametro db' p) →
  com_percentuais params db dados = com_percentuais params db' dados.
Proof.
  intros Hp. unfold com_percentuais. cbv zeta.
  assert (fold_left
            (λ dados param,
               <["percentual_" +:+ param_key param :=
                   percentual_do_parametro db param]> dados) params dados
          = fold_left
              (λ dados param,
                 <["percentual_" +:+ param_key param :=
                     percentual_do_parametro db' param]> dados) params dados)
    as ->; [| done].
  revert dados. induction params as [| p params IH]; intros dados; simpl.
  - done.
  - by rewrite Hp, IH.
Qed.

Lemma percentual_do_parametro_avaliado (sel : DataFrame) (p : string) :
  rows sel ≠ [] → columns sel ≠ [] →
  percentual_do_parametro (avaliado sel) p
  = percentual_esperado sel
      (List.filter (λ r, cell_eq (parametro r) (Some p)) (rows sel)).
Proof.
  intros Hr Hc.
  pose proof (percentual_do_parametro_grupo sel p) as H.
  by rewrite (proj2 (df_empty_false sel) (conj Hr Hc)) in H.
Qed.

Lemma percentual_esperado_Permutation (d d' : DataFrame) (l l' : list Row) :
  columns d = columns d' → l ≡ₚ l' →
  percentual_esperado d l = percentual_esperado d' l'.
Proof.
  intros Hc Hp. unfold percentual_esperado.
  rewrite (has_column_columns _ _ _ Hc).
  destruct (has_column "parametro" d'); [| done].
  pose proof (Permutation_nil_iff _ _ Hp) as Hnil.
  pose proof (taxa_Permutation _ _ Hp) as Ht.
  destruct l, l'; try done.
  - discriminate (proj1 Hnil eq_refl).
  - discriminate (proj2 Hnil eq_refl).
  - by rewrite Ht.
Qed.

Lemma grupo_mes_Permutation (d d' : DataFrame) (m : Z) :
  columns d ≠ [] → columns d = columns d' → rows d ≡ₚ rows d' →
  grupo_mes (com_mes d) m = grupo_mes (com_mes d') m.
Proof.
  intros Hne Hc Hp. unfold grupo_mes.
  set (sel := select_rows (λ r, num_eq (mes r) m) (com_mes d)).
  set (sel' := select_rows (λ r, num_eq (mes r) m) (com_mes d')).
  assert (rows sel ≡ₚ rows sel') as Hs.
  { unfold sel, sel'. rewrite !rows_mes_group.
    by apply List_filter_Permutation. }
  assert (columns sel = columns sel') as Hcs by exact Hc.
  assert (columns sel ≠ []) as Hcne by exact Hne.
  unfold df_len. rewrite (Permutation_length Hs).
  destruct (0 <? Z.of_nat (length (rows sel'))) eqn:Hlen; [| done].
  assert (rows sel' ≠ []) as Hr'.
  { apply Z.ltb_lt in Hlen. destruct (rows sel'); [simpl in Hlen; lia | done]. }
  assert (rows sel ≠ []) as Hr.
  { intros Hnil. apply Hr'. by apply (Permutation_nil_iff _ _ Hs). }
  f_equal.
  rewrite !percentual_de_avaliado by done.
  rewrite (taxa_Permutation _ _ Hs).
  apply com_percentuais_ext. intros p.
  rewrite !percentual_do_parametro_avaliado by (done || by rewrite <- Hcs).
  apply percentual_esperado_Permutation; [done |].
  by apply List_filter_Permutation.
Qed.

Lemma distribuicao_mes_de_Permutation (d d' : DataFrame) :
  columns d = columns d' → rows d ≡ₚ rows d' →
  distribuicao_mes_de d = distribuicao_mes_de d'.
Proof.
  intros Hc Hp. unfold distribuicao_mes_de.
  rewrite (df_empty_Permutation _ _ Hc Hp), (has_column_columns _ _ _ Hc).
  destruct (df_empty d' || negb (has_column "mes" d')) eqn:Hd; [done |].
  apply orb_false_iff in Hd as [_ Hcol%negb_false_iff].
  rewrite <- (has_column_columns _ _ _ Hc) in Hcol.
  apply has_column_nonempty in Hcol.
  induction range_1_13 as [| m ms IH]; [done |].
  csimpl. by rewrite (grupo_mes_Permutation d d' m Hcol Hc Hp), IH.
Qed.

(** X12: the statistics and the monthly distribution do not depend on
    the order of the rows: two frames with the same columns and the same
    rows in any order give the same results. *)
Theorem row_order_is_irrelevant (h h' : heap) (l l' : nat)
    (d d' : DataFrame) :
  h !! l = Some d → h' !! l' = Some d' →
  columns d = columns d' → rows d ≡ₚ rows d' →
  fst (calcular_estatisticas l h) = fst (calcular_estatisticas l' h') ∧
  fst (obter_distribuicao_mes l h) = fst (obter_distribuicao_mes l' h').
Proof.
  intros Hl Hl' Hc Hp. split.
  - rewrite (calcular_estatisticas_run _ _ _ Hl),
      (calcular_estatisticas_run _ _ _ Hl'). cbn [fst].
    by rewrite (estatisticas_de_Permutation _ _ Hc Hp).
  - destruct (obter_distribuicao_mes_run _ _ _ Hl) as (junk & ->).
    destruct (obter_distribuicao_mes_run _ _ _ Hl') as (junk' & ->).
    cbn [fst]. by rewrite (distribuicao_mes_de_Permutation _ _ Hc Hp).
Qed.

(** The neighbourhood groups do depend on the order: they come in the
    order of first occurrence. *)
Example row_order_of_neighbourhoods :
  entradas ["bairro"] (fst (obter_dados_bairros 0 [quadro_ordem]))
  = [[Some (PStr "Pituba")]; [Some (PStr "Barra")]] ∧
  entradas ["bairro"]
    (fst (obter_dados_bairros 0 [ao_contrario quadro_ordem]))
  = [[Some (PStr "Pituba")]; [Some (PStr "Barra")]].
Proof. split; by vm_compute. Qed.

(** ** The number of neighbourhoods *)

Lemma omap_id_filter {A} (f : option A → bool) (g : A → bool)
    (l : list (option A)) :
  (∀ b, f (Some b) = g b) →
  omap id (List.filter f l) = List.filter g (omap id l).
Proof.
  intros Hfg. induction l as [| [b |] l IH]; [done | |].
  - cbn [List.filter]. csimpl. rewrite (Hfg b).
    destruct (g b); csimpl; by rewrite IH.
  - cbn [List.filter]. destruct (f None); csimpl; exact IH.
Qed.

Lemma omap_id_unique {A} `{EqDecision A} (l : list (option A)) :
  omap id (unique l) = unique (omap id l).
Proof.
  induction l as [| [a |] l IH]; [done | |].
  - cbn [unique]. csimpl.
    rewrite (omap_id_filter _ (λ y, negb (bool_decide (y = a)))), IH.
    + done.
    + intros b. f_equal. apply bool_decide_ext. split; congruence.
  - cbn [unique]. csimpl.
    rewrite (omap_id_filter _ (λ _, true)), IH by done.
    apply filter_all. done.
Qed.

Lemma nomes_dos_grupos_dados_bairros_de (d : DataFrame) :
  omap id (nomes_dos_grupos "bairro" (dados_bairros_de d))
  = if df_empty d || negb (has_column "bairro" d) then []
    else unique (omap id (map bairro (rows d))).
Proof.
  destruct (has_column "bairro" d) eqn:Hcol.
  - rewrite (nomes_dados_bairros_de d Hcol), omap_id_unique.
    rewrite orb_false_r.
    destruct (df_empty d) eqn:Hemp; [| done].
    by rewrite (rows_of_empty_frame _ _ Hcol Hemp).
  - unfold dados_bairros_de. by rewrite Hcol, orb_true_r.
Qed.

(** X13: the statistics and the neighbourhood groups agree:
    [bairros_unicos] is the number of groups of [obter_dados_bairros]
    that have a name. *)
Theorem bairros_unicos_counts_named_groups (h : heap) (l : nat)
    (d : DataFrame) :
  h !! l = Some d →
  ∃ stats grupos junk junk',
    calcular_estatisticas l h = (Ok stats, h ++ junk) ∧
    obter_dados_bairros l h = (Ok grupos, h ++ junk') ∧
    stats !! "bairros_unicos"
    = Some (PInt (Z.of_nat
                    (length (omap id (nomes_dos_grupos "bairro" grupos))))).
Proof.
  intros Hl.
  destruct (obter_dados_bairros_run _ _ _ Hl) as (junk' & Hrun').
  eexists _, _, _, junk'.
  split; [apply (calcular_estatisticas_run _ _ _ Hl) |].
  split; [exact Hrun' |].
  rewrite estatisticas_de_bairros_unicos, nomes_dos_grupos_dados_bairros_de.
  rewrite <- nunique_bairros_de. unfold nunique.
  destruct (has_column "bairro" d) eqn:Hcol;
    [| by rewrite orb_true_r].
  rewrite orb_false_r.
  destruct (df_empty d) eqn:Hemp; [| done].
  by rewrite (rows_of_empty_frame _ _ Hcol Hemp).
Qed.

(** ** The loader: columns *)

Lemma columns_completar_coluna (df : DataFrame) (col : string) :
  columns (completar_coluna df col)
  = if has_column col df then columns df else columns df ++ [col].
Proof. unfold completar_coluna. by destruct (has_column col df). Qed.

Lemma has_column_spec (c : string) (d : DataFrame) :
  has_column c d = true ↔ c ∈ columns d.
Proof. unfold has_column. apply bool_decide_eq_true. Qed.

Lemma has_column_false (c : string) (d : DataFrame) :
  has_column c d = false ↔ c ∉ columns d.
Proof. unfold has_column. apply bool_decide_eq_false. Qed.

Lemma completar_coluna_keeps (df : DataFrame) (col c : string) :
  c ∈ columns df → c ∈ columns (completar_coluna df col).
Proof.
  intros Hc. rewrite columns_completar_coluna.
  destruct (has_column col df); [done |]. apply elem_of_app. by left.
Qed.

Lemma completar_coluna_adds (df : DataFrame) (col : string) :
  col ∈ columns (completar_coluna df col).
Proof.
  rewrite columns_completar_coluna.
  destruct (has_column col df) eqn:Hcol.
  - by apply has_column_spec.
  - apply elem_of_app. right. by apply list_elem_of_singleton.
Qed.

Lemma fold_completar_keeps (cols : list string) (df : DataFrame) (c : string) :
  c ∈ columns df → c ∈ columns (fold_left completar_coluna cols df).
Proof.
  revert df. induction cols as [| col cols IH]; intros df Hc; [done |].
  simpl. apply IH. by apply completar_coluna_keeps.
Qed.

Lemma fold_completar_adds (cols : list string) (df : DataFrame) (c : string) :
  c ∈ cols → c ∈ columns (fold_left completar_coluna cols df).
Proof.
  revert df. induction cols as [| col cols IH]; intros df Hc.
  - by apply elem_of_nil in Hc.
  - simpl. apply elem_of_cons in Hc as [-> | Hc].
    + apply fold_completar_keeps, completar_coluna_adds.
    + by apply IH.
Qed.

Lemma fold_completar_prefix (cols : list string) (df : DataFrame) :
  ∃ novas,
    columns (fold_left completar_coluna cols df) = columns df ++ novas ∧
    Forall (λ c, c ∈ cols ∧ c ∉ columns df) novas.
Proof.
  revert df. induction cols as [| col cols IH]; intros df.
  - exists []. split; [by rewrite app_nil_r | constructor].
  - simpl. destruct (IH (completar_coluna df col)) as (novas & Heq & Hall).
    rewrite columns_completar_coluna in Heq, Hall.
    destruct (has_column col df) eqn:Hcol.
    + exists novas. split; [exact Heq |].
      eapply Forall_impl; [exact Hall |].
      intros c [Hc Hn]. split; [by right | done].
    + exists (col :: novas). split; [by rewrite Heq, <- app_assoc |].
      constructor.
      * split; [by left | by apply has_column_false].
      * eapply Forall_impl; [exact Hall |].
        intros c [Hc Hn]. split; [by right |].
        intros Hin. apply Hn. apply elem_of_app. by left.
Qed.

Lemma sem_valor_ausente (col : string) (r : Row) :
  celula_ausente col (sem_valor col r).
Proof.
  unfold celula_ausente, sem_valor.
  split; [| split; [| split; [| split]]]; intros ->; reflexivity.
Qed.

Lemma sem_valor_keeps_ausente (col c : string) (r : Row) :
  celula_ausente col r → celula_ausente col (sem_valor c r).
Proof.
  unfold celula_ausente, sem_valor.
  intros (H1 & H2 & H3 & H4 & H5).
  split; [| split; [| split; [| split]]]; intros Hc; simpl.
  - rewrite (H1 Hc). by destruct (String.eqb c "bairro").
  - rewrite (H2 Hc). by destruct (String.eqb c "ponto_de_coleta").
  - rewrite (H3 Hc). by destruct (String.eqb c "parametro").
  - rewrite (H4 Hc). by destruct (String.eqb c "resultado").
  - rewrite (H5 Hc). by destruct (String.eqb c "resultado_numerico").
Qed.

Lemma completar_coluna_keeps_ausente (df : DataFrame) (col c : string) :
  Forall (celula_ausente col) (rows df) →
  Forall (celula_ausente col) (rows (completar_coluna df c)).
Proof.
  intros H. unfold completar_coluna.
  destruct (has_column c df); [done |]. simpl.
  apply Forall_fmap. eapply Forall_impl; [exact H |].
  intros r Hr. by apply sem_valor_keeps_ausente.
Qed.

Lemma fold_completar_keeps_ausente (cols : list string) (df : DataFrame)
    (col : string) :
  Forall (celula_ausente col) (rows df) →
  Forall (celula_ausente col) (rows (fold_left completar_coluna cols df)).
Proof.
  revert df. induction cols as [| c cols IH]; intros df H; [done |].
  simpl. by apply IH, completar_coluna_keeps_ausente.
Qed.

Lemma fold_completar_ausente (cols : list string) (df : DataFrame)
    (col : string) :
  col ∈ cols → has_column col df = false →
  Forall (celula_ausente col) (rows (fold_left completar_coluna cols df)).
Proof.
  revert df. induction cols as [| c cols IH]; intros df Hin Hcol.
  - by apply elem_of_nil in Hin.
  - simpl. destruct (decide (c = col)) as [-> | Hne].
    + apply fold_completar_keeps_ausente.
      unfold completar_coluna. rewrite Hcol. simpl.
      apply Forall_fmap, Forall_true. intros r. apply sem_valor_ausente.
    + apply elem_of_cons in Hin as [-> | Hin]; [done |].
      apply IH; [exact Hin |].
      apply has_column_false. rewrite columns_completar_coluna.
      apply has_column_false in Hcol.
      destruct (has_column c df); [done |].
      intros [H | H%list_elem_of_singleton]%elem_of_app; [done | congruence].
Qed.

Lemma carregar_dados_sem_filtros (df : DataFrame) :
  carregar_dados (Ok df) None = fold_left completar_coluna expected_cols df.
Proof. reflexivity. Qed.

Lemma columns_select_rows (mask : Row → bool) (d : DataFrame) :
  columns (select_rows mask d) = columns d.
Proof. reflexivity. Qed.

Lemma columns_filtrar_numerico (col : string)
    (cell : Row → option F64.float) (v : jval) (df df' : DataFrame) :
  filtrar_numerico col cell v df = Ok df' → columns df' = columns df.
Proof.
  unfold filtrar_numerico. destruct (has_column col df); [| by intros [= ->]].
  destruct (py_int v); [| done]. by intros [= <-].
Qed.

Lemma columns_filtrar_texto (col : string) (cell : Row → option string)
    (v : jval) (df : DataFrame) :
  columns (filtrar_texto col cell v df) = columns df.
Proof. unfold filtrar_texto. by destruct (has_column col df). Qed.

Lemma columns_aplicar_filtros (filtros : option (gmap string jval))
    (df df' : DataFrame) :
  aplicar_filtros filtros df = Ok df' → columns df' = columns df.
Proof.
  unfold aplicar_filtros. destruct filtros as [f |]; [| by intros [= ->]].
  case_bool_decide; [by intros [= ->] |].
  destruct (match filtro_ativo f "ano" with
            | Some v => filtrar_numerico "ano" ano v df
            | None => Ok df
            end) as [df1 | e] eqn:H1; [| done].
  assert (columns df1 = columns df) as <-.
  { destruct (filtro_ativo f "ano"); [| by injection H1 as <-].
    by apply columns_filtrar_numerico in H1. }
  cbn [rbind].
  destruct (match filtro_ativo f "mes" with
            | Some v => filtrar_numerico "mes" mes v df1
            | None => Ok df1
            end) as [df2 | e] eqn:H2; [| done].
  assert (columns df2 = columns df1) as <-.
  { destruct (filtro_ativo f "mes"); [| by injection H2 as <-].
    by apply columns_filtrar_numerico in H2. }
  cbn [rbind]. intros [= <-].
  destruct (filtro_ativo f "bairro"), (filtro_ativo f "parametro");
    by rewrite ?columns_filtrar_texto.
Qed.

Lemma carregar_dados_cases (csv : result DataFrame)
    (filtros : option (gmap string jval)) :
  carregar_dados csv filtros = quadro_vazio ∨
  ∃ df df', csv = Ok df ∧ aplicar_filtros filtros df = Ok df' ∧
            carregar_dados csv filtros
            = fold_left completar_coluna expected_cols df'.
Proof.
  unfold carregar_dados, carregar_dados_body.
  destruct csv as [df | e]; [| left; by destruct e].
  cbn [rbind].
  destruct (aplicar_filtros filtros df) as [df' | e] eqn:Ha.
  - right. by exists df, df'.
  - left. by destruct e.
Qed.

(** X14: whatever the file and the filters, the loaded frame has the ten
    expected columns.  Without filters it keeps the columns of the file
    in their order and appends the expected ones that the file lacks, it
    keeps the number of rows, and an appended column is missing in every
    row. *)
Theorem loader_columns (csv : result DataFrame)
    (filtros : option (gmap string jval)) (df : DataFrame) :
  Forall (λ c, has_column c (carregar_dados csv filtros) = true)
    expected_cols ∧
  (∃ novas,
     columns (carregar_dados (Ok df) None) = columns df ++ novas ∧
     Forall (λ c, c ∈ expected_cols ∧ c ∉ columns df) novas) ∧
  length (rows (carregar_dados (Ok df) None)) = length (rows df) ∧
  Forall (λ c, has_column c df = false →
               Forall (celula_ausente c) (rows (carregar_dados (Ok df) None)))
    expected_cols.
Proof.
  split; [| split; [| split]].
  - apply Forall_forall. intros c Hc. apply has_column_spec.
    destruct (carregar_dados_cases csv filtros)
      as [-> | (df0 & df' & _ & _ & ->)].
    + revert c Hc. apply Forall_forall. unfold expected_cols, quadro_vazio.
      cbn [columns]. repeat constructor; in_list.
    + by apply fold_completar_adds.
  - rewrite carregar_dados_sem_filtros. apply fold_completar_prefix.
  - rewrite carregar_dados_sem_filtros.
    generalize expected_cols. intros cols. revert df.
    induction cols as [| c cols IH]; intros df; [done |].
    simpl. rewrite IH. unfold completar_coluna.
    destruct (has_column c df); [done |]. simpl. apply length_map.
  - apply Forall_forall. intros c Hc Hcol.
    rewrite carregar_dados_sem_filtros. by apply fold_completar_ausente.
Qed.

(** The frame of the examples lacks the coordinates, the date, the unit
    and the identifier. *)
Example loader_columns_example :
  columns (carregar_dados (Ok quadro_ordem) None)
  = columns quadro_ordem
    ++ ["latitude"; "longitude"; "data_da_coleta"; "unidade_de_medida";
        "id"].
Proof. by vm_compute. Qed.

(** ** The loader: errors *)

Lemma filtro_ativo_not_empty (f : gmap string jval) (k : string) (v : jval) :
  filtro_ativo f k = Some v → f ≠ ∅.
Proof.
  unfold filtro_ativo. intros H ->. by rewrite lookup_empty in H.
Qed.

Lemma aplicar_filtros_raises (f : gmap string jval) (df : DataFrame)
    (col : string) (v : jval) (e : exn) :
  col ∈ ["ano"; "mes"] →
  filtro_ativo f col = Some v → py_int v = Raise e →
  has_column col df = true →
  ∃ e', aplicar_filtros (Some f) df = Raise e'.
Proof.
  intros Hc Hf Hv Hcol. unfold aplicar_filtros.
  rewrite bool_decide_eq_false_2 by (by eapply filtro_ativo_not_empty).
  apply elem_of_cons in Hc as [-> | Hc].
  - rewrite Hf. unfold filtrar_numerico. rewrite Hcol, Hv. by eexists.
  - apply list_elem_of_singleton in Hc as ->.
    destruct (match filtro_ativo f "ano" with
              | Some v => filtrar_numerico "ano" ano v df
              | None => Ok df
              end) as [df1 | e1] eqn:H1; [| by eexists].
    assert (columns df1 = columns df) as Hcols.
    { destruct (filtro_ativo f "ano"); [| by injection H1 as <-].
      by apply columns_filtrar_numerico in H1. }
    cbn [rbind]. rewrite Hf. unfold filtrar_numerico.
    rewrite (has_column_columns _ _ _ Hcols), Hcol, Hv. by eexists.
Qed.

(** X15: the loader answers every failure with the empty frame of twelve
    columns: when the file cannot be read, whatever the error, and when
    an active year or month filter is not an integer while the file has
    the column.  It never raises. *)
Theorem loader_error_path (csv : result DataFrame)
    (filtros : option (gmap string jval)) :
  (∃ df, try_except_Exception
           (try_except (carregar_dados_body csv filtros)
              [FileNotFoundError] (Ok quadro_vazio))
           (Ok quadro_vazio) = Ok df) ∧
  (∀ e, csv = Raise e → carregar_dados csv filtros = quadro_vazio) ∧
  (∀ df f col v e,
     csv = Ok df → filtros = Some f →
     col ∈ ["ano"; "mes"] →
     filtro_ativo f col = Some v → py_int v = Raise e →
     has_column col df = true →
     carregar_dados csv filtros = quadro_vazio).
Proof.
  split; [| split].
  - destruct (carregar_dados_body csv filtros) as [df | e]; simpl.
    + by eexists.
    + destruct e; by eexists.
  - intros e ->. by destruct e.
  - intros df f col v e -> -> Hc Hf Hv Hcol.
    destruct (aplicar_filtros_raises f df col v e Hc Hf Hv Hcol) as (e' & He).
    unfold carregar_dados, carregar_dados_body. cbn [rbind].
    rewrite He. by destruct e'.
Qed.

(** ** The loader: filters *)

Lemma select_rows_all (mask : Row → bool) (d : DataFrame) :
  (∀ r, mask r = true) → select_rows mask d = d.
Proof.
  intros H. destruct d as [cols rs]. unfold select_rows. simpl.
  f_equal. apply filter_all. intros r _. apply H.
Qed.

Lemma filter_filter_andb {A} (P Q : A → bool) (l : list A) :
  List.filter P (List.filter Q l) = List.filter (λ x, Q x && P x) l.
Proof.
  induction l as [| x l IH]; [done |]. simpl.
  destruct (Q x); simpl; [| exact IH]. destruct (P x); by rewrite IH.
Qed.

Lemma select_rows_select_rows (P Q : Row → bool) (d : DataFrame) :
  select_rows P (select_rows Q d) = select_rows (λ r, Q r && P r) d.
Proof. unfold select_rows. simpl. by rewrite filter_filter_andb. Qed.

Lemma passo_numerico (col : string) (cell : Row → option F64.float)
    (f : gmap string jval) (df df' : DataFrame) :
  columns df' = columns df →
  (∀ v, filtro_ativo f col = Some v → has_column col df = true →
        ∃ n, py_int v = Ok n) →
  match filtro_ativo f col with
  | Some v => filtrar_numerico col cell v df'
  | None => Ok df'
  end = Ok (select_rows (passa_numerico col cell f df) df').
Proof.
  intros Hc Hint. unfold passa_numerico, filtrar_numerico.
  rewrite (has_column_columns col _ _ Hc).
  destruct (filtro_ativo f col) as [v |]; [| by rewrite select_rows_all].
  destruct (has_column col df) eqn:Hcol; [| by rewrite select_rows_all].
  destruct (Hint v eq_refl eq_refl) as (n & ->).
  f_equal. unfold select_rows. simpl. f_equal.
  apply filter_filter_implied. intros r. apply num_eq_not_na.
Qed.

Lemma passo_texto (col : string) (cell : Row → option string)
    (f : gmap string jval) (df df' : DataFrame) :
  columns df' = columns df →
  match filtro_ativo f col with
  | Some v => filtrar_texto col cell v df'
  | None => df'
  end = select_rows (passa_texto col cell f df) df'.
Proof.
  intros Hc. unfold passa_texto, filtrar_texto.
  rewrite (has_column_columns col _ _ Hc).
  destruct (filtro_ativo f col) as [v |]; [| by rewrite select_rows_all].
  destruct (has_column col df); [done | by rewrite select_rows_all].
Qed.

Lemma aplicar_filtros_passa (f : gmap string jval) (df : DataFrame) :
  (∀ col v, col ∈ ["ano"; "mes"] →
            filtro_ativo f col = Some v → has_column col df = true →
            ∃ n, py_int v = Ok n) →
  aplicar_filtros (Some f) df = Ok (select_rows (passa_filtros f df) df).
Proof.
  intros Hint. unfold aplicar_filtros. case_bool_decide as Hf.
  - subst f. rewrite select_rows_all; [done |]. intros r.
    unfold passa_filtros, passa_numerico, passa_texto, filtro_ativo.
    by rewrite !lookup_empty.
  - rewrite (passo_numerico "ano" ano f df df eq_refl)
      by (intros v; apply (Hint "ano" v); in_list).
    cbn [rbind].
    set (d1 := select_rows (passa_numerico "ano" ano f df) df).
    rewrite (passo_numerico "mes" mes f df d1 eq_refl)
      by (intros v; apply (Hint "mes" v); in_list).
    cbn [rbind].
    set (d2 := select_rows (passa_numerico "mes" mes f df) d1).
    rewrite (passo_texto "bairro" bairro f df d2 eq_refl).
    set (d3 := select_rows (passa_texto "bairro" bairro f df) d2).
    rewrite (passo_texto "parametro" parametro f df d3 eq_refl).
    unfold d3, d2, d1.
    rewrite !select_rows_select_rows.
    f_equal. unfold select_rows. f_equal.
    apply filter_ext_elem. intros r _. unfold passa_filtros.
    by rewrite !andb_assoc.
Qed.

(** X16: the filters act together as one test on each row: when every
    active year or month filter is an integer, the loader keeps exactly
    the rows of the file that pass all active filters, in their order,
    and then completes the columns.  A row whose year or month is
    missing passes no active filter on that column. *)
Theorem filters_are_conjunctive (f : gmap string jval) (df : DataFrame) :
  (∀ col v, col ∈ ["ano"; "mes"] →
            filtro_ativo f col = Some v → has_column col df = true →
            ∃ n, py_int v = Ok n) →
  aplicar_filtros (Some f) df = Ok (select_rows (passa_filtros f df) df) ∧
  carregar_dados (Ok df) (Some f)
  = fold_left completar_coluna expected_cols
      (select_rows (passa_filtros f df) df) ∧
  (∀ r v n, r ∈ rows df →
     filtro_ativo f "ano" = Some v → has_column "ano" df = true →
     py_int v = Ok n → isna_num (ano r) = true →
     passa_filtros f df r = false).
Proof.
  intros Hint. pose proof (aplicar_filtros_passa f df Hint) as Ha.
  split; [exact Ha |]. split.
  - unfold carregar_dados, carregar_dados_body. cbn [rbind].
    by rewrite Ha.
  - intros r v n _ Hf Hcol Hv Hna.
    unfold passa_filtros, passa_numerico. rewrite Hf, Hcol, Hv.
    destruct (num_eq (ano r) n) eqn:Hn; [| done].
    apply num_eq_not_na in Hn. by rewrite Hna in Hn.
Qed.

(** Two filters together keep the one row of February in Pituba. *)
Example filters_are_conjunctive_example :
  map (λ r, (bairro r, mes r))
    (rows (carregar_dados (Ok quadro_ordem)
             (Some (<["mes" := JStr "2"]> {["bairro" := JStr "Pituba"]}))))
  = [(Some "Pituba", Some (F64.of_Z 2))].
Proof. by vm_compute. Qed.

(** ** The routes of the aggregators *)

Lemma api_run {A} (agg : nat → M (list A)) (value : DataFrame → list A)
    (csv : result DataFrame) (args : gmap string string) (h : heap) :
  (∀ h l d, h !! l = Some d → ∃ junk, agg l h = (Ok (value d), h ++ junk)) →
  ∃ junk,
    try_M (let filtros_req := to_dict args in
           let* df := carregar_dados_novo csv (Some filtros_req) in
           let* r := agg df in
           ret r)
      (ret []) h
    = (Ok (value (carregar_dados csv (Some (to_dict args)))), h ++ junk).
Proof.
  intros Hrun. cbv zeta. unfold try_M, carregar_dados_novo.
  set (df := carregar_dados csv (Some (to_dict args))).
  assert (alloc df h = (Ok (length h), h ++ [df])) as Ha by done.
  run_with Ha.
  destruct (Hrun (h ++ [df]) (length h) df (lookup_snoc h df)) as (junk & Hr).
  run_with Hr. exists (df :: junk).
  unfold ret. by rewrite <- app_assoc.
Qed.

(** X17: each of the three routes returns what its aggregator gives for
    the frame loaded with the query string as filters, and never raises;
    when the file cannot be read the answer is the empty list. *)
Theorem api_routes (csv : result DataFrame) (args : gmap string string)
    (h : heap) :
  let df := carregar_dados csv (Some (to_dict args)) in
  (∃ junk, api_bairros csv args h = (Ok (dados_bairros_de df), h ++ junk)) ∧
  (∃ junk, api_distribuicao_mes csv args h
           = (Ok (distribuicao_mes_de df), h ++ junk)) ∧
  (∃ junk, api_distribuicao_ponto_coleta csv args h
           = (Ok (distribuicao_ponto_coleta_de df), h ++ junk)) ∧
  (∀ e, csv = Raise e →
     fst (api_bairros csv args h) = Ok [] ∧
     fst (api_distribuicao_mes csv args h) = Ok [] ∧
     fst (api_distribuicao_ponto_coleta csv args h) = Ok []).
Proof.
  cbv zeta.
  assert (∃ junk, api_bairros csv args h
                  = (Ok (dados_bairros_de
                           (carregar_dados csv (Some (to_dict args)))),
                     h ++ junk)) as Hb
    by exact (api_run obter_dados_bairros dados_bairros_de csv args h
                obter_dados_bairros_run).
  assert (∃ junk, api_distribuicao_mes csv args h
                  = (Ok (distribuicao_mes_de
                           (carregar_dados csv (Some (to_dict args)))),
                     h ++ junk)) as Hm
    by exact (api_run obter_distribuicao_mes distribuicao_mes_de csv args h
                obter_distribuicao_mes_run).
  assert (∃ junk, api_distribuicao_ponto_coleta csv args h
                  = (Ok (distribuicao_ponto_coleta_de
                           (carregar_dados csv (Some (to_dict args)))),
                     h ++ junk)) as Hp
    by exact (api_run obter_distribuicao_ponto_coleta
                distribuicao_ponto_coleta_de csv args h
                obter_distribuicao_ponto_coleta_run).
  split; [exact Hb |]. split; [exact Hm |]. split; [exact Hp |].
  intros e ->.
  destruct Hb as (jb & ->), Hm as (jm & ->), Hp as (jp & ->).
  cbn [fst].
  assert (carregar_dados (Raise e) (Some (to_dict args)) = quadro_vazio)
    as -> by (by destruct e).
  done.
Qed.

(** The routes on the frame of the examples, for the query string
    [?bairro=Barra&ano=todos]. *)
Example api_routes_example :
  let args : gmap string string :=
    <["bairro" := "Barra"]> {["ano" := "todos"]} in
  entradas ["bairro"; "total_analises"]
    (fst (api_bairros (Ok quadro_ordem) args []))
  = [[Some (PStr "Barra"); Some (PInt 1)]] ∧
  entradas ["mes"; "nome_mes"; "total_amostras"]
    (fst (api_distribuicao_mes (Ok quadro_ordem) args []))
  = [[Some (PInt 2); Some (PStr "Fevereiro"); Some (PInt 1)]] ∧
  entradas ["ponto_de_coleta"; "total_analises"]
    (fst (api_distribuicao_ponto_coleta (Ok quadro_ordem) args []))
  = [[Some (PStr "P1"); Some (PInt 1)]].
Proof. split; [| split]; by vm_compute. Qed.

(** ** The list of neighbourhoods of the main page *)

Lemma ascii_compare_refl (a : ascii) : Ascii.compare a a = Eq.
Proof. unfold Ascii.compare. apply N.compare_refl. Qed.

Lemma ascii_compare_lt_trans (a b c : ascii) :
  Ascii.compare a b = Lt → Ascii.compare b c = Lt → Ascii.compare a c = Lt.
Proof.
  unfold Ascii.compare. rewrite !N.compare_lt_iff. apply N.lt_trans.
Qed.

Lemma string_compare_trans (s1 s2 s3 : string) :
  String.compare s1 s2 ≠ Gt → String.compare s2 s3 ≠ Gt →
  String.compare s1 s3 ≠ Gt.
Proof.
  revert s2 s3. induction s1 as [| a s1 IH]; intros [| b s2] [| c s3];
    simpl; try done.
  destruct (Ascii.compare a b) eqn:Hab; [| | done].
  - apply Ascii.compare_eq_iff in Hab as ->.
    destruct (Ascii.compare b c) eqn:Hbc; [| done | done].
    apply IH.
  - destruct (Ascii.compare b c) eqn:Hbc; [| | done].
    + apply Ascii.compare_eq_iff in Hbc as ->. by rewrite Hab.
    + by rewrite (ascii_compare_lt_trans _ _ _ Hab Hbc).
Qed.

Lemma str_le_compare (a b : string) : str_le a b ↔ String.compare a b ≠ Gt.
Proof.
  unfold str_le, String.leb. by destruct (String.compare a b).
Qed.

Lemma str_le_trans : Transitive str_le.
Proof.
  intros a b c. rewrite !str_le_compare. apply string_compare_trans.
Qed.

Lemma str_le_total : Total str_le.
Proof. intros a b. apply String.leb_total. Qed.

Lemma str_le_antisym (a b : string) : str_le a b → str_le b a → a = b.
Proof. apply String.leb_antisym. Qed.

Lemma elem_of_bairros_lista (df : DataFrame) (nome : string) :
  nome ∈ bairros_lista df
  ↔ has_column "bairro" df = true ∧ nome ∈ bairros_de (rows df).
Proof.
  unfold bairros_lista, sorted. cbv zeta.
  destruct (has_column "bairro" df) eqn:Hcol; cbn [andb].
  - destruct (rows df) as [| r l] eqn:Hrows.
    + cbn [map series_empty negb]. rewrite elem_of_bairros_de.
      split; [by intros ?%elem_of_nil |].
      intros (_ & r & Hr & _). by apply elem_of_nil in Hr.
    + cbn [map series_empty negb].
      rewrite merge_sort_Permutation, elem_of_unique.
      unfold bairros_de. rewrite elem_of_list_to_set.
      split; [by intros ? | by intros [_ ?]].
  - rewrite elem_of_nil. split; [done | by intros [? _]].
Qed.

(** X18: the list of neighbourhoods of the main page is in increasing
    order without repetition, and it holds exactly the neighbourhood
    names of the rows when the frame has the neighbourhood column;
    otherwise it is empty.  Its length is the [bairros_unicos] of the
    statistics. *)
Theorem bairros_lista_sorted (df : DataFrame) :
  StronglySorted str_le (bairros_lista df) ∧
  NoDup (bairros_lista df) ∧
  (∀ nome, nome ∈ bairros_lista df
           ↔ has_column "bairro" df = true ∧
             ∃ r, r ∈ rows df ∧ bairro r = Some nome) ∧
  estatisticas_de df !! "bairros_unicos"
  = Some (PInt (Z.of_nat (length (bairros_lista df)))).
Proof.
  split; [| split; [| split]].
  - unfold bairros_lista, sorted. cbv zeta.
    destruct (_ && _); [| constructor].
    apply StronglySorted_merge_sort; [apply str_le_trans | apply str_le_total].
  - unfold bairros_lista, sorted. cbv zeta.
    destruct (_ && _); [| constructor].
    rewrite merge_sort_Permutation. apply NoDup_unique.
  - intros nome. by rewrite elem_of_bairros_lista, elem_of_bairros_de.
  - rewrite estatisticas_de_bairros_unicos, <- nunique_bairros_de.
    unfold bairros_lista, sorted, nunique. cbv zeta.
    destruct (has_column "bairro" df); cbn [andb]; [| done].
    destruct (map bairro (rows df)) as [| o os]; [done |].
    cbn [series_empty negb].
    by rewrite (Permutation_length (merge_sort_Permutation _ _)).
Qed.

Example bairros_lista_example :
  bairros_lista quadro_ordem = ["Barra"; "Pituba"] ∧
  bairros_lista quadro_sem_chave = [] ∧
  bairros_lista quadro_vazio = [].
Proof. split; [| split]; by vm_compute. Qed.

(** ** The absence rule and the case of the result *)

Lemma upper_char_idempotent (c : ascii) :
  PyStr.upper_char (PyStr.upper_char c) = PyStr.upper_char c.
Proof. destruct c as [[] [] [] [] [] [] [] []]; reflexivity. Qed.

Lemma upper_lower_char (c : ascii) :
  PyStr.upper_char (PyStr.lower_char c) = PyStr.upper_char c.
Proof. destruct c as [[] [] [] [] [] [] [] []]; reflexivity. Qed.

Lemma is_space_upper_char (c : ascii) :
  PyStr.is_space (PyStr.upper_char c) = PyStr.is_space c.
Proof. destruct c as [[] [] [] [] [] [] [] []]; reflexivity. Qed.

Lemma is_space_lower_char (c : ascii) :
  PyStr.is_space (PyStr.lower_char c) = PyStr.is_space c.
Proof. destruct c as [[] [] [] [] [] [] [] []]; reflexivity. Qed.

Lemma lstrip_map_chars (f : ascii → ascii) (sp : ascii → bool) (s : string) :
  (∀ c, sp (f c) = sp c) →
  PyStr.lstrip_with sp (PyStr.map_chars f s)
  = PyStr.map_chars f (PyStr.lstrip_with sp s).
Proof.
  intros Hsp. induction s as [| c s IH]; [done |].
  cbn [PyStr.map_chars PyStr.lstrip_with]. rewrite Hsp.
  by destruct (sp c).
Qed.

Lemma rstrip_map_chars (f : ascii → ascii) (sp : ascii → bool) (s : string) :
  (∀ c, sp (f c) = sp c) →
  PyStr.rstrip_with sp (PyStr.map_chars f s)
  = PyStr.map_chars f (PyStr.rstrip_with sp s).
Proof.
  intros Hsp. induction s as [| c s IH]; [done |].
  cbn [PyStr.map_chars PyStr.rstrip_with]. rewrite IH, Hsp.
  destruct (PyStr.rstrip_with sp s); [by destruct (sp c) | done].
Qed.

Lemma strip_map_chars (f : ascii → ascii) (s : string) :
  (∀ c, PyStr.is_space (f c) = PyStr.is_space c) →
  PyStr.strip_ascii (PyStr.map_chars f s) = PyStr.map_chars f (PyStr.strip_ascii s).
Proof.
  intros Hsp. unfold PyStr.strip_ascii.
  by rewrite lstrip_map_chars, rstrip_map_chars.
Qed.

Lemma map_chars_compose (f g : ascii → ascii) (s : string) :
  PyStr.map_chars f (PyStr.map_chars g s)
  = PyStr.map_chars (λ c, f (g c)) s.
Proof. induction s as [| c s IH]; [done |]. simpl. by rewrite IH. Qed.

Lemma map_chars_ext (f g : ascii → ascii) (s : string) :
  (∀ c, f c = g c) → PyStr.map_chars f s = PyStr.map_chars g s.
Proof.
  intros Hfg. induction s as [| c s IH]; [done |]. simpl. by rewrite Hfg, IH.
Qed.

Lemma upper_strip_upper (r : string) :
  PyStr.upper_ascii (PyStr.strip_ascii (PyStr.upper_ascii r)) = PyStr.upper_ascii (PyStr.strip_ascii r).
Proof.
  unfold PyStr.upper_ascii.
  rewrite strip_map_chars by apply is_space_upper_char.
  rewrite map_chars_compose. apply map_chars_ext, upper_char_idempotent.
Qed.

Lemma upper_strip_lower (r : string) :
  PyStr.upper_ascii (PyStr.strip_ascii (PyStr.lower_ascii r)) = PyStr.upper_ascii (PyStr.strip_ascii r).
Proof.
  unfold PyStr.upper_ascii, PyStr.lower_ascii.
  rewrite strip_map_chars by apply is_space_lower_char.
  rewrite map_chars_compose. apply map_chars_ext, upper_lower_char.
Qed.

Lemma rstrip_idempotent (sp : ascii → bool) (s : string) :
  PyStr.rstrip_with sp (PyStr.rstrip_with sp s) = PyStr.rstrip_with sp s.
Proof.
  induction s as [| c s IH]; [done |].
  cbn [PyStr.rstrip_with].
  destruct (PyStr.rstrip_with sp s) as [| d u] eqn:Hu.
  - destruct (sp c) eqn:Hc; [done |].
    cbn [PyStr.rstrip_with]. by rewrite Hc.
  - cbn [PyStr.rstrip_with] in *. by rewrite IH.
Qed.

Lemma lstrip_rstrip_lstrip (sp : ascii → bool) (s : string) :
  PyStr.lstrip_with sp (PyStr.rstrip_with sp (PyStr.lstrip_with sp s))
  = PyStr.rstrip_with sp (PyStr.lstrip_with sp s).
Proof.
  induction s as [| c s IH]; [done |].
  cbn [PyStr.lstrip_with]. destruct (sp c) eqn:Hc; [exact IH |].
  cbn [PyStr.rstrip_with].
  destruct (PyStr.rstrip_with sp s) as [| d u];
    rewrite ?Hc; cbn [PyStr.lstrip_with]; by rewrite Hc.
Qed.

Lemma strip_idempotent (s : string) :
  PyStr.strip_ascii (PyStr.strip_ascii s) = PyStr.strip_ascii s.
Proof.
  unfold PyStr.strip_ascii. by rewrite lstrip_rstrip_lstrip, rstrip_idempotent.
Qed.

Lemma verificar_conformidade_ausencia (row : Row) (p v : string) :
  parametro row = Some p →
  VALORES_REFERENCIA !! p = Some (Ausencia v) →
  verificar_conformidade row
  = Ok (String.eqb
          (match resultado row with
           | Some r => PyStr.upper (PyStr.strip r)
           | None => ""
           end) v).
Proof.
  intros Hp Hr.
  unfold verificar_conformidade, verificar_conformidade_with,
    verificar_conformidade_body_with.
  by rewrite Hp, Hr.
Qed.

Lemma is_ascii_map_chars (f : ascii → ascii) (s : string) :
  (∀ c, PyStr.is_ascii_char (f c) = PyStr.is_ascii_char c) →
  PyStr.is_ascii (PyStr.map_chars f s) = PyStr.is_ascii s.
Proof.
  intros Hf. induction s as [| c s IH]; [done |].
  cbn [PyStr.map_chars PyStr.is_ascii]. by rewrite Hf, IH.
Qed.

Lemma is_ascii_char_upper (c : ascii) :
  PyStr.is_ascii_char (PyStr.upper_char c) = PyStr.is_ascii_char c.
Proof. destruct c as [[] [] [] [] [] [] [] []]; reflexivity. Qed.

Lemma is_ascii_char_lower (c : ascii) :
  PyStr.is_ascii_char (PyStr.lower_char c) = PyStr.is_ascii_char c.
Proof. destruct c as [[] [] [] [] [] [] [] []]; reflexivity. Qed.

Lemma is_ascii_lstrip (sp : ascii → bool) (s : string) :
  PyStr.is_ascii s = true → PyStr.is_ascii (PyStr.lstrip_with sp s) = true.
Proof.
  induction s as [| c s IH]; [done |]. intros Hs.
  cbn [PyStr.lstrip_with]. destruct (sp c); [| exact Hs].
  cbn [PyStr.is_ascii] in Hs. apply andb_true_iff in Hs as [_ Hs]. by apply IH.
Qed.

Lemma is_ascii_rstrip (sp : ascii → bool) (s : string) :
  PyStr.is_ascii s = true → PyStr.is_ascii (PyStr.rstrip_with sp s) = true.
Proof.
  induction s as [| c s IH]; [done |]. intros Hs.
  cbn [PyStr.is_ascii] in Hs. apply andb_true_iff in Hs as [Hc Hs].
  cbn [PyStr.rstrip_with]. specialize (IH Hs).
  destruct (PyStr.rstrip_with sp s) as [| d u].
  - destruct (sp c); [done |]. cbn [PyStr.is_ascii]. by rewrite Hc.
  - cbn [PyStr.is_ascii] in *. by rewrite Hc, IH.
Qed.

Lemma is_ascii_strip (s : string) :
  PyStr.is_ascii s = true → PyStr.is_ascii (PyStr.strip_ascii s) = true.
Proof. intros Hs. by apply is_ascii_rstrip, is_ascii_lstrip. Qed.

Lemma upper_strip_of_ascii (s : string) :
  PyStr.is_ascii s = true →
  PyStr.upper (PyStr.strip s) = PyStr.upper_ascii (PyStr.strip_ascii s).
Proof.
  intros Hs. unfold PyStr.upper, PyStr.strip.
  by rewrite Hs, (is_ascii_strip s Hs).
Qed.

(** X19: for a result written in ASCII the absence rule sees neither
    the case of the text nor the white space around it: writing the text
    in upper case, in lower case, or without the surrounding white space
    leaves the evaluation as it is. *)
Theorem absence_rule_ignores_case (row : Row) (p v r : string) :
  parametro row = Some p →
  VALORES_REFERENCIA !! p = Some (Ausencia v) →
  resultado row = Some r →
  PyStr.is_ascii r = true →
  verificar_conformidade (com_resultado row (Some (PyStr.upper r)))
  = verificar_conformidade row ∧
  verificar_conformidade (com_resultado row (Some (PyStr.lower r)))
  = verificar_conformidade row ∧
  verificar_conformidade (com_resultado row (Some (PyStr.strip r)))
  = verificar_conformidade row.
Proof.
  intros Hp Hr Hres Hascii.
  rewrite (verificar_conformidade_ausencia row p v Hp Hr).
  rewrite !(verificar_conformidade_ausencia (com_resultado row _) p v Hp Hr).
  cbn [resultado com_resultado]. rewrite Hres.
  rewrite (upper_strip_of_ascii r Hascii).
  assert (PyStr.upper r = PyStr.upper_ascii r) as ->
    by (unfold PyStr.upper; by rewrite Hascii).
  assert (PyStr.lower r = PyStr.lower_ascii r) as ->
    by (unfold PyStr.lower; by rewrite Hascii).
  assert (PyStr.strip r = PyStr.strip_ascii r) as ->
    by (unfold PyStr.strip; by rewrite Hascii).
  rewrite !upper_strip_of_ascii; try done.
  - by rewrite upper_strip_upper, upper_strip_lower, strip_idempotent.
  - by apply is_ascii_strip.
  - unfold PyStr.lower_ascii.
    by rewrite (is_ascii_map_chars _ _ is_ascii_char_lower).
  - unfold PyStr.upper_ascii.
    by rewrite (is_ascii_map_chars _ _ is_ascii_char_upper).
Qed.

End QualiAgua.

(* ===================================================================== *)
(** * Part IV. The theorems at concrete inputs *)
(* ===================================================================== *)

(** The statements of this part are closed: the text functions are those
    of [PyStr.ascii_everywhere], and every text they are applied to below
    is in ASCII, where they are the functions of Python. *)

#[local] Existing Instance PyStr.ascii_everywhere.

(** Membership in a list that is written out. *)
Ltac in_written_list :=
  unfold parametros_para_stats, parametros_para_bairros, parametros_para_mes,
    expected_cols;
  repeat first [apply list_elem_of_here | apply list_elem_of_further].

(** C1, as stated, fails: the sentinel of the table is ["AUSENTE"].  A
    result whose trimmed, uppercased form is ["ABSENT"] is evaluated to
    false under the absence rule, and ["AUSENTE"] is evaluated to true. *)
Lemma absence_sentinel_is_not_ABSENT :
  VALORES_REFERENCIA !! "Escherichia coli" = Some (Ausencia "AUSENTE") ∧
  PyStr.upper (PyStr.strip "ABSENT") = "ABSENT" ∧
  verificar_conformidade
    (amostra (Some "Escherichia coli") (Some "ABSENT") None) = Ok false ∧
  PyStr.upper (PyStr.strip "AUSENTE") ≠ "ABSENT" ∧
  verificar_conformidade
    (amostra (Some "Escherichia coli") (Some "AUSENTE") None) = Ok true.
Proof. repeat split; try by vm_compute. Qed.

Lemma absence_rule_witness :
  verificar_conformidade
    (amostra (Some "Coliformes totais") (Some "  ausente ") None) = Ok true.
Proof.
  apply (absence_rule
           (amostra (Some "Coliformes totais") (Some "  ausente ") None)
           "Coliformes totais" "AUSENTE"); [reflexivity | by vm_compute |].
  exists "  ausente ". split; [reflexivity | by vm_compute].
Defined.

Lemma unknown_parameter_witness :
  verificar_conformidade (amostra None (Some "AUSENTE") None) = Ok false ∧
  verificar_conformidade (amostra (Some "pH") (Some "AUSENTE") None)
    = Ok false.
Proof.
  split.
  - apply unknown_parameter. left. reflexivity.
  - apply unknown_parameter. right. right. exists "pH".
    split; [reflexivity | by vm_compute].
Defined.

Lemma numeric_rules_witness :
  verificar_conformidade (amostra (Some "Fluoreto (mg/L)") (Some "1,5") None)
    = Ok true ∧
  verificar_conformidade (amostra (Some "Fluoreto (mg/L)") (Some "1,51") None)
    = Ok false.
Proof.
  pose proof (numeric_rules
                (amostra (Some "Fluoreto (mg/L)") (Some "1,5") None)
                "Fluoreto (mg/L)" eq_refl) as (Hmax & _).
  pose proof (numeric_rules
                (amostra (Some "Fluoreto (mg/L)") (Some "1,51") None)
                "Fluoreto (mg/L)" eq_refl) as (Hmax' & _).
  rewrite (Hmax lit_1_5), (Hmax' lit_1_5);
    [by vm_compute | by vm_compute | by vm_compute].
Defined.

Lemma overall_compliance_witness :
  ∃ stats junk,
    calcular_estatisticas 0 [quadro_exemplo]
    = (Ok stats, [quadro_exemplo] ++ junk) ∧
    stats !! "total_amostras" = Some (PInt 2) ∧
    stats !! "conformidade_geral" = Some (PFloat (F64.of_Z 50)) ∧
    stats !! "nao_conformidade_geral" = Some (PFloat (F64.of_Z 50)).
Proof.
  destruct (overall_compliance [quadro_exemplo] 0 quadro_exemplo eq_refl)
    as (stats & junk & Hrun & Htot & _ & Hne).
  exists stats, junk. split; [exact Hrun |]. split; [exact Htot |].
  destruct Hne as [Hg Hn]; [done | done |].
  rewrite Hg, Hn. split; by vm_compute.
Defined.

Lemma aggregators_leave_input_unchanged_witness :
  snd (calcular_estatisticas 0 [quadro_exemplo]) !! 0%nat
  = Some quadro_exemplo ∧
  snd (obter_dados_bairros 0 [quadro_exemplo]) !! 0%nat
  = Some quadro_exemplo ∧
  snd (obter_distribuicao_mes 0 [quadro_exemplo]) !! 0%nat
  = Some quadro_exemplo ∧
  snd (obter_distribuicao_ponto_coleta 0 [quadro_exemplo]) !! 0%nat
  = Some quadro_exemplo.
Proof.
  exact (aggregators_leave_input_unchanged [quadro_exemplo] 0 0
           quadro_exemplo eq_refl).
Defined.

(** C6, as stated, fails for the collection points: the group of a point
    holds its name, its count and its overall percentage and nothing
    else.  Here both points have one sample, of E. coli and of turbidity,
    and neither group has an entry for any of the five parameters. *)
Lemma ponto_coleta_has_no_parameter_percentages :
  entradas
    (["ponto_de_coleta"; "total_analises"]
     ++ map (λ p, "percentual_" +:+ param_key p) parametros_para_bairros
     ++ ["percentual_ecoli"; "percentual_turbidez"])
    (fst (obter_distribuicao_ponto_coleta 0 [quadro_exemplo]))
  = [ [Some (PStr "P1"); Some (PInt 1);
       None; None; None; None; None; None; None];
      [Some (PStr "P2"); Some (PInt 1);
       None; None; None; None; None; None; None] ].
Proof. vm_compute. reflexivity. Qed.

Lemma per_parameter_percentages_witness :
  ∃ grupos junk,
    obter_dados_bairros 0 [quadro_exemplo]
    = (Ok grupos, [quadro_exemplo] ++ junk) ∧
    ∀ g, g ∈ grupos →
      ∃ nome, g !! "bairro" = Some (of_name nome) ∧
        ∀ p, p ∈ parametros_para_bairros →
          g !! ("percentual_" +:+ param_key p)
          = Some (percentual_esperado quadro_exemplo
                    (amostras_do_parametro
                       (λ r, cell_eq (bairro r) nome) p quadro_exemplo)).
Proof.
  exact (proj1 (per_parameter_percentages [quadro_exemplo] 0 quadro_exemplo
                  eq_refl)).
Defined.

(** C7, as stated, fails: a row without neighbourhood, collection point
    and month is in the record set and in no group of any of the three
    aggregators. *)
Lemma group_counts_miss_rows_without_key :
  df_len quadro_sem_chave = 1 ∧
  soma_do_resultado "total_analises"
    (fst (obter_dados_bairros 0 [quadro_sem_chave])) = 0 ∧
  soma_do_resultado "total_amostras"
    (fst (obter_distribuicao_mes 0 [quadro_sem_chave])) = 0 ∧
  soma_do_resultado "total_analises"
    (fst (obter_distribuicao_ponto_coleta 0 [quadro_sem_chave])) = 0.
Proof. split; [| split; [| split]]; by vm_compute. Qed.

Lemma group_counts_sum_witness :
  (∃ grupos junk,
     obter_dados_bairros 0 [quadro_exemplo]
     = (Ok grupos, [quadro_exemplo] ++ junk) ∧
     soma_contagens "total_analises" grupos = 2) ∧
  (∃ grupos junk,
     obter_distribuicao_mes 0 [quadro_exemplo]
     = (Ok grupos, [quadro_exemplo] ++ junk) ∧
     soma_contagens "total_amostras" grupos = 2) ∧
  (∃ grupos junk,
     obter_distribuicao_ponto_coleta 0 [quadro_exemplo]
     = (Ok grupos, [quadro_exemplo] ++ junk) ∧
     soma_contagens "total_analises" grupos = 2).
Proof.
  destruct (group_counts_sum [quadro_exemplo] 0 quadro_exemplo eq_refl)
    as (Hb & Hm & Hp).
  split; [| split].
  - destruct (Hb eq_refl) as (grupos & junk & Hrun & _ & Hall).
    exists grupos, junk. split; [exact Hrun |].
    apply Hall. intros r Hr.
    repeat (apply elem_of_cons in Hr as [-> | Hr]; [done |]).
    by apply elem_of_nil in Hr.
  - destruct (Hm eq_refl) as (grupos & junk & Hrun & _ & Hall).
    exists grupos, junk. split; [exact Hrun |].
    apply Hall. intros r Hr.
    repeat (apply elem_of_cons in Hr as [-> | Hr]; [by vm_compute |]).
    by apply elem_of_nil in Hr.
  - destruct (Hp eq_refl) as (grupos & junk & Hrun & _ & Hall).
    exists grupos, junk. split; [exact Hrun |].
    apply Hall. intros r Hr.
    repeat (apply elem_of_cons in Hr as [-> | Hr]; [done |]).
    by apply elem_of_nil in Hr.
Defined.

Lemma group_order_witness :
  (∃ grupos junk,
     obter_dados_bairros 0 [quadro_ordem] = (Ok grupos, [quadro_ordem] ++ junk) ∧
     let nomes := nomes_dos_grupos "bairro" grupos in
     NoDup nomes ∧
     (∀ n, n ∈ nomes ↔ n ∈ map bairro (rows quadro_ordem)) ∧
     first_occurrence_order nomes (map bairro (rows quadro_ordem))) ∧
  (∃ grupos junk,
     obter_distribuicao_ponto_coleta 0 [quadro_ordem]
     = (Ok grupos, [quadro_ordem] ++ junk) ∧
     let nomes := nomes_dos_grupos "ponto_de_coleta" grupos in
     NoDup nomes ∧
     (∀ n, n ∈ nomes ↔
           n ≠ None ∧ n ∈ map ponto_de_coleta (rows quadro_ordem)) ∧
     first_occurrence_order nomes (map ponto_de_coleta (rows quadro_ordem))) ∧
  (∃ grupos junk,
     obter_distribuicao_mes 0 [quadro_ordem]
     = (Ok grupos, [quadro_ordem] ++ junk) ∧
     let meses := meses_dos_grupos grupos in
     increasing meses ∧
     (∀ m, m ∈ meses ↔
           1 ≤ m ≤ 12 ∧
           ∃ r, r ∈ rows quadro_ordem ∧ num_eq (mes r) m = true)).
Proof.
  destruct (group_order [quadro_ordem] 0 quadro_ordem eq_refl)
    as (Hb & Hp & Hm).
  exact (conj (Hb eq_refl) (conj (Hp eq_refl) (Hm eq_refl))).
Defined.

Lemma todos_is_no_filter_witness :
  carregar_dados (Ok quadro_ordem) (Some {["ano" := JStr "todos"]})
  = carregar_dados (Ok quadro_ordem) None.
Proof.
  apply todos_is_no_filter. intros k Hk.
  repeat (apply elem_of_cons in Hk as [-> | Hk];
          [first [by (right; vm_compute) | by (left; vm_compute)] |]).
  by apply elem_of_nil in Hk.
Defined.

Lemma evaluator_reads_one_result_witness :
  verificar_conformidade
    (com_resultado
       (amostra (Some "Turbidez (uT)") (Some "9,9") (Some (F64.of_Z 1)))
       (Some "sem leitura"))
  = verificar_conformidade
      (amostra (Some "Turbidez (uT)") (Some "9,9") (Some (F64.of_Z 1))).
Proof.
  apply (evaluator_reads_one_result _ "Turbidez (uT)" (Maximo lit_5_0));
    [reflexivity | by vm_compute | done | reflexivity].
Defined.

Lemma decimal_comma_is_point_witness :
  verificar_conformidade
    (com_resultado (amostra (Some "Fluoreto (mg/L)") (Some "1,5") None)
       (Some "1.5"))
  = verificar_conformidade
      (amostra (Some "Fluoreto (mg/L)") (Some "1,5") None).
Proof.
  exact (decimal_comma_is_point
           (amostra (Some "Fluoreto (mg/L)") (Some "1,5") None)
           "Fluoreto (mg/L)" (Maximo lit_1_5) "1,5"
           eq_refl eq_refl ltac:(done) eq_refl).
Defined.

Lemma estatisticas_por_parametro_witness :
  ∃ stats junk,
    calcular_estatisticas 0 [quadro_exemplo]
    = (Ok stats, [quadro_exemplo] ++ junk) ∧
    stats !! "conformidade_escherichia_coli" = Some (PFloat (F64.of_Z 100)) ∧
    stats !! "conformidade_turbidez" = Some (PFloat (S754_zero false)) ∧
    stats !! "conformidade_fluoreto_mg_l" = Some (PInt 0).
Proof.
  destruct (estatisticas_por_parametro [quadro_exemplo] 0 quadro_exemplo
              eq_refl)
    as (stats & junk & Hrun & Hp & _ & _ & Ht & _).
  exists stats, junk. split; [exact Hrun |].
  pose proof (Hp "Escherichia coli" ltac:(in_written_list)) as H1.
  pose proof (Hp "Turbidez (uT)" ltac:(in_written_list)) as H2.
  pose proof (Hp "Fluoreto (mg/L)" ltac:(in_written_list)) as H3.
  clear Hrun Hp.
  change ("conformidade_" +:+ param_key "Escherichia coli")
    with "conformidade_escherichia_coli" in H1.
  change ("conformidade_" +:+ param_key "Turbidez (uT)")
    with "conformidade_turbidez_ut" in H2.
  change ("conformidade_" +:+ param_key "Fluoreto (mg/L)")
    with "conformidade_fluoreto_mg_l" in H3.
  rewrite Ht, H1, H2, H3.
  split; [| split]; by vm_compute.
Defined.

Lemma estatisticas_bairros_unicos_witness :
  ∃ stats junk,
    calcular_estatisticas 0 [quadro_ordem] = (Ok stats, [quadro_ordem] ++ junk) ∧
    stats !! "bairros_unicos" = Some (PInt 2).
Proof.
  destruct (estatisticas_bairros_unicos [quadro_ordem] 0 quadro_ordem eq_refl)
    as (stats & junk & Hrun & Hb & _).
  exists stats, junk. split; [exact Hrun |].
  rewrite Hb. by vm_compute.
Defined.

Lemma estatisticas_keys_witness :
  ∃ stats junk,
    calcular_estatisticas 0 [quadro_vazio] = (Ok stats, [quadro_vazio] ++ junk) ∧
    dom stats = chaves_estatisticas.
Proof. exact (estatisticas_keys [quadro_vazio] 0 quadro_vazio eq_refl). Defined.

Lemma grouping_early_return_witness :
  obter_dados_bairros 0 [quadro_vazio] = (Ok [], [quadro_vazio]) ∧
  obter_distribuicao_mes 0 [quadro_vazio] = (Ok [], [quadro_vazio]) ∧
  obter_distribuicao_ponto_coleta 0 [quadro_vazio] = (Ok [], [quadro_vazio]).
Proof.
  destruct (grouping_early_return [quadro_vazio] 0 quadro_vazio eq_refl)
    as (Hb & Hm & Hp).
  split; [| split]; [apply Hb | apply Hm | apply Hp]; by left.
Defined.

Lemma neighbourhood_groups_witness :
  ∃ grupos junk,
    obter_dados_bairros 0 [quadro_ordem] = (Ok grupos, [quadro_ordem] ++ junk) ∧
    ∀ g, g ∈ grupos →
      ∃ nome,
        let membros :=
          List.filter (λ r, cell_eq (bairro r) nome) (rows quadro_ordem) in
        nome ∈ map bairro (rows quadro_ordem) ∧
        g !! "bairro" = Some (of_name nome) ∧
        g !! "total_analises" = Some (PInt (Z.of_nat (length membros))) ∧
        (nome = None →
           membros = [] ∧ g !! "percentual_conforme" = Some (PInt 0)) ∧
        (nome ≠ None →
           membros ≠ [] ∧
           g !! "percentual_conforme" = Some (PFloat (taxa membros))).
Proof. exact (neighbourhood_groups [quadro_ordem] 0 quadro_ordem eq_refl). Defined.

Lemma month_groups_witness :
  ∃ grupos junk,
    obter_distribuicao_mes 0 [quadro_ordem]
    = (Ok grupos, [quadro_ordem] ++ junk) ∧
    ∀ g, g ∈ grupos →
      ∃ m nome,
        let membros :=
          List.filter (λ r, num_eq (mes r) m) (rows quadro_ordem) in
        1 ≤ m ≤ 12 ∧
        g !! "mes" = Some (PInt m) ∧
        nomes_meses !! Z.to_nat (m - 1) = Some nome ∧
        g !! "nome_mes" = Some (PStr nome) ∧
        membros ≠ [] ∧
        g !! "total_amostras" = Some (PInt (Z.of_nat (length membros))) ∧
        g !! "percentual_conforme" = Some (PFloat (taxa membros)).
Proof. exact (month_groups [quadro_ordem] 0 quadro_ordem eq_refl). Defined.

Lemma collection_point_groups_witness :
  ∃ grupos junk,
    obter_distribuicao_ponto_coleta 0 [quadro_ordem]
    = (Ok grupos, [quadro_ordem] ++ junk) ∧
    ∀ g, g ∈ grupos →
      ∃ nome,
        let membros :=
          List.filter (λ r, cell_eq (ponto_de_coleta r) (Some nome))
            (rows quadro_ordem) in
        g !! "ponto_de_coleta" = Some (PStr nome) ∧
        membros ≠ [] ∧
        g !! "total_analises" = Some (PInt (Z.of_nat (length membros))) ∧
        g !! "percentual_conforme" = Some (PFloat (taxa membros)).
Proof.
  exact (collection_point_groups [quadro_ordem] 0 quadro_ordem eq_refl).
Defined.

Lemma group_short_names_witness :
  (∃ grupos junk,
     obter_dados_bairros 0 [quadro_exemplo]
     = (Ok grupos, [quadro_exemplo] ++ junk) ∧
     ∀ g, g ∈ grupos → nomes_curtos_do_grupo g) ∧
  (∃ grupos junk,
     obter_distribuicao_mes 0 [quadro_exemplo]
     = (Ok grupos, [quadro_exemplo] ++ junk) ∧
     ∀ g, g ∈ grupos → nomes_curtos_do_grupo g).
Proof. exact (group_short_names [quadro_exemplo] 0 quadro_exemplo eq_refl). Defined.

Lemma row_order_is_irrelevant_witness :
  fst (calcular_estatisticas 0 [quadro_ordem])
  = fst (calcular_estatisticas 0 [ao_contrario quadro_ordem]) ∧
  fst (obter_distribuicao_mes 0 [quadro_ordem])
  = fst (obter_distribuicao_mes 0 [ao_contrario quadro_ordem]).
Proof.
  apply (row_order_is_irrelevant [quadro_ordem] [ao_contrario quadro_ordem]
           0 0 quadro_ordem (ao_contrario quadro_ordem) eq_refl eq_refl
           eq_refl).
  simpl. symmetry. apply reverse_Permutation.
Defined.

Lemma bairros_unicos_counts_named_groups_witness :
  ∃ stats grupos junk junk',
    calcular_estatisticas 0 [quadro_ordem] = (Ok stats, [quadro_ordem] ++ junk) ∧
    obter_dados_bairros 0 [quadro_ordem] = (Ok grupos, [quadro_ordem] ++ junk') ∧
    stats !! "bairros_unicos"
    = Some (PInt (Z.of_nat
                    (length (omap id (nomes_dos_grupos "bairro" grupos))))).
Proof.
  exact (bairros_unicos_counts_named_groups [quadro_ordem] 0 quadro_ordem
           eq_refl).
Defined.

Lemma loader_error_path_witness :
  carregar_dados (Raise OtherError) None = quadro_vazio ∧
  carregar_dados (Ok quadro_ordem) (Some {["mes" := JStr "fevereiro"]})
  = quadro_vazio.
Proof.
  split.
  - exact (proj1 (proj2 (loader_error_path (Raise OtherError) None))
             OtherError eq_refl).
  - apply (proj2 (proj2 (loader_error_path (Ok quadro_ordem)
                           (Some {["mes" := JStr "fevereiro"]})))
             quadro_ordem {["mes" := JStr "fevereiro"]} "mes"
             (JStr "fevereiro") ValueError eq_refl eq_refl);
      [in_written_list | by vm_compute | by vm_compute | by vm_compute].
Defined.

Lemma filters_are_conjunctive_witness :
  carregar_dados (Ok quadro_ordem)
    (Some (<["mes" := JStr "2"]> {["bairro" := JStr "Pituba"]}))
  = fold_left completar_coluna expected_cols
      (select_rows
         (passa_filtros (<["mes" := JStr "2"]> {["bairro" := JStr "Pituba"]})
            quadro_ordem) quadro_ordem).
Proof.
  apply (filters_are_conjunctive
           (<["mes" := JStr "2"]> {["bairro" := JStr "Pituba"]})
           quadro_ordem).
  intros col v Hc Hf _.
  apply elem_of_cons in Hc as [-> | Hc].
  - by vm_compute in Hf.
  - apply list_elem_of_singleton in Hc as ->.
    vm_compute in Hf. injection Hf as <-. exists 2. by vm_compute.
Defined.

Lemma absence_rule_ignores_case_witness :
  verificar_conformidade
    (com_resultado (amostra (Some "Escherichia coli") (Some " Ausente") None)
       (Some (PyStr.upper " Ausente")))
  = verificar_conformidade
      (amostra (Some "Escherichia coli") (Some " Ausente") None) ∧
  verificar_conformidade
    (com_resultado (amostra (Some "Escherichia coli") (Some " Ausente") None)
       (Some (PyStr.lower " Ausente")))
  = verificar_conformidade
      (amostra (Some "Escherichia coli") (Some " Ausente") None) ∧
  verificar_conformidade
    (com_resultado (amostra (Some "Escherichia coli") (Some " Ausente") None)
       (Some (PyStr.strip " Ausente")))
  = verificar_conformidade
      (amostra (Some "Escherichia coli") (Some " Ausente") None).
Proof.
  exact (absence_rule_ignores_case
           (amostra (Some "Escherichia coli") (Some " Ausente") None)
           "Escherichia coli" "AUSENTE" " Ausente" eq_refl eq_refl eq_refl
           eq_refl).
Defined.
